(** * auto-installer.py: authentication and reconciliation engine

    A shallow embedding of the parts of [auto-installer.py] that decide
    how the local configuration, the login callback and the remote
    resource API interact: the config store, the HTTP wrapper, the OAuth
    callback handler with its server loop, the login flow, and the
    certificate / profile reconciliation functions.

    Python values that come out of [json.load] are modelled by [json];
    the process is modelled by a state-and-error monad over a [world]
    (files on disk, process globals, the trace of observable events) in
    which every answer of the outside (HTTP servers, external tools, the
    browser) is given by an oracle that sees the whole history.  A call
    ends in [Done], in [Exit] ([sys.exit(1)]), in [Raise] (an exception
    that nobody catches) or in [Hang] (the wait for a callback that never
    comes).

    A function of the source keeps its name.  Where a property speaks
    of a part of a function, that part is a definition of its own, named
    after what it does ([cert_list_step], [reuse_cert],
    [delete_same_named], [submit_cert], [register_device], ...), and the
    function is their composition in the order of the source.

    Of the handling of the package, the rewriting of [module.json] and
    the installation on the device are modelled.  Not modelled: the
    unpacking, packing and signing of the package (their tools are
    module variables that [globals] does not hold), the checks of the
    tool chain other than the connection test, and everything that is
    only printed. *)

From Stdlib Require Import String Ascii List ZArith Bool Lia Arith.
Import ListNotations.
Open Scope string_scope.
Open Scope Z_scope.
Open Scope list_scope.

Set Implicit Arguments.
Set Warnings "-register-all".

(** ** Python values *)

(** The values [json.load] / [json.loads] produce.  Objects keep the
    insertion order of their keys, as Python dicts do.  Numbers are the
    integer literals (the identifiers, status and result codes of this
    API); floating-point literals are outside the model. *)
Inductive json : Type :=
| JNull
| JBool (b : bool)
| JNum (n : Z)
| JStr (s : string)
| JArr (l : list json)
| JObj (d : list (string * json)).

(** A Python [str] together with what [json.loads] makes of it: [parsed]
    is [None] when the text is not valid JSON (the empty text, a torn
    file, an HTML error page). *)
Record text : Type := Text { raw : string; parsed : option json }.

Definition plain (s : string) : text := Text s None.

(** [bool(x)] *)
Definition py_truthy (x : json) : bool :=
  match x with
  | JNull => false
  | JBool b => b
  | JNum n => negb (n =? 0)
  | JStr s => negb (String.eqb s "")
  | JArr l => match l with [] => false | _ => true end
  | JObj d => match d with [] => false | _ => true end
  end.

Fixpoint assoc (k : string) (d : list (string * json)) : option json :=
  match d with
  | [] => None
  | (k', v) :: r => if String.eqb k k' then Some v else assoc k r
  end.

(** [x == y] *)
Fixpoint py_eq (x y : json) {struct x} : bool :=
  match x, y with
  | JNull, JNull => true
  | JBool a, JBool b => Bool.eqb a b
  | JBool a, JNum n => n =? (if a then 1 else 0)
  | JNum n, JBool a => n =? (if a then 1 else 0)
  | JNum n, JNum m => n =? m
  | JStr s, JStr t => String.eqb s t
  | JArr xs, JArr ys =>
      (fix go (xs ys : list json) {struct xs} : bool :=
         match xs, ys with
         | [], [] => true
         | a :: xs', b :: ys' => py_eq a b && go xs' ys'
         | _, _ => false
         end) xs ys
  | JObj dx, JObj dy =>
      (length dx =? length dy)%nat &&
      (fix go (dx : list (string * json)) {struct dx} : bool :=
         match dx with
         | [] => true
         | (k, v) :: dx' =>
             match assoc k dy with
             | Some v' => py_eq v v' && go dx'
             | None => false
             end
         end) dx
  | _, _ => false
  end.

(** [x.get(k, dflt)]; [None] is the [AttributeError] of a value that is
    not a dict. *)
Definition py_get (x : json) (k : string) (dflt : json) : option json :=
  match x with
  | JObj d => Some (match assoc k d with Some v => v | None => dflt end)
  | _ => None
  end.

(** [d[k] = v] on the items of a dict: an existing key keeps its place. *)
Fixpoint dict_set (k : string) (v : json) (d : list (string * json))
  : list (string * json) :=
  match d with
  | [] => [(k, v)]
  | (k', v') :: r =>
      if String.eqb k k' then (k, v) :: r else (k', v') :: dict_set k v r
  end.

(** [x[k] = v]; [None] is the [TypeError] of a value that supports no
    item assignment by string key. *)
Definition py_setitem (x : json) (k : string) (v : json) : option json :=
  match x with
  | JObj d => Some (JObj (dict_set k v d))
  | _ => None
  end.

Fixpoint chars (s : string) : list json :=
  match s with
  | EmptyString => []
  | String c r => JStr (String c EmptyString) :: chars r
  end.

(** [for c in x]: the elements a [for] loop or a comprehension visits;
    [None] is the [TypeError] of a value that is not iterable. *)
Definition py_iter (x : json) : option (list json) :=
  match x with
  | JArr l => Some l
  | JStr s => Some (chars s)
  | JObj d => Some (map (fun kv => JStr (fst kv)) d)
  | _ => None
  end.

(** [[c for c in l if c.get(k) == v]]: [None] when some [c.get] raises. *)
Fixpoint select_eq (k : string) (v : json) (l : list json)
  : option (list json) :=
  match l with
  | [] => Some []
  | c :: r =>
      match py_get c k JNull with
      | None => None
      | Some x =>
          match select_eq k v r with
          | None => None
          | Some r' => Some (if py_eq x v then c :: r' else r')
          end
      end
  end.

(** The loop
    [for device in devices: if device.get(k) == v: found = device; break]:
    the first element whose [k] equals [v]; the outer [None] is a raise
    on an element visited before the match. *)
Fixpoint find_eq (k : string) (v : json) (l : list json)
  : option (option json) :=
  match l with
  | [] => Some None
  | c :: r =>
      match py_get c k JNull with
      | None => None
      | Some x => if py_eq x v then Some (Some c) else find_eq k v r
      end
  end.

(** ** Strings and paths *)

(** The line feed. *)
Definition nl : string := String "010"%char EmptyString.

Definition is_sep (c : ascii) : bool := Ascii.eqb c "/"%char.

Fixpoint ends_with_sep (s : string) : bool :=
  match s with
  | EmptyString => false
  | String c EmptyString => is_sep c
  | String _ r => ends_with_sep r
  end.

Definition starts_with_sep (s : string) : bool :=
  match s with
  | String c _ => is_sep c
  | EmptyString => false
  end.

(** One step of [posixpath.join]: an absolute component restarts the
    path, otherwise it is appended with exactly one separator. *)
Definition join2 (path b : string) : string :=
  if starts_with_sep b then b
  else if String.eqb path "" || ends_with_sep path then (path ++ b)%string
  else (path ++ "/" ++ b)%string.

(** [os.path.join(a, *p)] *)
Definition os_path_join (a : string) (p : list string) : string :=
  fold_left join2 p a.

(** [os.path.basename]: what follows the last separator. *)
Fixpoint basename_from (acc s : string) : string :=
  match s with
  | EmptyString => acc
  | String c r =>
      if is_sep c then basename_from "" r
      else basename_from (acc ++ String c EmptyString)%string r
  end.

Definition os_path_basename (s : string) : string := basename_from "" s.

(** [s.replace('.', '_')] *)
Fixpoint replace_dots (s : string) : string :=
  match s with
  | EmptyString => EmptyString
  | String c r =>
      String (if Ascii.eqb c "."%char then "_"%char else c) (replace_dots r)
  end.

(** [needle in s] *)
Fixpoint contains (needle s : string) : bool :=
  String.prefix needle s ||
  match s with
  | EmptyString => false
  | String _ r => contains needle r
  end.

(** The characters [str.strip()] removes, within ASCII. *)
Definition is_space (c : ascii) : bool :=
  let n := nat_of_ascii c in
  ((9 <=? n) && (n <=? 13) || (28 <=? n) && (n <=? 32))%nat.

Fixpoint lstrip (s : string) : string :=
  match s with
  | String c r => if is_space c then lstrip r else s
  | EmptyString => EmptyString
  end.

Fixpoint rstrip (s : string) : string :=
  match s with
  | EmptyString => EmptyString
  | String c r =>
      match rstrip r with
      | EmptyString => if is_space c then EmptyString else String c EmptyString
      | r' => String c r'
      end
  end.

(** [s.strip()] *)
Definition strip (s : string) : string := rstrip (lstrip s).

(** [s.split("\n")] *)
Fixpoint split_lines_from (acc s : string) : list string :=
  match s with
  | EmptyString => [acc]
  | String c r =>
      if Ascii.eqb c "010"%char then acc :: split_lines_from "" r
      else split_lines_from (acc ++ String c EmptyString)%string r
  end.

Definition split_lines (s : string) : list string := split_lines_from "" s.

(** [s[:n]] *)
Definition take (n : nat) (s : string) : string := String.substring 0 n s.

(** ** The process and its surroundings *)

Inductive method : Type := GET | POST.

(** A piece of a message handed to [error_print]: literal text or a
    Python [str], an interpolated JSON value, an interpolated integer, a
    response body as [http_request] returned it, or the description of a
    caught exception (not modelled). *)
Inductive frag : Type :=
| L (s : string)
| V (j : json)
| N (n : Z)
| B (b : option text)
| X.

(** A request as the callback server sees it: the HTTP method, the path
    component of [urlparse(self.path)], whether the body can be read and
    decoded, the decoded body, and [parse_qs] of the body.
    [rq_inherited] is what [SimpleHTTPRequestHandler], the base class of
    [OAuthHandler], answers when the request is not a POST: [do_GET] and
    [do_HEAD] answer from the working directory (a 200 with the file or
    the listing, a 301, a 304, a 404), any other method gets a 501, a
    request that cannot be parsed an error; [None] is a connection that
    gets no answer.  The requests are those that have arrived in full: a
    body shorter than its announced length, for which the handler would
    go on waiting, is outside the model. *)
Record request : Type := Request {
  rq_method : string;
  rq_path : string;
  rq_readable : bool;
  rq_body : string;
  rq_form : list (string * list string);
  rq_inherited : option (Z * string)
}.

(** What the process does that the outside can see.  [print] to stdout
    ([info_print], [debug_print], [separator_print]) is not recorded.
    The callback server's log is a file: its lines are in the file, and
    of them only the [error] lines are events as well. *)
Inductive event : Type :=
| EHttp (m : method) (url : string) (headers : list (string * json))
        (data : option json)          (* [requests.get/post] in [http_request] *)
| EFetch (url : json)                 (* [requests.get] in [download_file] *)
| EExec (cmd : list string)           (* [subprocess] *)
| EError (msg : list frag)            (* [error_print] *)
| ELogin                              (* [login_eco] entered *)
| EBind (port : Z)                    (* [socketserver.TCPServer((..., port), ...)] *)
| EBrowser (url : string)             (* [check_login] *)
| ERequest (rq : request)             (* a request reaches the callback server *)
| EExchange (url : string) (headers : list (string * string))
                                      (* [session.get] in [do_POST] *)
| EReply (status : Z) (body : string) (* the answer to a request: [send_response]
                                         and [wfile.write], or the base class's *)
| EServerLog (msg : list frag)        (* [logger.error] of the callback server *)
| EShutdown.                          (* [server.shutdown] requested *)

(** How a subprocess ends: exit status 0 with its output and the files it
    left behind, a non-zero exit status ([CalledProcessError]), a timeout
    ([TimeoutExpired]), or a failure to start ([OSError]). *)
Inductive exec_result : Type :=
| XOk (output : string) (wrote : list (string * text))
| XFail (output : string)
| XTimeout
| XOSError.

(** How [requests.get(file_url, stream=True)] followed by the chunk loop
    ends: the whole content, a [RequestException] before the local file
    is opened, or one after it was opened (what had arrived stays). *)
Inductive fetch_result : Type :=
| FetchOk (content : text)
| FetchError
| FetchBroken (partial : text).

(** The outside.  Every answer may depend on the whole history, the
    event being answered last. *)
Record oracle : Type := Oracle {
  o_http : list event -> option (text * Z);
      (* [response.text] and [response.status_code]; [None] is
         [requests.RequestException] *)
  o_fetch : list event -> fetch_result;
  o_exec : list event -> exec_result;
  o_bind : list event -> bool;
  o_requests : list event -> list request;
      (* the requests that reach the callback server, in order *)
  o_exchange : list event -> option text;
      (* [session.get(...)] with [raise_for_status]; [None] is
         [requests.RequestException] *)
  o_mktemp : list event -> string -> string;
  o_dumps : json -> string;
      (* the text [json.dump] writes for a value *)
  o_format : list event -> list frag -> string
      (* the text of a message: how an interpolated value or exception
         reads *)
}.

(** The module-level variables the modelled functions read. *)
Record globals : Type := Globals {
  HOME_DIR : string;
  JAVA_HOME : option string;
  HDC_COMMAND : option string;
  DEVICE_IP : option string;
  DEBUG : bool
}.

Record world : Type := World {
  fs : string -> option text;    (* regular files and their content *)
  locked : string -> bool;       (* paths that [open(..., "w")] refuses *)
  glob : globals;
  env : oracle;
  trace : list event
}.

Definition CONFIG_DIR (g : globals) : string :=
  os_path_join (HOME_DIR g) [".autoPublisher"; "config"].
Definition STORE_DIR (g : globals) : string :=
  os_path_join (CONFIG_DIR g) ["store"].
Definition ECO_CONFIG_FILE (g : globals) : string :=
  os_path_join (CONFIG_DIR g) ["eco_config.json"].

Definition CERT_NAME : string := "xiaobai-debug".
Definition PROFILE_NAME : string := "xiaobai-debug".
Definition DEFAULT_STOREPASS : string := "xiaobai123".
Definition DEFAULT_KEYALIAS : string := "xiaobai".

(** How a call ends: it returns, the process leaves through
    [sys.exit(1)], an exception nobody catches ends it, or it blocks for
    ever. *)
Inductive outcome (A : Type) : Type :=
| Done (a : A)
| Exit
| Raise
| Hang.
Arguments Exit {A}.
Arguments Raise {A}.
Arguments Hang {A}.

Definition M (A : Type) : Type := world -> outcome A * world.

Definition ret {A} (a : A) : M A := fun w => (Done a, w).

Definition bind {A B} (m : M A) (f : A -> M B) : M B :=
  fun w =>
    match m w with
    | (Done a, w') => f a w'
    | (Exit, w') => (Exit, w')
    | (Raise, w') => (Raise, w')
    | (Hang, w') => (Hang, w')
    end.

Declare Scope prog_scope.
Delimit Scope prog_scope with prog.
Notation "x <- c1 ;; c2" := (bind c1 (fun x => c2))
  (at level 61, c1 at next level, right associativity) : prog_scope.
Notation "' pat <- c1 ;; c2" := (bind c1 (fun x => match x with pat => c2 end))
  (at level 61, pat pattern, c1 at next level, right associativity) : prog_scope.
Notation "c1 ;; c2" := (bind c1 (fun _ => c2))
  (at level 61, right associativity) : prog_scope.
Open Scope prog_scope.

Definition sys_exit {A} : M A := fun w => (Exit, w).
Definition raise {A} : M A := fun w => (Raise, w).
Definition hang {A} : M A := fun w => (Hang, w).

(** An [option] whose [None] is an exception nobody catches. *)
Definition must {A} (o : option A) : M A :=
  match o with Some a => ret a | None => raise end.

Definition get_globals : M globals := fun w => (Done (glob w), w).

Definition emit (e : event) : M unit :=
  fun w => (Done tt, World (fs w) (locked w) (glob w) (env w) (trace w ++ [e])).

(** Emit an event and hear what the outside answers to it. *)
Definition ask {A} (e : event) (o : oracle -> list event -> A) : M A :=
  fun w =>
    let t := trace w ++ [e] in
    (Done (o (env w) t), World (fs w) (locked w) (glob w) (env w) t).

Definition error_print (msg : list frag) : M unit := emit (EError msg).

Definition set_fs (f : string -> option text) : M unit :=
  fun w => (Done tt, World f (locked w) (glob w) (env w) (trace w)).

Definition read_file (p : string) : M (option text) :=
  fun w => (Done (fs w p), w).

(** [os.path.isfile(p)] / [os.path.exists(p)] on the modelled files. *)
Definition os_path_isfile (p : string) : M bool :=
  fun w => (Done (match fs w p with Some _ => true | None => false end), w).

Definition is_locked (p : string) : M bool :=
  fun w => (Done (locked w p), w).

Definition dumps (j : json) : M string :=
  fun w => (Done (o_dumps (env w) j), w).

(** *** Steps on the disk *)

Inductive fsop : Type :=
| OpOpenW (p : string)              (* [open(p, "w")]: created or truncated *)
| OpWrite (p : string) (t : text)   (* the content written and flushed *)
| OpRemove (p : string)             (* [os.remove(p)] *)
| OpRename (src dst : string).      (* [os.rename] / [os.replace] *)

Definition upd (f : string -> option text) (p : string) (v : option text)
  : string -> option text :=
  fun q => if String.eqb q p then v else f q.

Definition apply_op (f : string -> option text) (op : fsop)
  : string -> option text :=
  match op with
  | OpOpenW p => upd f p (Some (plain ""))
  | OpWrite p t => upd f p (Some t)
  | OpRemove p => upd f p None
  | OpRename src dst => upd (upd f dst (f src)) src None
  end.

Definition apply_ops (ops : list fsop) (f : string -> option text)
  : string -> option text :=
  fold_left apply_op ops f.

Definition do_ops (ops : list fsop) : M unit :=
  fun w => set_fs (apply_ops ops (fs w)) w.

(** ** The config store *)

(** What [with open(p, "w") as f: json.dump(data, f, ...)] does to the
    disk, step by step; [s] is the text [json.dump] produces. *)
Definition dump_ops (p : string) (s : string) (data : json) : list fsop :=
  [OpOpenW p; OpWrite p (Text s (Some data))].

Definition clear_eco_config_file : M unit :=
  g <- get_globals ;;
  let p := ECO_CONFIG_FILE g in
  lk <- is_locked p ;;
  if lk then
    error_print [L "清空 ECO_CONFIG_FILE 失败: "; X] ;;
    sys_exit
  else
    s <- dumps (JObj []) ;;
    do_ops (dump_ops p s (JObj [])).

Definition read_eco_config : M json :=
  g <- get_globals ;;
  let p := ECO_CONFIG_FILE g in
  f <- read_file p ;;
  match f with
  | None => ret (JObj [])
  | Some t =>
      match parsed t with
      | Some j => ret j
      | None =>
          error_print [L "读取配置文件失败: "; L p; L ", error: "; X] ;;
          ret (JObj [])
      end
  end.

Definition write_eco_config (data : json) : M unit :=
  g <- get_globals ;;
  let p := ECO_CONFIG_FILE g in
  lk <- is_locked p ;;
  if lk then
    error_print [L "写入配置文件失败: "; L p; L ", error: "; X]
  else
    s <- dumps data ;;
    do_ops (dump_ops p s data).

Definition get_config_value (key : string) : M json :=
  config <- read_eco_config ;;
  must (py_get config key (JStr "")).

(** [for k, v in kwargs.items(): config[k] = v] *)
Fixpoint set_items (kwargs : list (string * json)) (config : json)
  : option json :=
  match kwargs with
  | [] => Some config
  | (k, v) :: r =>
      match py_setitem config k v with
      | Some config' => set_items r config'
      | None => None
      end
  end.

Definition update_config (kwargs : list (string * json)) : M unit :=
  config <- read_eco_config ;;
  config' <- must (set_items kwargs config) ;;
  write_eco_config config'.

Definition initialize_eco_config : M unit :=
  g <- get_globals ;;
  (if DEBUG g then clear_eco_config_file else ret tt) ;;
  present <- os_path_isfile (ECO_CONFIG_FILE g) ;;
  if negb present then
    write_eco_config
      (JObj [("storepass", JStr DEFAULT_STOREPASS);
             ("keyalias", JStr DEFAULT_KEYALIAS)])
  else
    storepass <- get_config_value "storepass" ;;
    (if negb (py_truthy storepass)
     then update_config [("storepass", JStr DEFAULT_STOREPASS)]
     else ret tt) ;;
    keyalias <- get_config_value "keyAlias" ;;
    (if negb (py_truthy keyalias)
     then update_config [("keyalias", JStr DEFAULT_KEYALIAS)]
     else ret tt).

(** ** The HTTP wrapper and downloads *)

(** [http_request(method, url, data)].  The callers only pass ["GET"]
    and ["POST"]; a GET sends no body. *)
Definition http_request (m : method) (url : string) (data : option json)
  : M (option text * Z) :=
  config <- read_eco_config ;;
  oauth2_token <- must (py_get config "oauth2_token" (JStr "")) ;;
  team_id <- must (py_get config "team_id" (JStr "")) ;;
  uid <- must (py_get config "uid" (JStr "")) ;;
  let headers :=
    [("Content-Type", JStr "application/json");
     ("oauth2Token", oauth2_token);
     ("teamId", team_id);
     ("uid", uid)] in
  r <- ask (EHttp m url headers (match m with GET => None | POST => data end))
           o_http ;;
  match r with
  | Some (body, code) => ret (Some body, code)
  | None =>
      error_print [L "请求失败: "; X] ;;
      ret (None, 0)
  end.

Definition download_file (file_url : json) (file_name : string) : M string :=
  g <- get_globals ;;
  let local_path := os_path_join (CONFIG_DIR g) [file_name] in
  r <- ask (EFetch file_url) o_fetch ;;
  match r with
  | FetchError =>
      error_print [L "下载失败: "; X] ;;
      sys_exit
  | FetchOk content =>
      lk <- is_locked local_path ;;
      if lk then raise
      else
        do_ops [OpOpenW local_path; OpWrite local_path content] ;;
        ret local_path
  | FetchBroken partial =>
      lk <- is_locked local_path ;;
      if lk then raise
      else
        do_ops [OpOpenW local_path; OpWrite local_path partial] ;;
        error_print [L "下载失败: "; X] ;;
        sys_exit
  end.

(** ** The login callback server *)

Fixpoint form_get (k : string) (params : list (string * list string))
  : list string :=
  match params with
  | [] => []
  | (k', v) :: r => if String.eqb k k' then v else form_get k r
  end.

(** [SingleFileLogger(log_path)]: the file is opened for appending,
    which creates it when it is not there. *)
Definition open_log (logger : string) : M unit :=
  lk <- is_locked logger ;;
  if lk then raise
  else
    fun w =>
      set_fs (upd (fs w) logger
                (Some (match fs w logger with
                       | Some t => t
                       | None => plain ""
                       end))) w.

(** [self.file.write(f"[LEVEL] {message}\n")] and [flush] through the
    file opened for appending. *)
Definition log_append (logger level : string) (msg : list frag) : M unit :=
  fun w =>
    let old := match fs w logger with Some t => raw t | None => "" end in
    let line :=
      ("[" ++ level ++ "] " ++ o_format (env w) (trace w) msg ++ nl)%string in
    set_fs (upd (fs w) logger (Some (plain (old ++ line)))) w.

(** [logger.info] *)
Definition logger_info (logger : string) (msg : list frag) : M unit :=
  log_append logger "INFO" msg.

(** [logger.error] *)
Definition logger_error (logger : string) (msg : list frag) : M unit :=
  log_append logger "ERROR" msg ;;
  emit (EServerLog msg).

(** [OAuthHandler.do_POST]; [logger] is the path of the log file of
    [self.logger].  The result tells whether the handler asked the
    server to shut down ([self.server.shutdown] on its own thread);
    [Raise] is an exception that leaves the handler. *)
Definition do_POST (token_file logger : string) (rq : request) : M bool :=
  if negb (String.eqb (rq_path rq) "/callback") then
    emit (EReply 404 "Not Found") ;;
    logger_error logger [L "收到未知路径的 POST 请求: "; L (rq_path rq)] ;;
    ret false
  else if negb (rq_readable rq) then raise
  else
    logger_info logger [L "收到回调 post_data: "; L (rq_body rq)] ;;
    match form_get "tempToken" (rq_form rq) with
    | [] =>
        emit (EReply 400 "Missing tempToken") ;;
        logger_error logger [L "回调中缺少 tempToken"] ;;
        ret false
    | temp_token :: _ =>
        logger_info logger [L "获取到 tempToken: "; L temp_token] ;;
        let temptoken_url :=
          ("https://cn.devecostudio.huawei.com/authrouter/auth/api/"
           ++ "temptoken/check?site=CN&tempToken=" ++ temp_token
           ++ "&appid=1007&version=0.0.0")%string in
        logger_info logger [L "用 tempToken 获取 jwtToken..."] ;;
        r1 <- ask (EExchange temptoken_url []) o_exchange ;;
        match r1 with
        | None =>
            logger_error logger [L "temptoken/check 接口调用失败: "; X] ;;
            emit (EReply 400 "Failed to verify tempToken") ;;
            ret false
        | Some t1 =>
            let jwt_token := strip (raw t1) in
            logger_info logger [L "获取到 jwtToken: "; L jwt_token] ;;
            let jwtoken_url :=
              "https://cn.devecostudio.huawei.com/authrouter/auth/api/jwToken/check" in
            let headers := [("jwtToken", jwt_token); ("refresh", "false")] in
            logger_info logger [L "用 jwtToken 获取 userInfo..."] ;;
            r2 <- ask (EExchange jwtoken_url headers) o_exchange ;;
            (* [r2.json()] is inside the [try]: what it raises on a body
               that is no JSON is a [requests.JSONDecodeError], which is
               a [RequestException] (requests 2.27 and later), so the
               first [except] clause takes it as it takes a failed
               call *)
            match match r2 with Some t2 => parsed t2 | None => None end with
            | None =>
                logger_error logger [L "jwToken/check 接口调用失败: "; X] ;;
                emit (EReply 400 "Failed to verify jwtToken") ;;
                ret false
            | Some resp_json =>
                user_info <- must (py_get resp_json "userInfo" (JObj [])) ;;
                logger_info logger [L "userInfo: "; V user_info] ;;
                if negb (py_truthy user_info) then
                  emit (EReply 400 "userInfo not found") ;;
                  logger_error logger [L "获取 userInfo 失败"] ;;
                  ret false
                else
                  lk <- is_locked token_file ;;
                  (if lk then
                     logger_error logger [L "写 token_file 出错: "; X]
                   else
                     s <- dumps user_info ;;
                     do_ops (dump_ops token_file s user_info) ;;
                     logger_info logger
                       [L "把 userInfo 成功写入 token_file: "; L token_file]) ;;
                  emit (EReply 200 "登录成功，可关掉此页面。") ;;
                  logger_info logger [L "回调处理完成: 登录成功页面已返回给用户"] ;;
                  emit EShutdown ;;
                  logger_info logger [L "关闭服务器(server.shutdown)"] ;;
                  ret true
            end
        end
    end.

(** One turn of the server loop: the request is dispatched to the
    handler; an exception in the handler is reported by the server and
    does not stop it.  A request that is not a POST is served by the
    base class: it is answered as [rq_inherited] says, nothing is
    written or logged ([log_message] is overridden), and no shutdown is
    asked for. *)
Definition handle_request (token_file logger : string) (rq : request)
  : M bool :=
  emit (ERequest rq) ;;
  if String.eqb (rq_method rq) "POST" then
    fun w =>
      match do_POST token_file logger rq w with
      | (Raise, w') => (Done false, w')
      | r => r
      end
  else
    match rq_inherited rq with
    | Some (status, body) => emit (EReply status body) ;; ret false
    | None => ret false
    end.

(** [httpd.serve_forever()] on the requests that arrive: the loop runs
    until a shutdown has been requested; when no request is left it
    waits for ever. *)
Fixpoint serve_forever (token_file logger : string) (rqs : list request)
  : M unit :=
  match rqs with
  | [] => hang
  | rq :: rest =>
      stop <- handle_request token_file logger rq ;;
      if stop then ret tt else serve_forever token_file logger rest
  end.

Definition mktemp (prefix : string) : M string :=
  fun w => (Done (o_mktemp (env w) (trace w) prefix), w).

(** [run_login_callback_handler_server_in_background] together with the
    [thread.join()] of its caller: the server thread is the only other
    thread and the caller does nothing but wait for it. *)
Definition run_login_callback_handler_server (token_file : string) (port : Z)
  (login_url : string) : M string :=
  server_log_path <- mktemp "login_callback_handler_log_" ;;
  open_log server_log_path ;;
  bound <- ask (EBind port) o_bind ;;
  if negb bound then
    error_print [L "启动服务器失败，可能端口 "; N port; L " 被占用。错误信息: "; X] ;;
    logger_error server_log_path [L "启动服务器失败: "; X] ;;
    sys_exit
  else
    (* [check_login]: failing to open the browser is not fatal; the
       server thread, started before, writes its first line on its own *)
    rqs <- ask (EBrowser login_url) o_requests ;;
    logger_info server_log_path
      [L "服务器启动, port="; N port; L ", log="; L server_log_path] ;;
    serve_forever token_file server_log_path rqs ;;
    logger_info server_log_path [L "服务器已关闭，关闭日志文件。"] ;;
    ret server_log_path.

(** The part of [login_eco] up to and including [thread.join()]. *)
Definition login_wait : M (string * string) :=
  emit ELogin ;;
  token_file <- mktemp "eco_token_" ;;
  let port := 3333 in
  let login_url :=
    ("https://cn.devecostudio.huawei.com/console/DevEcoIDE/apply"
     ++ "?port=3333&appid=1007&code=20698961dd4f420c8b44f49010c6f0cc")%string in
  server_log_path <-
    run_login_callback_handler_server token_file port login_url ;;
  ret (token_file, server_log_path).

(** The rest of [login_eco]: the handoff file is read, removed, and the
    session is persisted. *)
Definition login_collect (token_file server_log_path : string) : M unit :=
  f <- read_file token_file ;;
  match f with
  | None =>
      error_print [L "未生成 token_file, 可能登录流程出现异常."] ;;
      error_print [L "请查看日志文件排查: "; L server_log_path] ;;
      sys_exit
  | Some t =>
      match parsed t with
      | None =>
          error_print [L "读取 token_file 出错: "; X] ;;
          error_print [L "请查看日志文件: "; L server_log_path] ;;
          do_ops [OpRemove token_file] ;;
          sys_exit
      | Some tokens =>
          do_ops [OpRemove token_file] ;;
          oauth2_token <- must (py_get tokens "accessToken" (JStr "")) ;;
          user_id <- must (py_get tokens "userId" (JStr "")) ;;
          nick_name <- must (py_get tokens "nickName" (JStr "")) ;;
          if negb (py_truthy oauth2_token) || negb (py_truthy user_id) then
            error_print [L "获取 token 失败, 请查看服务器日志。"] ;;
            error_print [L "登录日志文件: "; L server_log_path] ;;
            sys_exit
          else
            update_config
              [("oauth2_token", oauth2_token);
               ("team_id", user_id);
               ("uid", user_id);
               ("nick_name", nick_name)]
      end
  end.

Definition login_eco : M unit :=
  '(token_file, server_log_path) <- login_wait ;;
  login_collect token_file server_log_path.

(** ** Remote endpoints *)

Definition cert_list_url : string :=
  "https://connect-api.cloud.huawei.com/api/cps/harmony-cert-manage/v1/cert/list".
Definition cert_add_url : string :=
  "https://connect-api.cloud.huawei.com/api/cps/harmony-cert-manage/v1/cert/add".
Definition cert_delete_url : string :=
  "https://connect-api.cloud.huawei.com/api/cps/harmony-cert-manage/v1/cert/delete".
Definition reapply_url : string :=
  "https://connect-api.cloud.huawei.com/api/amis/app-manage/v1/objects/url/reapply".
Definition device_list_url : string :=
  ("https://connect-api.cloud.huawei.com/api/cps/device-manage/v1/device/list"
   ++ "?start=1&pageSize=100&encodeFlag=0")%string.
Definition device_add_url : string :=
  "https://connect-api.cloud.huawei.com/api/cps/device-manage/v1/device/add".
Definition provision_add_url : string :=
  "https://connect-api.cloud.huawei.com/api/cps/provision-manage/v1/ide/test/provision/add".
Definition user_team_list_url : string :=
  "https://connect-api.cloud.huawei.com/api/ups/user-permission-service/v1/user-team-list".

Definition get_cert_list : M (option text * Z) :=
  http_request GET cert_list_url None.

Definition create_cert (name : string) (cert_type : Z) (csr : string)
  : M (option text * Z) :=
  http_request POST cert_add_url
    (Some (JObj [("csr", JStr csr); ("certName", JStr name);
                 ("certType", JNum cert_type)])).

Definition delete_certs (cert_ids : list json) : M (option text * Z) :=
  http_request POST cert_delete_url (Some (JObj [("certIds", JArr cert_ids)])).

Definition eco_device_list : M (option text * Z) :=
  http_request GET device_list_url None.

Definition create_device (device_name uuid : string) : M (option text * Z) :=
  http_request POST device_add_url
    (Some (JObj [("deviceName", JStr device_name); ("udid", JStr uuid);
                 ("deviceType", JNum 4)])).

Definition create_profile (name : string) (cert_id : json)
  (package_name : string) (device_ids : list json) : M (option text * Z) :=
  http_request POST provision_add_url
    (Some (JObj [("provisionName", JStr name);
                 ("deviceList", JArr device_ids);
                 ("certList", JArr [cert_id]);
                 ("packageName", JStr package_name)])).

(** [json.loads(resp_body)] with the [except json.JSONDecodeError]
    branch that every caller writes the same way. *)
Definition loads_or_exit (resp_body : option text) (what : string)
  : M json :=
  match resp_body with
  | None => raise
  | Some t =>
      match parsed t with
      | Some j => ret j
      | None =>
          error_print [L what; X] ;;
          error_print [L "响应内容: "; B resp_body] ;;
          sys_exit
      end
  end.

(** The result of a subscript [x[...]] inside a [try] that catches
    [KeyError] and [IndexError] and lets [TypeError] through. *)
Inductive item : Type :=
| Found (j : json)
| Missing
| BadType.

(** [x[k]] for a string [k] *)
Definition py_item (x : json) (k : string) : item :=
  match x with
  | JObj d => match assoc k d with Some v => Found v | None => Missing end
  | _ => BadType
  end.

(** [x[0]] *)
Definition py_item0 (x : json) : item :=
  match x with
  | JArr (a :: _) => Found a
  | JArr [] => Missing
  | JObj _ => Missing
  | JStr (String c _) => Found (JStr (String c EmptyString))
  | JStr EmptyString => Missing
  | _ => BadType
  end.

Definition download_cert (cert_object_id : json) (file_name : string)
  : M string :=
  '(resp_body, http_code) <-
     http_request POST reapply_url
       (Some (JObj [("sourceUrls", JArr [cert_object_id])])) ;;
  if negb (http_code =? 200) then
    error_print [L "reapply 接口返回码非 200: "; N http_code] ;;
    error_print [B resp_body] ;;
    sys_exit
  else
    let failed :=
      error_print [L "解析 reapply 接口响应失败: "; X] ;;
      error_print [L "响应内容: "; B resp_body] ;;
      sys_exit in
    match resp_body with
    | None => raise
    | Some t =>
        match parsed t with
        | None => failed
        | Some resp_json =>
            match py_item resp_json "urlsInfo" with
            | BadType => raise
            | Missing => failed
            | Found infos =>
                match py_item0 infos with
                | BadType => raise
                | Missing => failed
                | Found info =>
                    match py_item info "newUrl" with
                    | BadType => raise
                    | Missing => failed
                    | Found download_url =>
                        if negb (py_truthy download_url) then
                          error_print [L "newUrl 为空"] ;;
                          sys_exit
                        else download_file download_url file_name
                    end
                end
            end
        end
    end.

(** ** The keystore and the signing request *)

(** A config value used as a path or as a command-line word: anything
    but a [str] ends in a [TypeError]. *)
Definition as_str (j : json) : option string :=
  match j with JStr s => Some s | _ => None end.

(** [subprocess.check_call(cmd)] inside
    [try ... except subprocess.CalledProcessError]. *)
Definition check_call (cmd : list string) (failed : list frag) : M unit :=
  r <- ask (EExec cmd) o_exec ;;
  match r with
  | XOk _ wrote =>
      do_ops (map (fun pt => OpWrite (fst pt) (snd pt)) wrote)
  | XFail _ =>
      error_print failed ;;
      sys_exit
  | XTimeout => raise
  | XOSError => raise
  end.

Definition create_keystore (keystore_path storepass alias : json)
  (common_name : string) : M unit :=
  kp <- must (as_str keystore_path) ;;
  present <- os_path_isfile kp ;;
  if present then ret tt
  else
    g <- get_globals ;;
    java_home <- must (JAVA_HOME g) ;;
    sp <- must (as_str storepass) ;;
    al <- must (as_str alias) ;;
    check_call
      [os_path_join java_home ["bin"; "keytool"];
       "-genkeypair";
       "-alias"; al;
       "-keyalg"; "EC";
       "-sigalg"; "SHA256withECDSA";
       "-dname"; ("C=CN,O=HUAWEI,OU=HUAWEI IDE,CN=" ++ common_name)%string;
       "-keystore"; kp;
       "-storetype"; "pkcs12";
       "-validity"; "9125";
       "-storepass"; sp;
       "-keypass"; sp]
      [L "创建 keystore 失败: "; X].

Definition create_csr (keystore_path csr_path alias storepass : json)
  : M unit :=
  cp <- must (as_str csr_path) ;;
  present <- os_path_isfile cp ;;
  if present then ret tt
  else
    g <- get_globals ;;
    java_home <- must (JAVA_HOME g) ;;
    al <- must (as_str alias) ;;
    kp <- must (as_str keystore_path) ;;
    sp <- must (as_str storepass) ;;
    check_call
      [os_path_join java_home ["bin"; "keytool"];
       "-certreq";
       "-alias"; al;
       "-keystore"; kp;
       "-storetype"; "pkcs12";
       "-file"; cp;
       "-storepass"; sp]
      [L "创建 CSR 失败: "; X].

Definition read_csr (csr_path : json) : M string :=
  cp <- must (as_str csr_path) ;;
  f <- read_file cp ;;
  match f with
  | None =>
      error_print [L "CSR 文件不存在: "; L cp] ;;
      sys_exit
  | Some t => ret (raw t)
  end.

(** [a or b] *)
Definition py_or (a b : json) : json := if py_truthy a then a else b.

(** ** Certificate reconciliation *)

Record cert_info : Type := CertInfo {
  new_cert : bool;
  cert_id : json;
  cert_name : string;
  cert_path : string
}.

(** The listing step of [create_and_download_debug_cert]: the call, and
    on a 401 one login and one more call. *)
Definition cert_list_step : M (option text * Z) :=
  '(resp_body, http_code) <- get_cert_list ;;
  if http_code =? 401 then
    login_eco ;;
    '(resp_body, http_code) <- get_cert_list ;;
    if negb (http_code =? 200) then
      error_print [L "登录后获取证书列表失败"] ;;
      sys_exit
    else ret (resp_body, http_code)
  else if negb (http_code =? 200) then
    error_print [L "get_cert_list 请求失败"] ;;
    error_print [B resp_body] ;;
    sys_exit
  else ret (resp_body, http_code).

(** The branch taken when a debug certificate of that name is listed:
    [Some] is the [return] of the function, [None] falls through to the
    creation. *)
Definition reuse_cert (name : string) (existing_cert_id : json)
  (same_name_certs : list json) : M (option cert_info) :=
  let cert_file := (name ++ ".cer")%string in
  match same_name_certs with
  | [] => ret None
  | c0 :: _ =>
      cert_id <- must (py_get c0 "id" JNull) ;;
      cert_object_id <- must (py_get c0 "certObjectId" JNull) ;;
      if py_truthy cert_id && py_truthy cert_object_id then
        g <- get_globals ;;
        let local_cert_path := os_path_join (CONFIG_DIR g) [cert_file] in
        present <- os_path_isfile local_cert_path ;;
        if present && py_eq cert_id existing_cert_id then
          ret (Some (CertInfo false cert_id cert_file local_cert_path))
        else
          cert_file_path <- download_cert cert_object_id cert_file ;;
          update_config
            [("debug_cert_new_cert", JStr "false");
             ("debug_cert_id", cert_id);
             ("debug_cert_name", JStr (os_path_basename cert_file_path));
             ("debug_cert_path", JStr cert_file_path)] ;;
          ret (Some (CertInfo false cert_id
                       (os_path_basename cert_file_path) cert_file_path))
      else ret None
  end.

(** [[c.get("id") for c in debug_certs
      if c.get("certName") == name and c.get("id")]] *)
Fixpoint same_ids (name : string) (debug_certs : list json)
  : option (list json) :=
  match debug_certs with
  | [] => Some []
  | c :: r =>
      match py_get c "certName" JNull, py_get c "id" JNull with
      | Some n, Some i =>
          match same_ids name r with
          | Some r' =>
              Some (if py_eq n (JStr name) && py_truthy i then i :: r' else r')
          | None => None
          end
      | _, _ => None
      end
  end.

(** The creation, first block: certificates of that name that are still
    listed are deleted; what the server answers is not looked at. *)
Definition delete_same_named (name : string) (debug_certs : list json)
  : M unit :=
  ids <- must (same_ids name debug_certs) ;;
  match ids with
  | [] => ret tt
  | _ => delete_certs ids ;; ret tt
  end.

(** Second block: the keystore and the signing request are made if they
    are missing, and the request is read. *)
Definition prepare_csr : M string :=
  g <- get_globals ;;
  keystore_file <- get_config_value "keystore_file" ;;
  let keystore_path :=
    py_or keystore_file (JStr (os_path_join (STORE_DIR g) ["xiaobai.p12"])) in
  storepass_v <- get_config_value "storepass" ;;
  let storepass := py_or storepass_v (JStr DEFAULT_STOREPASS) in
  keyalias_v <- get_config_value "keyalias" ;;
  let alias := py_or keyalias_v (JStr DEFAULT_KEYALIAS) in
  create_keystore keystore_path storepass alias "xiaobai" ;;
  csr_file <- get_config_value "csr_file" ;;
  let csr_path :=
    py_or csr_file (JStr (os_path_join (STORE_DIR g) ["xiaobai.csr"])) in
  create_csr keystore_path csr_path alias storepass ;;
  read_csr csr_path.

(** What follows a [create_cert] call that returned [(resp_body,
    http_code)]. *)
Definition after_create_cert (name : string) (resp_body : option text)
  (http_code : Z) : M cert_info :=
  let cert_file := (name ++ ".cer")%string in
  if negb (http_code =? 200) then
    error_print [L "create_cert 请求失败"] ;;
    error_print [B resp_body] ;;
    sys_exit
  else
    resp_json <- loads_or_exit resp_body "create_cert 返回非 JSON: " ;;
    ret_obj <- must (py_get resp_json "ret" (JObj [])) ;;
    ret_code <- must (py_get ret_obj "code" (JNum 0)) ;;
    ret_msg <- must (py_get ret_obj "msg" (JStr "")) ;;
    if negb (py_eq ret_code (JNum 0)) then
      error_print [L "请求证书失败: "; V ret_msg] ;;
      sys_exit
    else
      harmony <- must (py_get resp_json "harmonyCert" (JObj [])) ;;
      new_cert_object_id <- must (py_get harmony "certObjectId" JNull) ;;
      new_cert_id <- must (py_get harmony "id" JNull) ;;
      if negb (py_truthy new_cert_object_id) || negb (py_truthy new_cert_id)
      then
        error_print [L "请求证书返回异常: "; B resp_body] ;;
        sys_exit
      else
        cert_file_path <- download_cert new_cert_object_id cert_file ;;
        update_config
          [("debug_cert_new_cert", JStr "true");
           ("debug_cert_id", new_cert_id);
           ("debug_cert_name", JStr (os_path_basename cert_file_path));
           ("debug_cert_path", JStr cert_file_path)] ;;
        ret (CertInfo true new_cert_id
               (os_path_basename cert_file_path) cert_file_path).

(** Third block: the request is submitted and the new certificate is
    downloaded. *)
Definition submit_cert (name csr_content : string) : M cert_info :=
  '(resp_body, http_code) <- create_cert name 1 csr_content ;;
  after_create_cert name resp_body http_code.

Definition create_new_debug_cert (name : string) (debug_certs : list json)
  : M cert_info :=
  delete_same_named name debug_certs ;;
  csr_content <- prepare_csr ;;
  submit_cert name csr_content.

(** The debug certificates of a listing, and those of a given name.
    [certType == 1] is debug, 2 is production. *)
Definition debug_certs_of (resp_json : json) : option (list json) :=
  match py_get resp_json "certList" (JArr []) with
  | Some cert_list =>
      match py_iter cert_list with
      | Some listed => select_eq "certType" (JNum 1) listed
      | None => None
      end
  | None => None
  end.

Definition same_name_certs_of (name : string) (debug_certs : list json)
  : option (list json) :=
  select_eq "certName" (JStr name) debug_certs.

Definition create_and_download_debug_cert (name : string)
  (existing_cert_id : json) : M cert_info :=
  '(resp_body, _) <- cert_list_step ;;
  resp_json <- loads_or_exit resp_body "证书列表返回非 JSON: " ;;
  debug_certs <- must (debug_certs_of resp_json) ;;
  same_name_certs <- must (same_name_certs_of name debug_certs) ;;
  reused <- reuse_cert name existing_cert_id same_name_certs ;;
  match reused with
  | Some info => ret info
  | None => create_new_debug_cert name debug_certs
  end.

Definition process_debug_cert : M unit :=
  existing_cert_id <- get_config_value "debug_cert_id" ;;
  create_and_download_debug_cert CERT_NAME existing_cert_id ;;
  ret tt.

(** ** The device *)

(** [subprocess.check_output(cmd, ..., timeout=10)] with the two
    [except] branches of [connect_device] and [get_udid]. *)
Definition check_output (cmd : list string) (failed timed_out : list frag)
  : M string :=
  r <- ask (EExec cmd) o_exec ;;
  match r with
  | XOk output wrote =>
      do_ops (map (fun pt => OpWrite (fst pt) (snd pt)) wrote) ;;
      ret output
  | XFail output =>
      error_print (failed ++ [L output]) ;;
      sys_exit
  | XTimeout =>
      error_print timed_out ;;
      sys_exit
  | XOSError => raise
  end.

Definition connect_device (device_ip : string) : M unit :=
  g <- get_globals ;;
  hdc <- must (HDC_COMMAND g) ;;
  output <- check_output [hdc; "tconn"; device_ip]
              [L "连接设备失败: "] [L "连接设备命令超时: "; L device_ip] ;;
  if contains "Connect failed" output then
    error_print [L "连接设备失败: "; L device_ip] ;;
    sys_exit
  else ret tt.

Definition get_udid (device_ip : string) : M string :=
  g <- get_globals ;;
  hdc <- must (HDC_COMMAND g) ;;
  output <- check_output [hdc; "-t"; device_ip; "shell"; "bm"; "get"; "--udid"]
              [L "获取 UDID 失败: "] [L "获取 UDID 命令超时: "; L device_ip] ;;
  match split_lines (strip output) with
  | _ :: line :: _ => ret (strip line)
  | _ =>
      error_print [L "获取 UDID 失败，输出内容不足: "; L output] ;;
      sys_exit
  end.

(** ** Profile reconciliation *)

Record profile_info : Type := ProfileInfo {
  profile_name_of : string;
  profile_path_of : string
}.

(** The listing step of [create_and_download_debug_profile]. *)
Definition device_list_step : M (option text * Z) :=
  '(resp_body, http_code) <- eco_device_list ;;
  '(resp_body, http_code) <-
     (if http_code =? 401 then
        login_eco ;;
        '(resp_body, http_code) <- eco_device_list ;;
        if negb (http_code =? 200) then
          error_print [L "登录后获取设备列表失败"] ;;
          sys_exit
        else ret (resp_body, http_code)
      else ret (resp_body, http_code)) ;;
  if negb (http_code =? 200) then
    error_print [L "获取设备列表失败: "; B resp_body] ;;
    sys_exit
  else ret (resp_body, http_code).

(** [not found] for a [found] that is [None] or a listed device. *)
Definition not_found (found : option json) : bool :=
  match found with
  | None => true
  | Some d => negb (py_truthy d)
  end.

(** The loop over [resp_json.get("list", [])] that looks for the udid. *)
Definition find_device (resp_json : json) (udid : string) (found : option json)
  : M (option json) :=
  devices <- must (py_get resp_json "list" (JArr [])) ;;
  listed <- must (py_iter devices) ;;
  hit <- must (find_eq "udid" (JStr udid) listed) ;;
  ret (match hit with Some d => Some d | None => found end).

(** What follows the [create_device] call: the devices are listed
    again and the udid has to be among them. *)
Definition relist_device (udid : string) (found : option json)
  : M (option json) :=
  '(resp_body, http_code) <- eco_device_list ;;
  if negb (http_code =? 200) then
    error_print [L "注册后获取设备列表失败"] ;;
    sys_exit
  else
    resp_json <- loads_or_exit resp_body "设备列表响应非 JSON: " ;;
    found <- find_device resp_json udid found ;;
    if not_found found then
      error_print [L "注册失败，未在列表找到"] ;;
      sys_exit
    else ret found.

(** The body of [if not found:]: the device is registered; what the
    server answers is not looked at. *)
Definition register_device (udid : string) (found : option json)
  : M (option json) :=
  create_device ("xiaobai-device-" ++ take 10 udid)%string udid ;;
  relist_device udid found.

(** The device block of [create_and_download_debug_profile]: the
    connected device is looked up in the listing and registered when it
    is missing; the result is its remote identifier. *)
Definition reconcile_device : M json :=
  g <- get_globals ;;
  device_ip <- must (DEVICE_IP g) ;;
  let device_key := strip device_ip in
  if String.eqb device_key "" then
    error_print [L "没有指定 DEVICE_IP，请先连接或在命令行指定 -d"] ;;
    sys_exit
  else
    connect_device device_key ;;
    udid <- get_udid device_key ;;
    if String.eqb udid "" then
      error_print [L "获取设备 UDID 失败。"] ;;
      sys_exit
    else
      '(resp_body, _) <- device_list_step ;;
      resp_json <- loads_or_exit resp_body "设备列表响应非 JSON: " ;;
      found <- find_device resp_json udid None ;;
      found <-
        (if not_found found then register_device udid found else ret found) ;;
      dev <- must found ;;
      dev_id <- must (py_get dev "id" JNull) ;;
      if negb (py_truthy dev_id) then
        error_print [L "设备 ID 不存在: "; V dev] ;;
        sys_exit
      else ret dev_id.

(** What follows a [create_profile] call that returned [(resp_body,
    http_code)]. *)
Definition after_create_profile (profile_filename : string)
  (resp_body : option text) (http_code : Z) : M profile_info :=
  if negb (http_code =? 200) then
    error_print [L "create_profile 请求失败: "; B resp_body] ;;
    sys_exit
  else
    resp_json <- loads_or_exit resp_body "create_profile 返回非 JSON: " ;;
    ret_obj <- must (py_get resp_json "ret" (JObj [])) ;;
    ret_code <- must (py_get ret_obj "code" (JNum 0)) ;;
    ret_msg <- must (py_get ret_obj "msg" (JStr "")) ;;
    if negb (py_eq ret_code (JNum 0)) then
      error_print [L "创建 profile 失败: "; V ret_msg] ;;
      sys_exit
    else
      profile_url <- must (py_get resp_json "provisionFileUrl" JNull) ;;
      if negb (py_truthy profile_url) then
        error_print [L "provisionFileUrl 为空: "; B resp_body] ;;
        sys_exit
      else
        downloaded_profile_path <- download_file profile_url profile_filename ;;
        update_config
          [("debug_profile_name", JStr profile_filename);
           ("debug_profile_path", JStr downloaded_profile_path)] ;;
        ret (ProfileInfo profile_filename downloaded_profile_path).

(** The profile block: the request names the cached certificate and the
    device, and the profile is downloaded. *)
Definition submit_profile (profile_name package_name profile_filename : string)
  (dev_id : json) : M profile_info :=
  cert_id <- get_config_value "debug_cert_id" ;;
  if negb (py_truthy cert_id) then
    error_print [L "未找到 debug_cert_id，请先创建 Debug 证书"] ;;
    sys_exit
  else
    '(resp_body, http_code) <-
       create_profile profile_name cert_id package_name [dev_id] ;;
    after_create_profile profile_filename resp_body http_code.

Definition profile_file_name (profile_name package_name : string) : string :=
  (profile_name ++ "_" ++ replace_dots package_name ++ ".p7b")%string.

Definition create_and_download_debug_profile (profile_name package_name : string)
  : M profile_info :=
  g <- get_globals ;;
  let profile_filename := profile_file_name profile_name package_name in
  let profile_path := os_path_join (CONFIG_DIR g) [profile_filename] in
  present <- os_path_isfile profile_path ;;
  if present then
    update_config
      [("debug_profile_name", JStr profile_filename);
       ("debug_profile_path", JStr profile_path)] ;;
    ret (ProfileInfo profile_filename profile_path)
  else
    dev_id <- reconcile_device ;;
    submit_profile profile_name package_name profile_filename dev_id.

Definition process_debug_profile (bundle_name : string) : M unit :=
  create_and_download_debug_profile PROFILE_NAME bundle_name ;;
  ret tt.

(** ** The account check *)

(** The listing step of [check_or_login_huawei_eco]. *)
Definition team_list_step : M (option text * Z) :=
  '(resp_body, http_code) <- http_request GET user_team_list_url None ;;
  if http_code =? 401 then
    login_eco ;;
    '(resp_body, http_code) <- http_request GET user_team_list_url None ;;
    if negb (http_code =? 200) then
      error_print [L "登录后仍无法获取用户团队列表。"] ;;
      sys_exit
    else ret (resp_body, http_code)
  else if negb (http_code =? 200) then
    error_print [L "获取用户团队列表失败: "; B resp_body] ;;
    sys_exit
  else ret (resp_body, http_code).

Definition check_or_login_huawei_eco : M unit :=
  '(resp_body, _) <- team_list_step ;;
  resp_json <- loads_or_exit resp_body "返回非 JSON: " ;;
  teams <- must (py_get resp_json "teams" (JArr [])) ;;
  '(resp_json, teams) <-
     (if negb (py_truthy teams) then
        login_eco ;;
        '(resp_body, http_code) <- http_request GET user_team_list_url None ;;
        if negb (http_code =? 200) then
          error_print [L "登录后仍无法获取用户团队列表。"] ;;
          sys_exit
        else
          resp_json <- loads_or_exit resp_body "返回非 JSON: " ;;
          teams <- must (py_get resp_json "teams" (JArr [])) ;;
          if negb (py_truthy teams) then
            error_print [L "未获取到团队信息，即使登录后。"] ;;
            sys_exit
          else ret (resp_json, teams)
      else ret (resp_json, teams)) ;;
  match py_item0 teams with
  | Found team =>
      team_name <- must (py_get team "name" JNull) ;;
      (if py_truthy team_name then ret tt
       else must (py_get resp_json "nickName" (JStr "")) ;; ret tt)
  | _ => raise
  end.

(** ** Observations *)

(** The events a run added: the trace of [w'] without the trace [w]
    started from. *)
Definition since (w w' : world) : list event :=
  skipn (length (trace w)) (trace w').

Definition count (p : event -> bool) (l : list event) : nat :=
  length (filter p l).

Definition mem (u : string) (urls : list string) : bool :=
  existsb (String.eqb u) urls.

(** A request of [http_request] to one of [urls]. *)
Definition is_call_in (urls : list string) (e : event) : bool :=
  match e with
  | EHttp _ u _ _ => mem u urls
  | _ => false
  end.

(** The calls that create a remote resource: a certificate, a device
    registration, a profile. *)
Definition creation_urls : list string :=
  [cert_add_url; device_add_url; provision_add_url].

Definition is_creation_call (e : event) : bool := is_call_in creation_urls e.

Definition is_http (e : event) : bool :=
  match e with EHttp _ _ _ _ => true | _ => false end.

Definition is_fetch (e : event) : bool :=
  match e with EFetch _ => true | _ => false end.

Definition is_login (e : event) : bool :=
  match e with ELogin => true | _ => false end.

Definition is_error (e : event) : bool :=
  match e with EError _ => true | _ => false end.

(** A footprint: the requests may only go to [urls], downloads and
    logins happen only when allowed; everything else may happen. *)
Definition fp (urls : list string) (fetch login : bool) (e : event) : bool :=
  match e with
  | EHttp _ u _ _ => mem u urls
  | EFetch _ => fetch
  | ELogin => login
  | _ => true
  end.

(** [m] leaves the oracle, the locks and the globals alone, only adds to
    the trace, and adds only events that [p] accepts. *)
Definition only {A} (p : event -> bool) (m : M A) : Prop :=
  forall w,
    env (snd (m w)) = env w /\
    locked (snd (m w)) = locked w /\
    glob (snd (m w)) = glob w /\
    exists evs, trace (snd (m w)) = trace w ++ evs /\ forallb p evs = true.

(** The config document as [read_eco_config] would return it, without
    running it. *)
Definition config_of (w : world) : json :=
  match fs w (ECO_CONFIG_FILE (glob w)) with
  | None => JObj []
  | Some t => match parsed t with Some j => j | None => JObj [] end
  end.

(** The disk after a crash that lets only the first [n] steps of [ops]
    happen. *)
Definition crash_after (n : nat) (ops : list fsop) (f : string -> option text)
  : string -> option text :=
  apply_ops (firstn n ops) f.

(** A write is crash-atomic for [p] when every crash point leaves at [p]
    either what was there or the complete new content. *)
Definition crash_atomic (ops : list fsop) (f : string -> option text)
  (p : string) (new : text) : Prop :=
  forall n, crash_after n ops f p = f p \/ crash_after n ops f p = Some new.

Definition is_rename (op : fsop) : bool :=
  match op with OpRename _ _ => true | _ => false end.

(** The file a step writes to, creates or removes. *)
Definition op_target (op : fsop) : string :=
  match op with
  | OpOpenW p => p
  | OpWrite p _ => p
  | OpRemove p => p
  | OpRename _ dst => dst
  end.

(** The items of a dict after [for k, v in kwargs.items(): config[k] = v]. *)
Fixpoint merge (kwargs : list (string * json)) (d : list (string * json))
  : list (string * json) :=
  match kwargs with
  | [] => d
  | (k, v) :: r => merge r (dict_set k v d)
  end.

(** The session [login_eco] persists for a handoff payload. *)
Definition session_of (access_token user_id nick_name : json)
  : list (string * json) :=
  [("oauth2_token", access_token);
   ("team_id", user_id);
   ("uid", user_id);
   ("nick_name", nick_name)].

(** The world once the handoff file has been removed. *)
Definition without_file (w : world) (p : string) : world :=
  World (apply_ops [OpRemove p] (fs w)) (locked w) (glob w) (env w) (trace w).

(** The replies the callback server sent. *)
Definition replies (l : list event) : list Z :=
  flat_map (fun e => match e with EReply status _ => [status] | _ => [] end) l.

Definition shutdown_requested (l : list event) : bool :=
  existsb (fun e => match e with EShutdown => true | _ => false end) l.

(** The shape the three listing steps share: the call, on a 401 one
    login and one more call that has to give a 200, on any other status
    but 200 a failure. *)
Definition list_with_relogin (call : M (option text * Z))
  (still_failing : list frag) (failed : option text -> M (option text * Z))
  : M (option text * Z) :=
  '(resp_body, http_code) <- call ;;
  if http_code =? 401 then
    login_eco ;;
    '(resp_body, http_code) <- call ;;
    if negb (http_code =? 200) then
      error_print still_failing ;;
      sys_exit
    else ret (resp_body, http_code)
  else if negb (http_code =? 200) then failed resp_body
  else ret (resp_body, http_code).

(** What "a 401 triggers one login and one retried call, and a retry
    that is not a 200 is fatal" says of a listing step [step] that lists
    with [call] at [url]: when the first call returns 401, the step logs
    in exactly once and calls at most twice; and when the login returns
    and the second call is answered with status [c2], there were exactly
    two calls and the step returns that answer if [c2] is 200 and leaves
    through [sys.exit] otherwise. *)
Definition relogin_once (url : string) (call step : M (option text * Z))
  : Prop :=
  forall w b w1 o w',
    call w = (Done (b, 401), w1) ->
    step w = (o, w') ->
    count is_login (since w w') = 1%nat /\
    (count (is_call_in [url]) (since w w') <= 2)%nat /\
    (forall w2 b2 c2 w3,
        login_eco w1 = (Done tt, w2) ->
        call w2 = (Done (b2, c2), w3) ->
        count (is_call_in [url]) (since w w') = 2%nat /\
        (if c2 =? 200 then o = Done (b2, c2) else o = Exit)).

(** Every endpoint of the resource API the program talks to. *)
Definition all_urls : list string :=
  [cert_list_url; cert_add_url; cert_delete_url; reapply_url;
   device_list_url; device_add_url; provision_add_url; user_team_list_url].

(** The footprint that allows everything the program does. *)
Definition anything : event -> bool := fp all_urls true true.

(** Whenever [m] returns, it has downloaded a file on the way. *)
Definition fetches {A} (m : M A) : Prop :=
  forall w a w',
    m w = (Done a, w') ->
    exists evs, trace w' = trace w ++ evs /\ (1 <= count is_fetch evs)%nat.

(** Where the certificate and the profile are cached. *)
Definition local_cert_path (g : globals) (name : string) : string :=
  os_path_join (CONFIG_DIR g) [(name ++ ".cer")%string].

Definition local_profile_path (g : globals) (profile_name package_name : string)
  : string :=
  os_path_join (CONFIG_DIR g) [profile_file_name profile_name package_name].

(** Whatever [m] returns satisfies [Q]. *)
Definition returns {A} (Q : A -> Prop) (m : M A) : Prop :=
  forall w a w', m w = (Done a, w') -> Q a.

(** What precedes the creation in [create_and_download_debug_cert]: the
    listing with its login, and the download of a reused certificate. *)
Definition before_creation : event -> bool :=
  fp [cert_list_url; reapply_url] true true.

(** The request [delete_certs] sends for [ids], whatever its headers. *)
Definition deletes (ids : list json) (e : event) : Prop :=
  exists headers,
    e = EHttp POST cert_delete_url headers (Some (JObj [("certIds", JArr ids)])).

(** ** Concrete surroundings *)

Definition dev_globals : globals :=
  Globals "/home/dev" (Some "/opt/jdk17") (Some "/opt/hdc/hdc")
          (Some "192.168.1.5:5555") false.

Definition dev_config_file : string := ECO_CONFIG_FILE dev_globals.

Definition dev_cert_file : string := local_cert_path dev_globals CERT_NAME.

Definition files (l : list (string * text)) : string -> option text :=
  fun p =>
    match find (fun kv => String.eqb p (fst kv)) l with
    | Some kv => Some (snd kv)
    | None => None
    end.

Definition json_text (j : json) : text := Text "{...}" (Some j).

(** An outside in which nothing answers. *)
Definition silent : oracle :=
  Oracle (fun _ => None) (fun _ => FetchError) (fun _ => XOSError)
         (fun _ => false) (fun _ => []) (fun _ => None)
         (fun _ prefix => ("/tmp/" ++ prefix)%string) (fun _ => "{...}") (fun _ _ => "...").

(** A machine with nothing on disk but the given config document. *)
Definition with_config (o : oracle) (config : json) : world :=
  World (upd (fun _ => None) dev_config_file (Some (Text "{...}" (Some config))))
        (fun _ => false) dev_globals o [].

(** A config document in which the user has chosen a key alias and has
    also spelled the key the way the probe of [initialize_eco_config]
    does. *)
Definition custom_alias_config : json :=
  JObj [("storepass", JStr "secret");
        ("keyalias", JStr "mine");
        ("keyAlias", JStr "mine")].

(** The userInfo a successful token exchange hands over. *)
Definition sample_user_info : json :=
  JObj [("accessToken", JStr "tok"); ("userId", JStr "u1");
        ("nickName", JStr "dev"); ("teamId", JStr "t9")].

(** A callback with a temporary token. *)
Definition good_callback : request :=
  Request "POST" "/callback" true "tempToken=tmp" [("tempToken", ["tmp"])] None.

(** A callback whose form has no temporary token. *)
Definition empty_callback : request :=
  Request "POST" "/callback" true "" [] None.

(** An outside in which the port is free, the browser sends [rqs] and
    both exchange calls succeed, the second with [sample_user_info]. *)
Definition login_oracle (rqs : list request) : oracle :=
  Oracle (fun _ => None) (fun _ => FetchError) (fun _ => XOSError)
         (fun _ => true) (fun _ => rqs)
         (fun _ => Some (Text "jwt" (Some (JObj [("userInfo", sample_user_info)]))))
         (fun _ prefix => ("/tmp/" ++ prefix)%string) (fun _ => "{...}") (fun _ _ => "...").

(** An outside in which the port is free, the browser sends [rqs] and
    the token exchange endpoint fails. *)
Definition failing_exchange_oracle (rqs : list request) : oracle :=
  Oracle (fun _ => None) (fun _ => FetchError) (fun _ => XOSError)
         (fun _ => true) (fun _ => rqs) (fun _ => None)
         (fun _ prefix => ("/tmp/" ++ prefix)%string) (fun _ => "{...}") (fun _ _ => "...").

(** An outside that answers every request with a 401 and in which every
    login succeeds. *)
Definition always_401 : oracle :=
  Oracle (fun _ => Some (plain "login required", 401))
         (fun _ => FetchError) (fun _ => XOSError)
         (fun _ => true) (fun _ => [good_callback])
         (fun _ => Some (Text "jwt" (Some (JObj [("userInfo", sample_user_info)]))))
         (fun _ prefix => ("/tmp/" ++ prefix)%string) (fun _ => "{...}") (fun _ _ => "...").

(** The headers [http_request] sends when no session is stored. *)
Definition anonymous_headers : list (string * json) :=
  [("Content-Type", JStr "application/json");
   ("oauth2Token", JStr ""); ("teamId", JStr ""); ("uid", JStr "")].

(** The endpoint the last event of a history went to. *)
Definition last_url (hist : list event) : string :=
  match last hist EShutdown with
  | EHttp _ u _ _ => u
  | _ => ""
  end.

Definition listed_cert (id obj name : string) : json :=
  JObj [("id", JStr id); ("certObjectId", JStr obj);
        ("certName", JStr name); ("certType", JNum 1)].

Definition listing (certs : list json) : json := JObj [("certList", JArr certs)].

Definition rejection : json :=
  JObj [("ret", JObj [("code", JNum 1); ("msg", JStr "denied")])].

Definition created_cert : json :=
  JObj [("ret", JObj [("code", JNum 0); ("msg", JStr "success")]);
        ("harmonyCert", JObj [("id", JStr "C1"); ("certObjectId", JStr "O1")])].

Definition download_link : json :=
  JObj [("urlsInfo", JArr [JObj [("newUrl", JStr "https://dl.example/new.cer")]])].

(** A resource API that lists [certs], answers a deletion with
    [deleted] and a creation with [created], always under status 200,
    and serves downloads. *)
Definition api (certs : list json) (deleted created : json) : oracle :=
  Oracle
    (fun hist =>
       let u := last_url hist in
       if String.eqb u cert_list_url then Some (json_text (listing certs), 200)
       else if String.eqb u cert_delete_url then Some (json_text deleted, 200)
       else if String.eqb u cert_add_url then Some (json_text created, 200)
       else if String.eqb u reapply_url then Some (json_text download_link, 200)
       else None)
    (fun _ => FetchOk (plain "-----BEGIN CERTIFICATE-----"))
    (fun _ => XOSError) (fun _ => true) (fun _ => [good_callback])
    (fun _ => Some (Text "jwt" (Some (JObj [("userInfo", sample_user_info)]))))
    (fun _ prefix => ("/tmp/" ++ prefix)%string) (fun _ => "{...}") (fun _ _ => "...").

(** A second run: the certificate ["A"] is listed, cached in the config
    and present on disk, and so is the profile of [com.example.app]. *)
Definition cached_world : world :=
  World
    (files
       [(dev_config_file, json_text (JObj [("debug_cert_id", JStr "A")]));
        (dev_cert_file, plain "-----BEGIN CERTIFICATE-----");
        (local_profile_path dev_globals PROFILE_NAME "com.example.app",
         plain "profile")])
    (fun _ => false) dev_globals
    (api [listed_cert "A" "O" CERT_NAME] (JObj []) created_cert) [].

(** A second run in which the listed certificate ["A"] is the cached
    one and its file is on disk, but the listing entry carries no
    [certObjectId]. *)
Definition incomplete_entry_world : world :=
  World
    (files
       [(dev_config_file, json_text (JObj [("debug_cert_id", JStr "A")]));
        (dev_cert_file, plain "-----BEGIN CERTIFICATE-----");
        (os_path_join (STORE_DIR dev_globals) ["xiaobai.p12"], plain "keystore");
        (os_path_join (STORE_DIR dev_globals) ["xiaobai.csr"], plain "csr")])
    (fun _ => false) dev_globals
    (api [JObj [("id", JStr "A"); ("certName", JStr CERT_NAME);
                ("certType", JNum 1)]]
         (JObj []) created_cert) [].

(** Two listed certificates of the wanted name with different
    identifiers, the first without an object identifier, so that a
    creation is triggered; the deletion is rejected under status 200. *)
Definition duplicate_certs : list json :=
  [JObj [("id", JStr "A"); ("certName", JStr CERT_NAME); ("certType", JNum 1)];
   listed_cert "B" "O" CERT_NAME].

Definition duplicates_world : world :=
  World
    (files
       [(dev_config_file, json_text (JObj []));
        (os_path_join (STORE_DIR dev_globals) ["xiaobai.p12"], plain "keystore");
        (os_path_join (STORE_DIR dev_globals) ["xiaobai.csr"], plain "csr")])
    (fun _ => false) dev_globals
    (api duplicate_certs rejection created_cert) [].

(** Two listed certificates of the wanted name, both complete; the
    config remembers the second one and the file is on disk. *)
Definition first_match_world : world :=
  World
    (files
       [(dev_config_file, json_text (JObj [("debug_cert_id", JStr "B")]));
        (dev_cert_file, plain "-----BEGIN CERTIFICATE-----")])
    (fun _ => false) dev_globals
    (api [listed_cert "A" "OA" CERT_NAME; listed_cert "B" "OB" CERT_NAME]
         (JObj []) created_cert) [].

(** A resource API that lists the certificate ["A"] and the device
    ["UDID-1"], grants every profile and serves downloads, with a
    device that answers every command. *)
Definition granting_api : oracle :=
  Oracle
    (fun hist =>
       let u := last_url hist in
       if String.eqb u cert_list_url then
         Some (json_text (listing [listed_cert "A" "O" CERT_NAME]), 200)
       else if String.eqb u reapply_url then Some (json_text download_link, 200)
       else if String.eqb u device_list_url then
         Some (json_text
                 (JObj [("list", JArr [JObj [("udid", JStr "UDID-1");
                                             ("id", JStr "D1")]])]), 200)
       else if String.eqb u provision_add_url then
         Some (json_text
                 (JObj [("ret", JObj [("code", JNum 0); ("msg", JStr "success")]);
                        ("provisionFileUrl", JStr "https://dl.example/app.p7b")]),
               200)
       else None)
    (fun _ => FetchOk (plain "downloaded"))
    (fun _ => XOk ("ok" ++ nl ++ "UDID-1" ++ nl)%string [])
    (fun _ => true) (fun _ => [good_callback])
    (fun _ => Some (Text "jwt" (Some (JObj [("userInfo", sample_user_info)]))))
    (fun _ prefix => ("/tmp/" ++ prefix)%string) (fun _ => "{...}") (fun _ _ => "...").

(** A machine whose config remembers the certificate ["A"], its file
    and the profile of [com.example.app], with neither file on disk. *)
Definition stale_world : world :=
  World
    (files
       [(dev_config_file,
         json_text
           (JObj [("debug_cert_id", JStr "A");
                  ("debug_cert_path", JStr dev_cert_file);
                  ("debug_profile_path",
                   JStr (local_profile_path dev_globals PROFILE_NAME
                           "com.example.app"))]))])
    (fun _ => false) dev_globals granting_api [].

(** A machine whose resource API rejects every creation under status
    200. *)
Definition rejecting_world : world :=
  with_config (api [] (JObj []) rejection) (JObj []).

(** A machine whose config file holds text that is not JSON. *)
Definition corrupt_config_world : world :=
  World (files [(dev_config_file, plain "{ oauth2_token")])
        (fun _ => false) dev_globals silent [].

(** A machine whose config file holds [config] and cannot be written. *)
Definition locked_config_world (config : json) : world :=
  World (files [(dev_config_file, json_text config)])
        (fun p => String.eqb p dev_config_file) dev_globals silent [].

(** [d.get(k, "")] on the items of a dict. *)
Definition lookup (k : string) (d : list (string * json)) : json :=
  match assoc k d with Some v => v | None => JStr "" end.

(** The items [initialize_eco_config] leaves for a stored mapping [d]
    (outside debug mode). *)
Definition initialized (d : list (string * json)) : list (string * json) :=
  let d1 :=
    if py_truthy (lookup "storepass" d) then d
    else dict_set "storepass" (JStr DEFAULT_STOREPASS) d in
  if py_truthy (lookup "keyAlias" d1) then d1
  else dict_set "keyalias" (JStr DEFAULT_KEYALIAS) d1.

(** The document a first run starts from. *)
Definition default_config : json :=
  JObj [("storepass", JStr DEFAULT_STOREPASS);
        ("keyalias", JStr DEFAULT_KEYALIAS)].

(** A machine in debug mode with a stored session. *)
Definition debug_world : world :=
  World (files [(dev_config_file,
                 json_text (JObj [("oauth2_token", JStr "tok");
                                  ("storepass", JStr "secret")]))])
        (fun _ => false)
        (Globals "/home/dev" (Some "/opt/jdk17") (Some "/opt/hdc/hdc")
                 (Some "192.168.1.5:5555") true)
        silent [].

(** The requests that reached the callback server. *)
Definition requests_seen (l : list event) : nat :=
  count (fun e => match e with ERequest _ => true | _ => false end) l.

(** A request to a path the callback server does not know. *)
Definition stray_request : request :=
  Request "POST" "/favicon.ico" true "" [] None.

(** A GET for a page of the working directory, which the base class
    serves. *)
Definition page_request : request :=
  Request "GET" "/index.html" true "" [] (Some (200, "<html></html>")).

(** A callback whose body cannot be read. *)
Definition unreadable_callback : request :=
  Request "POST" "/callback" false "" [] None.

(** A handoff payload without access token. *)
Definition incomplete_payload : json :=
  JObj [("userId", JStr "u1"); ("nickName", JStr "dev")].

(** A machine right after the callback server has stopped, with
    [payload] in the handoff file and [config] stored. *)
Definition handoff_world (payload config : json) : world :=
  World (files [("/tmp/eco_token_", json_text payload);
                (dev_config_file, json_text config)])
        (fun _ => false) dev_globals silent [].

(** The shutdowns the handler asked for. *)
Definition shutdowns (l : list event) : nat :=
  count (fun e => match e with EShutdown => true | _ => false end) l.

(** What a handler run leaves: its events hold no request, it asked for
    a shutdown only when it returns [true], and it ended in one of three
    ways: an exception without reply; a 404 or 400; or the 200 to a
    POST to [/callback], the handoff file written when it can be.  Of
    the files only the log and, on the last path, the handoff file may
    differ. *)
Definition handled (tf lg : string) (rq : request) (w : world)
  (o : outcome bool) (w' : world) (evs : list event) : Prop :=
  requests_seen evs = 0%nat /\
  shutdowns evs = (match o with Done true => 1%nat | _ => 0%nat end) /\
  ((o = Raise /\ replies evs = [] /\
    (forall p, p <> lg -> fs w' p = fs w p)) \/
   (exists status,
       o = Done false /\ replies evs = [status] /\
       (status = 404 \/ status = 400) /\
       (forall p, p <> lg -> fs w' p = fs w p)) \/
   (o = Done true /\ rq_path rq = "/callback" /\ replies evs = [200] /\
    (forall p, p <> tf -> p <> lg -> fs w' p = fs w p) /\
    (locked w tf = false -> tf <> lg ->
     exists user_info,
       py_truthy user_info = true /\
       fs w' tf = Some (Text (o_dumps (env w) user_info) (Some user_info))))).

(** The paths a step on the disk names. *)
Definition op_paths (op : fsop) : list string :=
  match op with
  | OpOpenW p => [p]
  | OpWrite p _ => [p]
  | OpRemove p => [p]
  | OpRename src dst => [src; dst]
  end.

(** [m], run with the globals [g] and the outside [e], leaves both alone
    and changes no file outside [allowed]. *)
Definition stays (g : globals) (e : oracle) (allowed : string -> Prop)
  {A} (m : M A) : Prop :=
  forall w,
    glob w = g -> env w = e ->
    glob (snd (m w)) = g /\ env (snd (m w)) = e /\
    forall p, ~ allowed p -> fs (snd (m w)) p = fs w p.

(** A path [tempfile.mkstemp] handed out at some point. *)
Definition temp_file (e : oracle) (p : string) : Prop :=
  exists hist prefix, p = o_mktemp e hist prefix.

(** A file an external command reported to have written at some point. *)
Definition written_by_tool (e : oracle) (p : string) : Prop :=
  exists hist output wrote,
    o_exec e hist = XOk output wrote /\ In p (map fst wrote).

(** The files a login may change: the config file and temporary files. *)
Definition login_files (g : globals) (e : oracle) (p : string) : Prop :=
  p = ECO_CONFIG_FILE g \/ temp_file e p.

(** The files the certificate step may change. *)
Definition cert_files (name : string) (g : globals) (e : oracle) (p : string)
  : Prop :=
  p = local_cert_path g name \/ written_by_tool e p \/ login_files g e p.

(** The files the profile step may change. *)
Definition profile_files (profile_name package_name : string)
  (g : globals) (e : oracle) (p : string) : Prop :=
  p = local_profile_path g profile_name package_name \/
  written_by_tool e p \/ login_files g e p.

(** A file of the user that none of the steps knows. *)
Definition bystander : string := "/home/dev/notes.txt".

(** [cached_world] with a stale certificate identifier in the config, a
    bystander file, and an outside in which every login succeeds. *)
Definition busy_world : world :=
  World
    (files
       [(dev_config_file, json_text (JObj [("debug_cert_id", JStr "old")]));
        (bystander, plain "remember the milk")])
    (fun _ => false) dev_globals
    (Oracle
       (o_http (api [listed_cert "A" "O" CERT_NAME] (JObj []) created_cert))
       (fun _ => FetchOk (plain "-----BEGIN CERTIFICATE-----"))
       (fun _ => XOk "" [("/home/dev/.autoPublisher/config/store/xiaobai.p12",
                          plain "keystore")])
       (fun _ => true) (fun _ => [good_callback])
       (fun _ => Some (Text "jwt" (Some (JObj [("userInfo", sample_user_info)]))))
       (fun _ prefix => ("/tmp/" ++ prefix)%string) (fun _ => "{...}") (fun _ _ => "..."))
    [].

(** A handoff payload as the callback handler writes it. *)
Definition complete_payload : json :=
  JObj [("accessToken", JStr "tok"); ("userId", JStr "u1");
        ("nickName", JStr "dev")].

(** [m] only adds to the trace, and adds at most [n] events that [q]
    accepts. *)
Definition at_most (q : event -> bool) (n : nat) {A} (m : M A) : Prop :=
  forall w,
    exists evs, trace (snd (m w)) = trace w ++ evs /\ (count q evs <= n)%nat.

(** The endpoints of the three steps that talk to the resource API. *)
Definition cert_endpoints : list string :=
  [cert_list_url; cert_delete_url; cert_add_url; reapply_url].

Definition profile_endpoints : list string :=
  [device_list_url; device_add_url; provision_add_url].

Definition account_endpoints : list string := [user_team_list_url].

(** A listing step whose first answer is no 401: with a 200 it returns
    that answer and has done nothing else; with anything else, a failed
    request included, it ends the process after that one call, without
    a login and without touching the disk. *)
Definition fails_fast (url : string) (call step : M (option text * Z)) : Prop :=
  forall w b c w1,
    call w = (Done (b, c), w1) ->
    c <> 401 ->
    (c = 200 -> step w = (Done (b, c), w1)) /\
    (c <> 200 ->
     exists w',
       step w = (Exit, w') /\
       fs w' = fs w1 /\
       count is_login (since w w') = 0%nat /\
       count (is_call_in [url]) (since w w') = 1%nat /\
       (1 <= count is_error (since w1 w'))%nat).

(** [m], started with the globals [g] and the locks [lk], returns only
    results and worlds that satisfy [Q]. *)
Definition ensures (g : globals) (lk : string -> bool) {A}
  (Q : A -> world -> Prop) (m : M A) : Prop :=
  forall w a w',
    glob w = g -> locked w = lk -> m w = (Done a, w') -> Q a w'.

(** The config file, when it can be written, holds the items [kw]. *)
Definition records (g : globals) (lk : string -> bool)
  (kw : list (string * json)) (w' : world) : Prop :=
  lk (ECO_CONFIG_FILE g) = false ->
  exists d,
    config_of w' = JObj d /\
    forall k v, In (k, v) kw -> assoc k d = Some v.

(** What the certificate step has recorded about [info]. *)
Definition cert_record (info : cert_info) : list (string * json) :=
  [("debug_cert_new_cert", JStr (if new_cert info then "true" else "false"));
   ("debug_cert_id", cert_id info);
   ("debug_cert_name", JStr (cert_name info));
   ("debug_cert_path", JStr (cert_path info))].

(** What the profile step has recorded about [info]. *)
Definition profile_record (info : profile_info) : list (string * json) :=
  [("debug_profile_name", JStr (profile_name_of info));
   ("debug_profile_path", JStr (profile_path_of info))].

(** A certificate that has just been downloaded and recorded. *)
Definition fresh_cert (g : globals) (lk : string -> bool) (name : string)
  (info : cert_info) (w' : world) : Prop :=
  cert_path info = local_cert_path g name /\
  fs w' (cert_path info) <> None /\
  records g lk (cert_record info) w'.

(** A profile that is on disk and recorded. *)
Definition ready_profile (g : globals) (lk : string -> bool)
  (profile_name package_name : string) (info : profile_info) (w' : world)
  : Prop :=
  profile_name_of info = profile_file_name profile_name package_name /\
  profile_path_of info = local_profile_path g profile_name package_name /\
  fs w' (profile_path_of info) <> None /\
  records g lk (profile_record info) w'.

(** [m] only adds to the trace, and every event it adds satisfies [P]. *)
Definition sends (P : event -> Prop) {A} (m : M A) : Prop :=
  forall w,
    exists evs, trace (snd (m w)) = trace w ++ evs /\ Forall P evs.

(** If [e] is a request of [http_request], it is this one. *)
Definition request_is (m : method) (url : string) (data : option json)
  (e : event) : Prop :=
  is_http e = true -> exists headers, e = EHttp m url headers data.

(** The request [create_profile] sends. *)
Definition profile_request (profile_name package_name : string)
  (cert_id dev_id : json) : json :=
  JObj [("provisionName", JStr profile_name);
        ("deviceList", JArr [dev_id]);
        ("certList", JArr [cert_id]);
        ("packageName", JStr package_name)].

(** A debug certificate of the listing [resp_json] that is called
    [name] and has the identifier [i]. *)
Definition listed_debug_cert (resp_json : json) (name : string) (i : json)
  : Prop :=
  exists cert_list listed c ty n,
    py_get resp_json "certList" (JArr []) = Some cert_list /\
    py_iter cert_list = Some listed /\
    In c listed /\
    py_get c "certType" JNull = Some ty /\ py_eq ty (JNum 1) = true /\
    py_get c "certName" JNull = Some n /\ py_eq n (JStr name) = true /\
    py_get c "id" JNull = Some i /\ py_truthy i = true.

(** A listing with a production certificate and a debug certificate of
    another name beside the debug certificate that is looked for. *)
Definition mixed_listing : json :=
  listing
    [JObj [("id", JStr "P"); ("certObjectId", JStr "OP");
           ("certName", JStr CERT_NAME); ("certType", JNum 2)];
     listed_cert "Q" "OQ" "somebody-else";
     listed_cert "A" "OA" CERT_NAME].

Definition is_exec (e : event) : bool :=
  match e with EExec _ => true | _ => false end.

(** Where the keystore and the signing request are when the config does
    not say. *)
Definition default_keystore (g : globals) : string :=
  os_path_join (STORE_DIR g) ["xiaobai.p12"].

Definition default_csr (g : globals) : string :=
  os_path_join (STORE_DIR g) ["xiaobai.csr"].

(** ** Installing on the device *)

(** [s.lower()] on the ASCII letters.  The two needles looked for below
    hold no letter that a character outside ASCII lowers to, so the
    other characters can stay as they are. *)
Definition lower_char (c : ascii) : ascii :=
  let n := nat_of_ascii c in
  if ((65 <=? n) && (n <=? 90))%nat then ascii_of_nat (n + 32) else c.

Fixpoint lower (s : string) : string :=
  match s with
  | EmptyString => EmptyString
  | String c r => String (lower_char c) (lower r)
  end.

(** [test_connect_device]: the connection test of the prerequisite
    check. *)
Definition test_connect_device : M unit :=
  g <- get_globals ;;
  hdc <- must (HDC_COMMAND g) ;;
  device_ip <- must (DEVICE_IP g) ;;
  r <- ask (EExec [hdc; "tconn"; device_ip]) o_exec ;;
  match r with
  | XOk output wrote =>
      do_ops (map (fun pt => OpWrite (fst pt) (snd pt)) wrote) ;;
      if contains "Connect failed" output then
        error_print [L "连接设备失败: "; L device_ip; L "。"] ;;
        error_print [L "1. 请确保设备和电脑在同一网段(且没有使用代理)"] ;;
        error_print
          [L "2. 请打开设备上的无线调试： 系统 -> 开发者选项 -> 无线调试，并使用其中的IP和端口，作为参数 -d ip:port 来调用本脚本"] ;;
        sys_exit
      else ret tt
  | XFail output =>
      error_print [L "连接设备失败: "; L device_ip; L "。命令输出："; L nl; L output] ;;
      error_print [L "请检查 HDC_HOME、网络环境、设备设置等是否正确。"] ;;
      sys_exit
  | XTimeout =>
      error_print [L "连接设备命令超时: "; L device_ip] ;;
      sys_exit
  | XOSError => raise
  end.

(** [send_and_install(hap_file)] *)
Definition send_and_install (hap_file : string) : M unit :=
  present <- os_path_isfile hap_file ;;
  if negb present then
    error_print [L "待安装文件不存在: "; L hap_file] ;;
    sys_exit
  else
    g <- get_globals ;;
    device_ip <- must (DEVICE_IP g) ;;
    connect_device device_ip ;;
    udid <- get_udid device_ip ;;
    hdc <- must (HDC_COMMAND g) ;;
    check_call
      [hdc; "-t"; device_ip; "shell"; "mkdir"; "-p"; "data/local/tmp/hap"]
      [L "在设备上创建目录失败: "; X] ;;
    output <- check_output
                [hdc; "-t"; device_ip; "file"; "send"; hap_file;
                 "data/local/tmp/hap/"]
                [L "发送 hap 文件失败: "] [L "发送 hap 文件命令超时"] ;;
    if negb (contains "finish" (lower output)) then
      error_print [L "发送失败: "; L output] ;;
      sys_exit
    else
      output <- check_output
                  [hdc; "-t"; device_ip; "shell"; "bm"; "install"; "-p";
                   ("data/local/tmp/hap/" ++ os_path_basename hap_file)%string]
                  [L "安装指令执行失败: "] [L "安装命令超时"] ;;
      if contains "successfully" (lower output) then ret tt
      else
        error_print [L "安装失败: "; L output] ;;
        sys_exit.

(** The commands a run started. *)
Definition exec_cmds (l : list event) : list (list string) :=
  flat_map (fun e => match e with EExec cmd => [cmd] | _ => [] end) l.

Definition no_exec (e : event) : bool :=
  match e with EExec _ => false | _ => true end.

(** The commands of [send_and_install], in their order. *)
Definition install_script (hdc device_ip hap_file : string)
  : list (list string) :=
  [[hdc; "tconn"; device_ip];
   [hdc; "-t"; device_ip; "shell"; "bm"; "get"; "--udid"];
   [hdc; "-t"; device_ip; "shell"; "mkdir"; "-p"; "data/local/tmp/hap"];
   [hdc; "-t"; device_ip; "file"; "send"; hap_file; "data/local/tmp/hap/"];
   [hdc; "-t"; device_ip; "shell"; "bm"; "install"; "-p";
    ("data/local/tmp/hap/" ++ os_path_basename hap_file)%string]].

(** [m], run with the globals [g], leaves them alone and starts the
    commands of [script] in their order, all of them if it returns. *)
Definition follows (g : globals) (script : list (list string)) {A} (m : M A)
  : Prop :=
  forall w,
    glob w = g ->
    glob (snd (m w)) = g /\
    exists evs rest,
      trace (snd (m w)) = trace w ++ evs /\
      script = exec_cmds evs ++ rest /\
      (forall a, fst (m w) = Done a -> rest = []).

(** A device that answers every command with the same lines: connected,
    an identifier, and both the transfer and the installation done. *)
Definition willing_device : oracle :=
  Oracle (fun _ => None) (fun _ => FetchError)
         (fun _ => XOk ("ok" ++ nl ++ "UDID-1" ++ nl
                        ++ "FileTransfer finish, installed successfully")%string [])
         (fun _ => false) (fun _ => []) (fun _ => None)
         (fun _ prefix => ("/tmp/" ++ prefix)%string) (fun _ => "{...}") (fun _ _ => "...").

(** A machine with a signed package to install. *)
Definition install_world (o : oracle) : world :=
  World (files [("/home/dev/app_signed.hap", plain "hap")])
        (fun _ => false) dev_globals o [].

(** ** The module description of the package *)

(** [if "app" in module_data: module_data["app"]["debug"] = True
     else: module_data["app"] = {"debug": True}]
    on a [module_data] whose [.get("app", {}).get(...)] has been
    evaluated before: the inner dict is changed in place, so it keeps
    its position. *)
Definition set_app_debug (module_data : json) : option json :=
  match module_data with
  | JObj d =>
      match assoc "app" d with
      | Some app =>
          match py_setitem app "debug" (JBool true) with
          | Some app' => Some (JObj (dict_set "app" app' d))
          | None => None
          end
      | None => Some (JObj (dict_set "app" (JObj [("debug", JBool true)]) d))
      end
  | _ => None
  end.

(** The part of [update_get_hap_info] between the unpacking and the
    packing: [module.json] in the unpack directory is read, the bundle
    name is taken from it, [app.debug] is set and the file is written
    back.  The result is the bundle name; [None] is the
    [return None, None] of the two error branches. *)
Definition rewrite_module_json (unpack_dir : string) : M (option json) :=
  let module_json_path := os_path_join unpack_dir ["module.json"] in
  present <- os_path_isfile module_json_path ;;
  if negb present then
    error_print [L "未找到 module.json, 解包目录: "; L unpack_dir] ;;
    ret None
  else
    f <- read_file module_json_path ;;
    t <- must f ;;
    match parsed t with
    | None =>
        error_print [L "解析 module.json 失败: "; X] ;;
        ret None
    | Some module_data =>
        app <- must (py_get module_data "app" (JObj [])) ;;
        bundle_name <- must (py_get app "bundleName" (JStr "")) ;;
        module_data' <- must (set_app_debug module_data) ;;
        lk <- is_locked module_json_path ;;
        if lk then raise
        else
          s <- dumps module_data' ;;
          do_ops (dump_ops module_json_path s module_data') ;;
          ret (Some bundle_name)
    end.

(** The document a file holds, if it holds one. *)
Definition document_at (w : world) (p : string) : option json :=
  match fs w p with
  | Some t => parsed t
  | None => None
  end.

(** The [app] object of a module description, [{}] when it has none. *)
Definition app_of (d : list (string * json)) : json :=
  match assoc "app" d with Some app => app | None => JObj [] end.

(** An unpacked package of a release build. *)
Definition release_module : json :=
  JObj [("app", JObj [("bundleName", JStr "com.example.app");
                      ("debug", JBool false);
                      ("versionCode", JNum 7)]);
        ("module", JObj [("name", JStr "entry")])].

Definition unpacked_world : world :=
  World (files [("/tmp/hap_unpack_1/module.json", json_text release_module)])
        (fun _ => false) dev_globals silent [].

(** The headers [http_request] sends for a session. *)
Definition session_headers (access_token user_id : json)
  : list (string * json) :=
  [("Content-Type", JStr "application/json");
   ("oauth2Token", access_token);
   ("teamId", user_id);
   ("uid", user_id)].

(** A machine on which the download of the profile breaks off after the
    first bytes. *)
Definition torn_world : world :=
  World (files [(dev_config_file, json_text (JObj [("debug_cert_id", JStr "A")]))])
        (fun _ => false) dev_globals
        (Oracle (fun _ => None) (fun _ => FetchBroken (plain "MIIB"))
                (fun _ => XOSError) (fun _ => false) (fun _ => [])
                (fun _ => None)
                (fun _ prefix => ("/tmp/" ++ prefix)%string) (fun _ => "{...}") (fun _ _ => "..."))
        [].

(** * Properties *)

Unset Implicit Arguments.

(** ** The monad *)

Lemma bind_done {A B} {m : M A} (f : A -> M B) {w a w1} :
  m w = (Done a, w1) -> bind m f w = f a w1.
Proof. intros H. unfold bind. rewrite H. reflexivity. Qed.

Lemma bind_inv {A B} {m : M A} {f : A -> M B} {w b w'} :
  bind m f w = (Done b, w') ->
  exists a w1, m w = (Done a, w1) /\ f a w1 = (Done b, w').
Proof.
  unfold bind. destruct (m w) as [[a| | |] w1]; intros H; try discriminate.
  exists a, w1. split; [reflexivity | exact H].
Qed.

Lemma since_app w w' evs : trace w' = trace w ++ evs -> since w w' = evs.
Proof.
  intros H. unfold since. rewrite H.
  rewrite skipn_app, skipn_all, Nat.sub_diag. reflexivity.
Qed.

Lemma count_app p l1 l2 : count p (l1 ++ l2) = (count p l1 + count p l2)%nat.
Proof. unfold count. rewrite filter_app, length_app. reflexivity. Qed.

Lemma count_none p q l :
  (forall e, p e = true -> q e = false) ->
  forallb p l = true -> count q l = 0%nat.
Proof.
  intros Hpq. induction l as [|e l IH]; simpl; intros H; [reflexivity|].
  apply andb_true_iff in H. destruct H as [He Hl].
  unfold count in *. simpl. rewrite (Hpq e He). apply IH, Hl.
Qed.

(** ** Footprints *)

Section Only.
Variable p : event -> bool.

Lemma only_pure {A} (f : world -> outcome A) :
  only p (fun w => (f w, w)).
Proof.
  intros w. simpl. repeat split.
  exists []. rewrite app_nil_r. split; reflexivity.
Qed.

Lemma only_ret {A} (a : A) : only p (ret a).
Proof. apply (only_pure (fun _ => Done a)). Qed.

Lemma only_sys_exit {A} : only p (@sys_exit A).
Proof. apply (only_pure (fun _ => Exit)). Qed.

Lemma only_raise {A} : only p (@raise A).
Proof. apply (only_pure (fun _ => Raise)). Qed.

Lemma only_hang {A} : only p (@hang A).
Proof. apply (only_pure (fun _ => Hang)). Qed.

Lemma only_must {A} (o : option A) : only p (must o).
Proof. destruct o; [apply only_ret | apply only_raise]. Qed.

Lemma only_get_globals : only p get_globals.
Proof. apply (only_pure (fun w => Done (glob w))). Qed.

Lemma only_read_file q : only p (read_file q).
Proof. apply (only_pure (fun w => Done (fs w q))). Qed.

Lemma only_isfile q : only p (os_path_isfile q).
Proof.
  apply (only_pure
           (fun w => Done (match fs w q with Some _ => true | None => false end))).
Qed.

Lemma only_is_locked q : only p (is_locked q).
Proof. apply (only_pure (fun w => Done (locked w q))). Qed.

Lemma only_dumps j : only p (dumps j).
Proof. apply (only_pure (fun w => Done (o_dumps (env w) j))). Qed.

Lemma only_mktemp s : only p (mktemp s).
Proof. apply (only_pure (fun w => Done (o_mktemp (env w) (trace w) s))). Qed.

Lemma only_do_ops ops : only p (do_ops ops).
Proof.
  intros w. simpl. repeat split.
  exists []. rewrite app_nil_r. split; reflexivity.
Qed.

Lemma only_log_append logger level msg : only p (log_append logger level msg).
Proof.
  intros w. simpl. repeat split.
  exists []. rewrite app_nil_r. split; reflexivity.
Qed.

Lemma only_logger_info logger msg : only p (logger_info logger msg).
Proof. apply only_log_append. Qed.

Lemma only_open_log logger : only p (open_log logger).
Proof.
  intros w. unfold open_log, bind, is_locked, raise, set_fs.
  destruct (locked w logger); simpl; repeat split;
    exists []; rewrite app_nil_r; split; reflexivity.
Qed.

Lemma only_emit e : p e = true -> only p (emit e).
Proof.
  intros He w. simpl. repeat split.
  exists [e]. split; [reflexivity | simpl; rewrite He; reflexivity].
Qed.

Lemma only_ask {A} e (o : oracle -> list event -> A) :
  p e = true -> only p (ask e o).
Proof.
  intros He w. simpl. repeat split.
  exists [e]. split; [reflexivity | simpl; rewrite He; reflexivity].
Qed.

Lemma only_bind {A B} (m : M A) (f : A -> M B) :
  only p m -> (forall a, only p (f a)) -> only p (bind m f).
Proof.
  intros Hm Hf w. specialize (Hm w). unfold bind.
  destruct (m w) as [o w1]. simpl in Hm.
  destruct Hm as (He & Hl & Hg & evs & Ht & Hp).
  destruct o as [a| | |];
    try (simpl; repeat split; try assumption; exists evs; split; assumption).
  specialize (Hf a w1). destruct (f a w1) as [o2 w2]. simpl in *.
  destruct Hf as (He2 & Hl2 & Hg2 & evs2 & Ht2 & Hp2).
  repeat split; try congruence.
  exists (evs ++ evs2). split.
  - rewrite Ht2, Ht, app_assoc. reflexivity.
  - rewrite forallb_app, Hp, Hp2. reflexivity.
Qed.
Lemma only_logger_error logger msg :
  p (EServerLog msg) = true -> only p (logger_error logger msg).
Proof.
  intros He. unfold logger_error.
  apply only_bind; [apply only_log_append | intros _; apply only_emit, He].
Qed.
End Only.

Lemma only_weaken {A} (p q : event -> bool) (m : M A) :
  (forall e, p e = true -> q e = true) -> only p m -> only q m.
Proof.
  intros Hpq Hm w. destruct (Hm w) as (He & Hl & Hg & evs & Ht & Hp).
  repeat split; try assumption. exists evs. split; [assumption|].
  rewrite forallb_forall in *. auto.
Qed.

Lemma mem_sub u urls urls' :
  forallb (fun x => mem x urls') urls = true ->
  mem u urls = true -> mem u urls' = true.
Proof.
  intros Hsub Hu. unfold mem in Hu. apply existsb_exists in Hu.
  destruct Hu as (x & Hx & Hux). apply String.eqb_eq in Hux. subst x.
  rewrite forallb_forall in Hsub. apply Hsub, Hx.
Qed.

Lemma fp_mono urls urls' f f' l l' :
  forallb (fun x => mem x urls') urls = true ->
  implb f f' = true -> implb l l' = true ->
  forall e, fp urls f l e = true -> fp urls' f' l' e = true.
Proof.
  intros Hu Hf Hl e. destruct e; simpl; try reflexivity.
  - apply mem_sub, Hu.
  - intros ->. exact Hf.
  - intros ->. exact Hl.
Qed.

Create HintDb only discriminated.

Ltac only_known :=
  eapply only_weaken; [ | solve [eauto with only] ];
  try unfold anything; apply fp_mono; reflexivity.

Ltac only_step :=
  match goal with
  | |- only _ (bind _ _) => apply only_bind; [ | intros ]
  | |- only _ (ret _) => apply only_ret
  | |- only _ sys_exit => apply only_sys_exit
  | |- only _ raise => apply only_raise
  | |- only _ hang => apply only_hang
  | |- only _ (must _) => apply only_must
  | |- only _ get_globals => apply only_get_globals
  | |- only _ (read_file _) => apply only_read_file
  | |- only _ (os_path_isfile _) => apply only_isfile
  | |- only _ (is_locked _) => apply only_is_locked
  | |- only _ (dumps _) => apply only_dumps
  | |- only _ (mktemp _) => apply only_mktemp
  | |- only _ (do_ops _) => apply only_do_ops
  | |- only _ (open_log _) => apply only_open_log
  | |- only _ (logger_info _ _) => apply only_logger_info
  | |- only _ (logger_error _ _) => apply only_logger_error; reflexivity
  | |- only _ (emit _) => apply only_emit; reflexivity
  | |- only _ (error_print _) => apply only_emit; reflexivity
  | |- only _ (ask _ _) => apply only_ask; reflexivity
  | |- only _ (match ?x with _ => _ end) => destruct x
  | |- only _ _ => only_known
  end.

Ltac only_tac := cbv zeta; repeat (only_step; cbv zeta).

Lemma only_read_eco_config : only (fp [] false false) read_eco_config.
Proof. unfold read_eco_config. only_tac. Qed.
#[export] Hint Resolve only_read_eco_config : only.

Lemma only_write_eco_config data : only (fp [] false false) (write_eco_config data).
Proof. unfold write_eco_config. only_tac. Qed.
#[export] Hint Resolve only_write_eco_config : only.

Lemma only_clear_eco_config_file : only (fp [] false false) clear_eco_config_file.
Proof. unfold clear_eco_config_file. only_tac. Qed.
#[export] Hint Resolve only_clear_eco_config_file : only.

Lemma only_get_config_value key : only (fp [] false false) (get_config_value key).
Proof. unfold get_config_value. only_tac. Qed.
#[export] Hint Resolve only_get_config_value : only.

Lemma only_update_config kwargs : only (fp [] false false) (update_config kwargs).
Proof. unfold update_config. only_tac. Qed.
#[export] Hint Resolve only_update_config : only.

Lemma only_initialize_eco_config : only (fp [] false false) initialize_eco_config.
Proof. unfold initialize_eco_config. only_tac. Qed.
#[export] Hint Resolve only_initialize_eco_config : only.

Lemma only_http_request m url data :
  only (fp [url] false false) (http_request m url data).
Proof.
  unfold http_request.
  repeat (apply only_bind; [ solve [only_tac] | intros ]).
  apply only_bind.
  - apply only_ask. simpl. rewrite String.eqb_refl. reflexivity.
  - intros r. only_tac.
Qed.
#[export] Hint Resolve only_http_request : only.

Lemma only_download_file url name : only (fp [] true false) (download_file url name).
Proof. unfold download_file. only_tac. Qed.
#[export] Hint Resolve only_download_file : only.

Lemma only_loads_or_exit body what : only (fp [] false false) (loads_or_exit body what).
Proof. unfold loads_or_exit. only_tac. Qed.
#[export] Hint Resolve only_loads_or_exit : only.

Lemma only_download_cert obj name :
  only (fp [reapply_url] true false) (download_cert obj name).
Proof. unfold download_cert. only_tac. Qed.
#[export] Hint Resolve only_download_cert : only.

Lemma only_check_call cmd failed : only (fp [] false false) (check_call cmd failed).
Proof. unfold check_call. only_tac. Qed.
#[export] Hint Resolve only_check_call : only.

Lemma only_check_output cmd failed timed :
  only (fp [] false false) (check_output cmd failed timed).
Proof. unfold check_output. only_tac. Qed.
#[export] Hint Resolve only_check_output : only.

Lemma only_create_keystore k s a c : only (fp [] false false) (create_keystore k s a c).
Proof. unfold create_keystore. only_tac. Qed.
#[export] Hint Resolve only_create_keystore : only.

Lemma only_create_csr k c a s : only (fp [] false false) (create_csr k c a s).
Proof. unfold create_csr. only_tac. Qed.
#[export] Hint Resolve only_create_csr : only.

Lemma only_read_csr c : only (fp [] false false) (read_csr c).
Proof. unfold read_csr. only_tac. Qed.
#[export] Hint Resolve only_read_csr : only.

Lemma only_do_POST tf lg rq : only (fp [] false false) (do_POST tf lg rq).
Proof. unfold do_POST. only_tac. Qed.
#[export] Hint Resolve only_do_POST : only.

Lemma only_catch {A} p (m : M A) (a : A) :
  only p m ->
  only p (fun w => match m w with (Raise, w') => (Done a, w') | r => r end).
Proof.
  intros Hm w. specialize (Hm w). destruct (m w) as [[x| | |] w1]; exact Hm.
Qed.

Lemma only_handle_request tf lg rq :
  only (fp [] false false) (handle_request tf lg rq).
Proof.
  unfold handle_request. apply only_bind; [only_tac | intros _].
  destruct (String.eqb (rq_method rq) "POST").
  - apply only_catch. apply only_do_POST.
  - only_tac.
Qed.
#[export] Hint Resolve only_handle_request : only.

Lemma only_serve_forever tf lg rqs :
  only (fp [] false false) (serve_forever tf lg rqs).
Proof.
  induction rqs as [|rq rest IH]; simpl.
  - apply only_hang.
  - apply only_bind; [apply only_handle_request | intros stop].
    destruct stop; [apply only_ret | exact IH].
Qed.
#[export] Hint Resolve only_serve_forever : only.

Lemma only_run_server tf port url :
  only (fp [] false false) (run_login_callback_handler_server tf port url).
Proof. unfold run_login_callback_handler_server. only_tac. Qed.
#[export] Hint Resolve only_run_server : only.

Lemma only_login_collect tf lp : only (fp [] false false) (login_collect tf lp).
Proof. unfold login_collect. only_tac. Qed.
#[export] Hint Resolve only_login_collect : only.

Lemma only_login_wait : only (fp [] false true) login_wait.
Proof. unfold login_wait. only_tac. Qed.
#[export] Hint Resolve only_login_wait : only.

Lemma only_login_eco : only (fp [] false true) login_eco.
Proof. unfold login_eco. only_tac. Qed.
#[export] Hint Resolve only_login_eco : only.

Lemma only_cert_list_step : only (fp [cert_list_url] false true) cert_list_step.
Proof. unfold cert_list_step, get_cert_list. only_tac. Qed.
#[export] Hint Resolve only_cert_list_step : only.

Lemma only_device_list_step : only (fp [device_list_url] false true) device_list_step.
Proof. unfold device_list_step, eco_device_list. only_tac. Qed.
#[export] Hint Resolve only_device_list_step : only.

Lemma only_team_list_step : only (fp [user_team_list_url] false true) team_list_step.
Proof. unfold team_list_step. only_tac. Qed.
#[export] Hint Resolve only_team_list_step : only.

Lemma only_reuse_cert name existing same :
  only (fp [reapply_url] true false) (reuse_cert name existing same).
Proof. unfold reuse_cert. only_tac. Qed.
#[export] Hint Resolve only_reuse_cert : only.

Lemma only_delete_same_named name dc :
  only (fp [cert_delete_url] false false) (delete_same_named name dc).
Proof. unfold delete_same_named, delete_certs. only_tac. Qed.
#[export] Hint Resolve only_delete_same_named : only.

Lemma only_prepare_csr : only (fp [] false false) prepare_csr.
Proof. unfold prepare_csr. only_tac. Qed.
#[export] Hint Resolve only_prepare_csr : only.

Lemma only_after_create_cert name body code :
  only (fp [reapply_url] true false) (after_create_cert name body code).
Proof. unfold after_create_cert. only_tac. Qed.
#[export] Hint Resolve only_after_create_cert : only.

Lemma only_connect_device ip : only (fp [] false false) (connect_device ip).
Proof. unfold connect_device. only_tac. Qed.
#[export] Hint Resolve only_connect_device : only.

Lemma only_get_udid ip : only (fp [] false false) (get_udid ip).
Proof. unfold get_udid. only_tac. Qed.
#[export] Hint Resolve only_get_udid : only.

Lemma only_find_device r u f : only (fp [] false false) (find_device r u f).
Proof. unfold find_device. only_tac. Qed.
#[export] Hint Resolve only_find_device : only.

Lemma only_reconcile_device :
  only (fp [device_list_url; device_add_url] false true) reconcile_device.
Proof.
  unfold reconcile_device, register_device, relist_device, create_device,
    eco_device_list.
  only_tac.
Qed.
#[export] Hint Resolve only_reconcile_device : only.

Lemma only_after_create_profile fn body code :
  only (fp [] true false) (after_create_profile fn body code).
Proof. unfold after_create_profile. only_tac. Qed.
#[export] Hint Resolve only_after_create_profile : only.

(** ** The config store *)

Lemma assoc_dict_set_same k v d : assoc k (dict_set k v d) = Some v.
Proof.
  induction d as [|[k' v'] r IH]; simpl.
  - rewrite String.eqb_refl. reflexivity.
  - destruct (String.eqb k k') eqn:E; simpl.
    + rewrite String.eqb_refl. reflexivity.
    + rewrite E. exact IH.
Qed.

Lemma assoc_dict_set_other k k' v d :
  k <> k' -> assoc k (dict_set k' v d) = assoc k d.
Proof.
  intros Hne. induction d as [|[k2 v2] r IH]; simpl.
  - apply String.eqb_neq in Hne. rewrite Hne. reflexivity.
  - destruct (String.eqb k' k2) eqn:E; simpl.
    + apply String.eqb_eq in E. subst k2.
      apply String.eqb_neq in Hne. rewrite Hne. reflexivity.
    + destruct (String.eqb k k2); [reflexivity | exact IH].
Qed.

Lemma set_items_obj kwargs d :
  set_items kwargs (JObj d) = Some (JObj (merge kwargs d)).
Proof.
  revert d. induction kwargs as [|[k v] r IH]; intros d; simpl; [reflexivity|].
  apply IH.
Qed.

Lemma assoc_merge_other k kwargs d :
  ~ In k (map fst kwargs) -> assoc k (merge kwargs d) = assoc k d.
Proof.
  revert d. induction kwargs as [|[k' v'] r IH]; intros d Hn; simpl; [reflexivity|].
  simpl in Hn. rewrite IH by tauto.
  apply assoc_dict_set_other. intros ->. tauto.
Qed.

Lemma assoc_merge_in k v kwargs d :
  NoDup (map fst kwargs) -> In (k, v) kwargs ->
  assoc k (merge kwargs d) = Some v.
Proof.
  revert d. induction kwargs as [|[k' v'] r IH]; intros d Hnd Hin; simpl.
  - destruct Hin.
  - simpl in Hnd. inversion Hnd as [|? ? Hk' Hr]; subst.
    destruct Hin as [Heq | Hin].
    + inversion Heq; subst.
      rewrite assoc_merge_other by exact Hk'. apply assoc_dict_set_same.
    + apply IH; assumption.
Qed.

(** [read_eco_config] always returns, and returns [config_of]; it leaves
    the disk alone. *)
Lemma read_eco_config_spec w :
  exists w1,
    read_eco_config w = (Done (config_of w), w1) /\
    fs w1 = fs w /\ glob w1 = glob w /\ locked w1 = locked w /\ env w1 = env w.
Proof.
  unfold read_eco_config, config_of, bind, get_globals, read_file. simpl.
  destruct (fs w (ECO_CONFIG_FILE (glob w))) as [t|] eqn:E.
  - destruct (parsed t) as [j|].
    + exists w. repeat split.
    + eexists. split; [reflexivity | repeat split].
  - exists w. repeat split.
Qed.

(** An unlocked config file holds exactly the written document after
    [write_eco_config]. *)
Lemma write_eco_config_spec w data :
  locked w (ECO_CONFIG_FILE (glob w)) = false ->
  exists w1,
    write_eco_config data w = (Done tt, w1) /\
    config_of w1 = data /\ glob w1 = glob w /\ locked w1 = locked w /\
    env w1 = env w /\ trace w1 = trace w /\
    fs w1 = apply_ops (dump_ops (ECO_CONFIG_FILE (glob w))
                                (o_dumps (env w) data) data) (fs w).
Proof.
  intros Hl. unfold write_eco_config, bind, get_globals, is_locked. simpl.
  rewrite Hl. simpl. eexists. split; [reflexivity|].
  unfold config_of. simpl. unfold upd. rewrite String.eqb_refl. simpl.
  repeat split.
Qed.

Lemma update_config_spec w d kwargs :
  config_of w = JObj d ->
  locked w (ECO_CONFIG_FILE (glob w)) = false ->
  exists w1,
    update_config kwargs w = (Done tt, w1) /\
    config_of w1 = JObj (merge kwargs d) /\
    glob w1 = glob w /\ locked w1 = locked w /\ env w1 = env w.
Proof.
  intros Hc Hl. unfold update_config.
  destruct (read_eco_config_spec w) as (w0 & Hr & Hfs & Hg & Hlk & He).
  rewrite (bind_done _ Hr). rewrite Hc, set_items_obj. simpl.
  unfold bind at 1. simpl.
  destruct (write_eco_config_spec w0 (JObj (merge kwargs d)))
    as (w1 & Hw & Hc1 & Hg1 & Hl1 & He1 & _).
  { rewrite Hg, Hlk. exact Hl. }
  exists w1. rewrite Hw. repeat split; congruence.
Qed.

Lemma get_config_value_spec w d key :
  config_of w = JObj d ->
  fst (get_config_value key w) =
  Done (match assoc key d with Some v => v | None => JStr "" end).
Proof.
  intros Hc. unfold get_config_value.
  destruct (read_eco_config_spec w) as (w0 & Hr & _).
  rewrite (bind_done _ Hr). rewrite Hc. reflexivity.
Qed.

(** C6.  Config writes merge: when the stored document is a mapping and
    the config file can be written, [update_config] returns, and
    afterwards [get_config_value] gives the new value for every key of
    the update and the old value for every other key.  In particular
    setting a = 1 and then b = 2 leaves a document with both. *)
Theorem update_config_merges :
  (forall w d kwargs,
      fst (read_eco_config w) = Done (JObj d) ->
      locked w (ECO_CONFIG_FILE (glob w)) = false ->
      NoDup (map fst kwargs) ->
      exists w',
        update_config kwargs w = (Done tt, w') /\
        (forall k v, In (k, v) kwargs ->
                     fst (get_config_value k w') = Done v) /\
        (forall k, ~ In k (map fst kwargs) ->
                   fst (get_config_value k w') = fst (get_config_value k w))) /\
  (forall w d,
      fst (read_eco_config w) = Done (JObj d) ->
      locked w (ECO_CONFIG_FILE (glob w)) = false ->
      exists w1 w2,
        update_config [("a", JStr "1")] w = (Done tt, w1) /\
        update_config [("b", JStr "2")] w1 = (Done tt, w2) /\
        fst (get_config_value "a" w2) = Done (JStr "1") /\
        fst (get_config_value "b" w2) = Done (JStr "2")).
Proof.
  assert (Hcfg : forall w d, fst (read_eco_config w) = Done (JObj d) ->
                             config_of w = JObj d).
  { intros w d H. destruct (read_eco_config_spec w) as (w0 & Hr & _).
    rewrite Hr in H. simpl in H. congruence. }
  split.
  - intros w d kwargs Hr Hl Hnd. apply Hcfg in Hr.
    destruct (update_config_spec w d kwargs Hr Hl) as (w' & Hu & Hc' & _).
    exists w'. split; [exact Hu|]. split.
    + intros k v Hin. rewrite (get_config_value_spec _ _ k Hc').
      rewrite (assoc_merge_in k v kwargs d Hnd Hin). reflexivity.
    + intros k Hn. rewrite (get_config_value_spec _ _ k Hc').
      rewrite (get_config_value_spec _ _ k Hr).
      rewrite (assoc_merge_other k kwargs d Hn). reflexivity.
  - intros w d Hr Hl. apply Hcfg in Hr.
    destruct (update_config_spec w d [("a", JStr "1")] Hr Hl)
      as (w1 & Hu1 & Hc1 & Hg1 & Hl1 & _).
    assert (Hl1' : locked w1 (ECO_CONFIG_FILE (glob w1)) = false)
      by (rewrite Hg1, Hl1; exact Hl).
    destruct (update_config_spec w1 _ [("b", JStr "2")] Hc1 Hl1')
      as (w2 & Hu2 & Hc2 & _).
    exists w1, w2. repeat split; try assumption.
    + rewrite (get_config_value_spec _ _ "a" Hc2). simpl.
      rewrite assoc_dict_set_other by discriminate.
      rewrite assoc_dict_set_same. reflexivity.
    + rewrite (get_config_value_spec _ _ "b" Hc2). simpl.
      rewrite assoc_dict_set_same. reflexivity.
Qed.

Lemma update_config_merges_witness :
  exists w',
    update_config [("a", JStr "1")] (with_config silent (JObj [("x", JStr "0")]))
    = (Done tt, w') /\
    fst (get_config_value "a" w') = Done (JStr "1") /\
    fst (get_config_value "x" w') = Done (JStr "0").
Proof.
  destruct update_config_merges as [H _].
  destruct (H (with_config silent (JObj [("x", JStr "0")]))
              [("x", JStr "0")] [("a", JStr "1")])
    as (w' & Hu & Hin & Hout).
  - reflexivity.
  - reflexivity.
  - repeat constructor. simpl. tauto.
  - exists w'. split; [exact Hu|]. split.
    + apply Hin. left. reflexivity.
    + rewrite Hout; [reflexivity|]. simpl. intros [E|[]]. discriminate E.
Defined.

Lemma config_of_ext w w' :
  fs w' = fs w -> glob w' = glob w -> config_of w' = config_of w.
Proof. intros Hf Hg. unfold config_of. rewrite Hf, Hg. reflexivity. Qed.

Lemma get_config_value_run w d key :
  config_of w = JObj d ->
  exists w0,
    get_config_value key w =
    (Done (match assoc key d with Some v => v | None => JStr "" end), w0) /\
    fs w0 = fs w /\ glob w0 = glob w /\ locked w0 = locked w /\ env w0 = env w.
Proof.
  intros Hc. unfold get_config_value.
  destruct (read_eco_config_spec w) as (w0 & Hr & Hrest).
  rewrite (bind_done _ Hr). rewrite Hc. simpl. exists w0. split; [reflexivity|].
  exact Hrest.
Qed.

Lemma clear_eco_config_file_spec w :
  locked w (ECO_CONFIG_FILE (glob w)) = false ->
  exists w1,
    clear_eco_config_file w = (Done tt, w1) /\
    config_of w1 = JObj [] /\ glob w1 = glob w /\ locked w1 = locked w /\
    env w1 = env w /\
    fs w1 = apply_ops (dump_ops (ECO_CONFIG_FILE (glob w))
                                (o_dumps (env w) (JObj [])) (JObj [])) (fs w).
Proof.
  intros Hl. unfold clear_eco_config_file, bind, get_globals, is_locked. simpl.
  rewrite Hl. simpl. eexists. split; [reflexivity|].
  unfold config_of. simpl. unfold upd. rewrite String.eqb_refl. simpl.
  repeat split.
Qed.

(** C7, as the code has it.  A write of the config document is done in
    place: the config file itself is opened for writing, which empties
    it, and the document is then dumped into it; no step is a rename and
    no step touches another file.  A crash between the two steps leaves
    an empty config file, which is read back as the empty document.  The
    debug reset writes the same way. *)
Theorem write_eco_config_in_place :
  forall w data,
    locked w (ECO_CONFIG_FILE (glob w)) = false ->
    let p := ECO_CONFIG_FILE (glob w) in
    let ops := dump_ops p (o_dumps (env w) data) data in
    (exists w', write_eco_config data w = (Done tt, w') /\
                fs w' = apply_ops ops (fs w)) /\
    (exists w', clear_eco_config_file w = (Done tt, w') /\
                fs w' = apply_ops (dump_ops p (o_dumps (env w) (JObj [])) (JObj []))
                                  (fs w)) /\
    (forall op, In op ops -> is_rename op = false /\ op_target op = p) /\
    crash_after 1 ops (fs w) p = Some (plain "") /\
    (forall wc, fs wc = crash_after 1 ops (fs w) -> glob wc = glob w ->
                fst (read_eco_config wc) = Done (JObj [])).
Proof.
  intros w data Hl p ops. split; [|split; [|split; [|split]]].
  - destruct (write_eco_config_spec w data Hl) as (w' & Hw & _ & _ & _ & _ & _ & Hfs).
    exists w'. split; assumption.
  - destruct (clear_eco_config_file_spec w Hl) as (w' & Hw & _ & _ & _ & _ & Hfs).
    exists w'. split; assumption.
  - intros op [<-|[<-|[]]]; split; reflexivity.
  - unfold crash_after, ops, dump_ops. simpl. unfold upd.
    rewrite String.eqb_refl. reflexivity.
  - intros wc Hfs Hg.
    destruct (read_eco_config_spec wc) as (w0 & Hr & _). rewrite Hr. simpl.
    unfold config_of. rewrite Hfs, Hg. fold p.
    unfold crash_after, ops, dump_ops. simpl. unfold upd.
    rewrite String.eqb_refl. reflexivity.
Qed.

Lemma write_eco_config_in_place_witness :
  crash_after 1
    (dump_ops dev_config_file "{...}" (JObj [("a", JStr "1"); ("b", JStr "2")]))
    (fs (with_config silent (JObj [("a", JStr "1")]))) dev_config_file
  = Some (plain "").
Proof.
  exact (proj1 (proj2 (proj2 (proj2
    (write_eco_config_in_place (with_config silent (JObj [("a", JStr "1")]))
       (JObj [("a", JStr "1"); ("b", JStr "2")]) eq_refl))))).
Defined.

(** C7, as the claim has it, fails: writing a second key into a stored
    document goes through no rename, and a crash after the first step
    leaves neither the old nor the new document. *)
Lemma config_write_not_crash_atomic :
  let w := with_config silent (JObj [("a", JStr "1")]) in
  let new := JObj [("a", JStr "1"); ("b", JStr "2")] in
  let ops := dump_ops dev_config_file (o_dumps silent new) new in
  fs (snd (write_eco_config new w)) = apply_ops ops (fs w) /\
  existsb is_rename ops = false /\
  ~ crash_atomic ops (fs w) dev_config_file (Text (o_dumps silent new) (Some new)).
Proof.
  cbv zeta. split; [reflexivity|]. split; [reflexivity|].
  intros H. specialize (H 1%nat). destruct H as [H|H]; vm_compute in H; discriminate H.
Qed.

(** The [else] branch of [initialize_eco_config], on a stored mapping
    whose ["keyAlias"] is missing or empty. *)
Lemma initialize_existing w d :
  config_of w = JObj d ->
  fs w (ECO_CONFIG_FILE (glob w)) <> None ->
  locked w (ECO_CONFIG_FILE (glob w)) = false ->
  py_truthy (match assoc "keyAlias" d with Some v => v | None => JStr "" end)
  = false ->
  exists w',
    (present <- os_path_isfile (ECO_CONFIG_FILE (glob w)) ;;
     if negb present then
       write_eco_config
         (JObj [("storepass", JStr DEFAULT_STOREPASS);
                ("keyalias", JStr DEFAULT_KEYALIAS)])
     else
       storepass <- get_config_value "storepass" ;;
       (if negb (py_truthy storepass)
        then update_config [("storepass", JStr DEFAULT_STOREPASS)]
        else ret tt) ;;
       keyalias <- get_config_value "keyAlias" ;;
       (if negb (py_truthy keyalias)
        then update_config [("keyalias", JStr DEFAULT_KEYALIAS)]
        else ret tt)) w = (Done tt, w') /\
    fst (get_config_value "keyalias" w') = Done (JStr DEFAULT_KEYALIAS).
Proof.
  intros Hc Hex Hl Hk.
  unfold bind at 1. unfold os_path_isfile.
  destruct (fs w (ECO_CONFIG_FILE (glob w))) as [t|] eqn:Et; [|congruence].
  cbn [negb].
  destruct (get_config_value_run w d "storepass" Hc)
    as (w0 & Hg0 & Hf0 & Hgl0 & Hl0 & He0).
  rewrite (bind_done _ Hg0).
  assert (Hc0 : config_of w0 = JObj d)
    by (rewrite (config_of_ext w w0 Hf0 Hgl0); exact Hc).
  assert (Hlk0 : locked w0 (ECO_CONFIG_FILE (glob w0)) = false)
    by (rewrite Hgl0, Hl0; exact Hl).
  (* the storepass step leaves a mapping with the same ["keyAlias"] *)
  assert (Hstep : exists w1 d1,
             (if negb (py_truthy
                         (match assoc "storepass" d with
                          | Some v => v | None => JStr "" end))
              then update_config [("storepass", JStr DEFAULT_STOREPASS)]
              else ret tt) w0 = (Done tt, w1) /\
             config_of w1 = JObj d1 /\
             assoc "keyAlias" d1 = assoc "keyAlias" d /\
             locked w1 (ECO_CONFIG_FILE (glob w1)) = false).
  { destruct (negb _).
    - destruct (update_config_spec w0 d [("storepass", JStr DEFAULT_STOREPASS)]
                  Hc0 Hlk0) as (w1 & Hu & Hc1 & Hg1 & Hl1 & _).
      exists w1, (merge [("storepass", JStr DEFAULT_STOREPASS)] d).
      repeat split; try assumption.
      + simpl. apply assoc_dict_set_other. discriminate.
      + rewrite Hg1, Hl1. exact Hlk0.
    - exists w0, d. repeat split; assumption. }
  destruct Hstep as (w1 & d1 & Hs & Hc1 & Hk1 & Hlk1).
  rewrite (bind_done _ Hs).
  destruct (get_config_value_run w1 d1 "keyAlias" Hc1)
    as (w2 & Hg2 & Hf2 & Hgl2 & Hl2 & He2).
  rewrite (bind_done _ Hg2). rewrite Hk1, Hk. cbn [negb].
  assert (Hc2 : config_of w2 = JObj d1)
    by (rewrite (config_of_ext w1 w2 Hf2 Hgl2); exact Hc1).
  assert (Hlk2 : locked w2 (ECO_CONFIG_FILE (glob w2)) = false)
    by (rewrite Hgl2, Hl2; exact Hlk1).
  destruct (update_config_spec w2 d1 [("keyalias", JStr DEFAULT_KEYALIAS)]
              Hc2 Hlk2) as (w3 & Hu & Hc3 & _).
  exists w3. split; [exact Hu|].
  rewrite (get_config_value_spec w3 _ "keyalias" Hc3). simpl.
  rewrite assoc_dict_set_same. reflexivity.
Qed.

(** C9, as the code has it.  When the config file holds a mapping whose
    ["keyAlias"] entry is missing or empty and the file can be written,
    [initialize_eco_config] returns and leaves the built-in default
    under ["keyalias"], whatever was stored there: the probe reads
    ["keyAlias"], the value lives under ["keyalias"]. *)
Theorem initialize_rewrites_keyalias :
  forall w t d,
    fs w (ECO_CONFIG_FILE (glob w)) = Some t ->
    parsed t = Some (JObj d) ->
    locked w (ECO_CONFIG_FILE (glob w)) = false ->
    py_truthy (match assoc "keyAlias" d with Some v => v | None => JStr "" end)
    = false ->
    exists w',
      initialize_eco_config w = (Done tt, w') /\
      fst (get_config_value "keyalias" w') = Done (JStr DEFAULT_KEYALIAS).
Proof.
  intros w t d Hfs Hp Hl Hk.
  assert (Hc : config_of w = JObj d)
    by (unfold config_of; rewrite Hfs, Hp; reflexivity).
  unfold initialize_eco_config. unfold bind at 1. unfold get_globals.
  destruct (DEBUG (glob w)).
  - destruct (clear_eco_config_file_spec w Hl)
      as (w1 & Hcl & Hc1 & Hg1 & Hl1 & _ & Hfs1).
    rewrite (bind_done _ Hcl). rewrite <- Hg1.
    apply initialize_existing with (d := []).
    + exact Hc1.
    + rewrite Hfs1, Hg1. unfold dump_ops. simpl. unfold upd.
      rewrite String.eqb_refl. discriminate.
    + rewrite Hg1, Hl1. exact Hl.
    + reflexivity.
  - unfold bind at 1. unfold ret at 1.
    apply initialize_existing with (d := d); try assumption.
    rewrite Hfs. discriminate.
Qed.

Lemma initialize_rewrites_keyalias_witness :
  exists w',
    initialize_eco_config
      (with_config silent (JObj [("storepass", JStr "secret");
                                 ("keyalias", JStr "mine")]))
    = (Done tt, w') /\
    fst (get_config_value "keyalias" w') = Done (JStr DEFAULT_KEYALIAS).
Proof.
  apply (initialize_rewrites_keyalias
           (with_config silent (JObj [("storepass", JStr "secret");
                                      ("keyalias", JStr "mine")]))
           (Text "{...}" (Some (JObj [("storepass", JStr "secret");
                                      ("keyalias", JStr "mine")])))
           [("storepass", JStr "secret"); ("keyalias", JStr "mine")]);
    reflexivity.
Defined.

(** C9, as the claim has it, fails: a stored document that also has a
    non-empty ["keyAlias"] entry keeps the user's ["keyalias"]. *)
Lemma keyalias_kept_when_probe_key_present :
  fst (initialize_eco_config (with_config silent custom_alias_config)) = Done tt /\
  fst (get_config_value "keyalias"
         (snd (initialize_eco_config (with_config silent custom_alias_config))))
  = Done (JStr "mine") /\
  JStr "mine" <> JStr DEFAULT_KEYALIAS.
Proof.
  split; [reflexivity|]. split; [reflexivity|]. discriminate.
Qed.

(** ** The login *)

Lemma update_config_done w w' k v r :
  update_config ((k, v) :: r) w = (Done tt, w') ->
  exists d, config_of w = JObj d.
Proof.
  unfold update_config. intros H.
  destruct (read_eco_config_spec w) as (w0 & Hr & _).
  rewrite (bind_done _ Hr) in H.
  destruct (config_of w) as [| | | | |d] eqn:E;
    try (simpl in H; discriminate H).
  exists d. reflexivity.
Qed.

Lemma must_inv {A} (o : option A) w a w' :
  must o w = (Done a, w') -> o = Some a /\ w' = w.
Proof.
  destruct o as [x|]; simpl; unfold ret, raise; intros H; inversion H; auto.
Qed.

(** C10.  After a login that succeeds, with a config file that can be
    written, ["team_id"] and ["uid"] both hold the ["userId"] of the
    handoff payload, and the stored document is the one before the login
    with exactly the session of [session_of] merged in: of the payload,
    only ["accessToken"], ["userId"] and ["nickName"] are read. *)
Theorem login_persists_user_as_team :
  forall w w1 w2 token_file log_path,
    login_wait w = (Done (token_file, log_path), w1) ->
    login_eco w = (Done tt, w2) ->
    locked w (ECO_CONFIG_FILE (glob w)) = false ->
    exists t tokens access_token user_id nick_name old,
      fs w1 token_file = Some t /\ parsed t = Some tokens /\
      py_get tokens "accessToken" (JStr "") = Some access_token /\
      py_get tokens "userId" (JStr "") = Some user_id /\
      py_get tokens "nickName" (JStr "") = Some nick_name /\
      fst (get_config_value "team_id" w2) = Done user_id /\
      fst (get_config_value "uid" w2) = Done user_id /\
      config_of (without_file w1 token_file) = JObj old /\
      fst (read_eco_config w2)
      = Done (JObj (merge (session_of access_token user_id nick_name) old)).
Proof.
  intros w w1 w2 tf lp Hwait Hlogin Hl.
  destruct (only_login_wait w) as (_ & Hlk & Hgl & _).
  rewrite Hwait in Hlk, Hgl. simpl in Hlk, Hgl.
  unfold login_eco in Hlogin. rewrite (bind_done _ Hwait) in Hlogin.
  unfold login_collect in Hlogin.
  unfold bind at 1 in Hlogin. unfold read_file at 1 in Hlogin.
  destruct (fs w1 tf) as [t|] eqn:Et; [|discriminate Hlogin].
  destruct (parsed t) as [tokens|] eqn:Ep; [|discriminate Hlogin].
  unfold bind at 1 in Hlogin. unfold do_ops at 1, set_fs at 1 in Hlogin.
  fold (without_file w1 tf) in Hlogin.
  apply bind_inv in Hlogin. destruct Hlogin as (tok & wa & Ha & Hlogin).
  apply must_inv in Ha. destruct Ha as [Ha ->].
  apply bind_inv in Hlogin. destruct Hlogin as (uid & wb & Hb & Hlogin).
  apply must_inv in Hb. destruct Hb as [Hb ->].
  apply bind_inv in Hlogin. destruct Hlogin as (nick & wc & Hc & Hlogin).
  apply must_inv in Hc. destruct Hc as [Hc ->].
  destruct (negb (py_truthy tok) || negb (py_truthy uid)); [discriminate Hlogin|].
  destruct (update_config_done _ _ _ _ _ Hlogin) as (old & Hold).
  destruct (update_config_spec (without_file w1 tf) old (session_of tok uid nick) Hold)
    as (w2' & Hu & Hc2 & _).
  { simpl. rewrite Hgl, Hlk. exact Hl. }
  unfold session_of in Hu. rewrite Hlogin in Hu. inversion Hu; subst w2'.
  exists t, tokens, tok, uid, nick, old.
  repeat split; try assumption.
  - rewrite (get_config_value_spec w2 _ "team_id" Hc2). simpl.
    rewrite assoc_dict_set_other by discriminate.
    rewrite assoc_dict_set_other by discriminate.
    rewrite assoc_dict_set_same. reflexivity.
  - rewrite (get_config_value_spec w2 _ "uid" Hc2). simpl.
    rewrite assoc_dict_set_other by discriminate.
    rewrite assoc_dict_set_same. reflexivity.
  - destruct (read_eco_config_spec w2) as (w3 & Hr & _). rewrite Hr.
    cbn [fst]. rewrite Hc2. reflexivity.
Qed.

Lemma login_persists_user_as_team_witness :
  fst (get_config_value "team_id"
         (snd (login_eco (with_config (login_oracle [good_callback]) (JObj [])))))
  = Done (JStr "u1") /\
  fst (get_config_value "uid"
         (snd (login_eco (with_config (login_oracle [good_callback]) (JObj [])))))
  = Done (JStr "u1").
Proof.
  destruct (login_persists_user_as_team
              (with_config (login_oracle [good_callback]) (JObj []))
              (snd (login_wait (with_config (login_oracle [good_callback]) (JObj []))))
              (snd (login_eco (with_config (login_oracle [good_callback]) (JObj []))))
              "/tmp/eco_token_" "/tmp/login_callback_handler_log_")
    as (t & tokens & tok & uid & nick & old & Ht & Hp & _ & Hu & _ & Hteam & Huid & _).
  - vm_compute. reflexivity.
  - vm_compute. reflexivity.
  - reflexivity.
  - vm_compute in Ht. inversion Ht; subst t. vm_compute in Hp.
    inversion Hp; subst tokens. vm_compute in Hu. inversion Hu; subst uid.
    split; assumption.
Defined.

(** ** The callback server *)

(** How the steps of the handler run. *)
Lemma logger_info_run lg msg w :
  exists f,
    logger_info lg msg w = (Done tt, World f (locked w) (glob w) (env w) (trace w)) /\
    forall p, p <> lg -> f p = fs w p.
Proof.
  eexists. split; [reflexivity|]. intros p Hp. simpl. unfold upd.
  apply String.eqb_neq in Hp. rewrite Hp. reflexivity.
Qed.

Lemma logger_error_run lg msg w :
  exists f,
    logger_error lg msg w
    = (Done tt, World f (locked w) (glob w) (env w) (trace w ++ [EServerLog msg])) /\
    forall p, p <> lg -> f p = fs w p.
Proof.
  eexists. split; [reflexivity|]. intros p Hp. simpl. unfold upd.
  apply String.eqb_neq in Hp. rewrite Hp. reflexivity.
Qed.

Lemma emit_run e w :
  emit e w = (Done tt, World (fs w) (locked w) (glob w) (env w) (trace w ++ [e])).
Proof. reflexivity. Qed.

Lemma ask_run {A} e (o : oracle -> list event -> A) w :
  ask e o w
  = (Done (o (env w) (trace w ++ [e])),
     World (fs w) (locked w) (glob w) (env w) (trace w ++ [e])).
Proof. reflexivity. Qed.

(** One step of a run [H : (m ;; k) w0 = r]. *)
Ltac exec H :=
  match type of H with
  | bind (logger_info ?lg ?msg) ?k ?w0 = _ =>
      let f := fresh "f" in
      let E := fresh "E" in
      let Hf := fresh "Hf" in
      destruct (logger_info_run lg msg w0) as (f & E & Hf);
      cbn [fs] in Hf; rewrite (bind_done k E) in H; clear E
  | bind (logger_error ?lg ?msg) ?k ?w0 = _ =>
      let f := fresh "f" in
      let E := fresh "E" in
      let Hf := fresh "Hf" in
      destruct (logger_error_run lg msg w0) as (f & E & Hf);
      cbn [fs] in Hf; rewrite (bind_done k E) in H; clear E
  | bind (emit ?e) ?k ?w0 = _ => rewrite (bind_done k (emit_run e w0)) in H
  | bind (ask ?e ?o) ?k ?w0 = _ => rewrite (bind_done k (ask_run e o w0)) in H
  | bind (ret ?a) ?k ?w0 = _ => unfold bind at 1, ret at 1 in H
  | bind (must (Some ?a)) ?k ?w0 = _ => cbn [must] in H; unfold bind at 1, ret at 1 in H
  | bind (is_locked ?p) ?k ?w0 = _ => unfold bind at 1, is_locked at 1 in H
  | bind (dumps ?j) ?k ?w0 = _ => unfold bind at 1, dumps at 1 in H
  | bind (do_ops ?ops) ?k ?w0 = _ => unfold bind at 1, do_ops at 1, set_fs at 1 in H
  end;
  cbv beta in H; cbn [fs locked glob env trace] in H.

(** The handler asks for a shutdown exactly on the path that answers
    200; every path that answers 404 or 400 returns without asking. *)
Lemma do_POST_shutdown_only_after_200 tf lg rq w b w' :
  do_POST tf lg rq w = (Done b, w') ->
  shutdown_requested (since w w') = b /\
  exists status,
    replies (since w w') = [status] /\
    (if b then status = 200 else status = 404 \/ status = 400).
Proof.
  unfold do_POST. intros H.
  assert (Hs : forall evs b0 f l g o,
             ret b0 (World f l g o (trace w ++ evs)) = (Done b, w') ->
             since w w' = evs /\ b0 = b).
  { intros evs b0 f l g o E. inversion E; subst. split; [|reflexivity].
    apply since_app. reflexivity. }
  assert (H4 : forall evs f l g o status,
             ret false (World f l g o (trace w ++ evs)) = (Done b, w') ->
             shutdown_requested evs = false ->
             replies evs = [status] -> status = 404 \/ status = 400 ->
             shutdown_requested (since w w') = b /\
             exists status,
               replies (since w w') = [status] /\
               (if b then status = 200 else status = 404 \/ status = 400)).
  { intros evs f l g o status E Hsd Hr Hst. apply Hs in E. destruct E as [-> <-].
    split; [exact Hsd|]. exists status. split; [exact Hr | exact Hst]. }
  destruct (negb (String.eqb (rq_path rq) "/callback")).
  { repeat exec H. rewrite <- ?app_assoc in H.
    apply (H4 _ _ _ _ _ 404) in H; auto. }
  destruct (negb (rq_readable rq)); [discriminate H|].
  exec H.
  destruct (form_get "tempToken" (rq_form rq)) as [|temp_token rest].
  { repeat exec H. rewrite <- ?app_assoc in H.
    apply (H4 _ _ _ _ _ 400) in H; auto. }
  cbv zeta in H. repeat exec H.
  match type of H with
  | context [o_exchange ?e ?h] => destruct (o_exchange e h) as [t1|]
  end.
  2: { repeat exec H. rewrite <- ?app_assoc in H.
       apply (H4 _ _ _ _ _ 400) in H; auto. }
  cbv zeta in H. repeat exec H.
  match type of H with
  | context [o_exchange ?e ?h] => destruct (o_exchange e h) as [t2|]
  end.
  2: { repeat exec H. rewrite <- ?app_assoc in H.
       apply (H4 _ _ _ _ _ 400) in H; auto. }
  destruct (parsed t2) as [resp_json|].
  2: { repeat exec H. rewrite <- ?app_assoc in H.
       apply (H4 _ _ _ _ _ 400) in H; auto. }
  destruct (py_get resp_json "userInfo" (JObj [])) as [user_info|];
    [|discriminate H].
  repeat exec H.
  destruct (negb (py_truthy user_info)).
  { repeat exec H. rewrite <- ?app_assoc in H.
    apply (H4 _ _ _ _ _ 400) in H; auto. }
  exec H.
  destruct (locked w tf); unfold bind at 1 in H.
  - match type of H with
    | context [logger_error ?l ?m ?v] =>
        destruct (logger_error_run l m v) as (fe & E & _); rewrite E in H; clear E
    end.
    repeat exec H. rewrite <- ?app_assoc in H.
    apply Hs in H. destruct H as [-> <-]. split; [reflexivity|].
    exists 200. split; reflexivity.
  - match type of H with
    | context [bind (dumps ?j) ?k ?v] =>
        change (bind (dumps j) k v) with (k (o_dumps (env v) j) v) in H
    end.
    cbv beta in H. cbn [fs locked glob env trace] in H.
    match type of H with
    | context [bind (do_ops ?ops) ?k ?v] =>
        change (bind (do_ops ops) k v)
          with (k tt (World (apply_ops ops (fs v)) (locked v) (glob v) (env v)
                        (trace v))) in H
    end.
    cbv beta in H. cbn [fs locked glob env trace] in H.
    match type of H with
    | context [logger_info ?l ?m ?v] =>
        destruct (logger_info_run l m v) as (fe & E & _); rewrite E in H; clear E
    end.
    repeat exec H. rewrite <- ?app_assoc in H.
    apply Hs in H. destruct H as [-> <-]. split; [reflexivity|].
    exists 200. split; reflexivity.
Qed.

(** C2 at its failing inputs.  A callback without [tempToken] is answered
    with 400 and no shutdown is requested: the server goes on and serves
    the next request (here a complete callback, answered with 200, after
    which it stops).  A callback whose token exchange fails is answered
    with 400 as well, no shutdown is requested, and with no further
    request the server, and the login that waits for it, never finish. *)
Lemma callback_failure_keeps_server_running :
  let w := with_config (login_oracle [empty_callback; good_callback]) (JObj []) in
  let w' := with_config (failing_exchange_oracle [good_callback]) (JObj []) in
  let lg := "/tmp/login_callback_handler_log_" in
  fst (do_POST "/tmp/eco_token_" lg empty_callback w) = Done false /\
  since w (snd (do_POST "/tmp/eco_token_" lg empty_callback w))
  = [EReply 400 "Missing tempToken"; EServerLog [L "回调中缺少 tempToken"]] /\
  replies (since w (snd (serve_forever "/tmp/eco_token_" lg
                           [empty_callback; good_callback] w)))
  = [400; 200] /\
  fst (do_POST "/tmp/eco_token_" lg good_callback w') = Done false /\
  replies (since w' (snd (do_POST "/tmp/eco_token_" lg good_callback w'))) = [400] /\
  shutdown_requested
    (since w' (snd (serve_forever "/tmp/eco_token_" lg [good_callback] w'))) = false /\
  fst (login_eco w') = Hang.
Proof. cbv zeta. repeat split; vm_compute; reflexivity. Qed.

(** ** Listing steps and the single re-login *)

Lemma bind_assoc {A B C} (m : M A) (f : A -> M B) (g : B -> M C) w :
  bind (bind m f) g w = bind m (fun a => bind (f a) g) w.
Proof. unfold bind. destruct (m w) as [[a| | |] w1]; reflexivity. Qed.

Lemma only_trace {A} p (m : M A) w o w' :
  only p m -> m w = (o, w') ->
  exists evs, trace w' = trace w ++ evs /\ forallb p evs = true.
Proof.
  intros Hm H. destruct (Hm w) as (_ & _ & _ & evs & Ht & Hp).
  rewrite H in Ht. exists evs. split; assumption.
Qed.

(** A login starts with its [ELogin] and has no other, and calls no
    remote endpoint of the resource API. *)
Lemma login_eco_trace w o w' :
  login_eco w = (o, w') ->
  exists evs,
    trace w' = trace w ++ ELogin :: evs /\
    forallb (fp [] false false) evs = true.
Proof.
  unfold login_eco, login_wait. rewrite bind_assoc.
  unfold bind at 1. unfold emit at 1.
  set (w0 := World (fs w) (locked w) (glob w) (env w) (trace w ++ [ELogin])).
  intros H.
  eapply only_trace in H.
  - destruct H as (evs & Ht & Hp). exists evs. split; [|exact Hp].
    rewrite Ht. simpl. rewrite <- app_assoc. reflexivity.
  - only_tac.
Qed.

(** [http_request] either raises before anything is sent, or returns
    after exactly one request. *)
Lemma http_request_trace m url data w o w' :
  http_request m url data w = (o, w') ->
  exists evs,
    trace w' = trace w ++ evs /\
    count is_login evs = 0%nat /\
    count (is_call_in [url]) evs
    = match o with Done _ => 1%nat | _ => 0%nat end.
Proof.
  unfold http_request. intros H.
  assert (Hq : forall {A} (k : M A) w o w',
             only (fp [] false false) k -> k w = (o, w') ->
             exists evs, trace w' = trace w ++ evs /\
                         count is_login evs = 0%nat /\
                         count (is_call_in [url]) evs = 0%nat).
  { intros A k v o0 v' Hk Hv. destruct (only_trace _ _ _ _ _ Hk Hv) as (evs & Ht & Hp).
    exists evs. split; [exact Ht|].
    split; apply (count_none (fp [] false false)); try assumption;
      intros e; destruct e; simpl; congruence. }
  unfold bind at 1 in H.
  destruct (read_eco_config w) as [o0 w0] eqn:E0.
  destruct (Hq _ _ _ _ _ only_read_eco_config E0) as (evs0 & Ht0 & Hl0 & Hc0).
  destruct o0 as [config| | |];
    try (inversion H; subst; exists evs0; repeat split; assumption).
  destruct (py_get config "oauth2_token" (JStr "")) as [tok|];
    [|inversion H; subst; exists evs0; repeat split; assumption].
  destruct (py_get config "team_id" (JStr "")) as [team|];
    [|inversion H; subst; exists evs0; repeat split; assumption].
  destruct (py_get config "uid" (JStr "")) as [uid|];
    [|inversion H; subst; exists evs0; repeat split; assumption].
  simpl must in H. unfold bind at 1 2 3 4, ret at 1 2 3, ask at 1 in H.
  set (e := EHttp m url _ _) in H.
  assert (He : count is_login [e] = 0%nat /\
               count (is_call_in [url]) [e] = 1%nat).
  { unfold count, e. simpl. unfold mem. simpl. rewrite String.eqb_refl.
    split; reflexivity. }
  destruct He as [Hel Hec].
  destruct (o_http (env w0) (trace w0 ++ [e])) as [[body code]|].
  - inversion H; subst. simpl. exists (evs0 ++ [e]).
    rewrite Ht0, <- app_assoc. split; [reflexivity|].
    rewrite !count_app, Hl0, Hc0, Hel, Hec. split; reflexivity.
  - unfold bind, error_print, emit, ret in H. inversion H; subst. simpl.
    exists (evs0 ++ [e] ++ [EError [L "请求失败: "; X]]).
    rewrite Ht0, <- !app_assoc. split; [reflexivity|].
    rewrite !count_app, Hl0, Hc0, Hel, Hec. split; reflexivity.
Qed.

Lemma login_eco_counts url w o w' :
  login_eco w = (o, w') ->
  exists evs,
    trace w' = trace w ++ evs /\
    count is_login evs = 1%nat /\
    count (is_call_in [url]) evs = 0%nat.
Proof.
  intros H. destruct (login_eco_trace _ _ _ H) as (evs & Ht & Hp).
  exists (ELogin :: evs). split; [exact Ht|].
  change (ELogin :: evs) with ([ELogin] ++ evs). rewrite !count_app.
  rewrite (count_none (fp [] false false) is_login evs),
          (count_none (fp [] false false) (is_call_in [url]) evs);
    try assumption; try (intros e; destruct e; simpl; congruence).
  split; reflexivity.
Qed.

Section ListWithRelogin.
Variable url : string.
Variable call : M (option text * Z).
Variable still_failing : list frag.
Variable failed : option text -> M (option text * Z).

Hypothesis call_trace :
  forall w o w',
    call w = (o, w') ->
    exists evs,
      trace w' = trace w ++ evs /\
      count is_login evs = 0%nat /\
      count (is_call_in [url]) evs
      = match o with Done _ => 1%nat | _ => 0%nat end.

Lemma list_with_relogin_once :
  relogin_once url call (list_with_relogin call still_failing failed).
Proof.
  intros w b w1 o w' H1 Hstep.
  unfold list_with_relogin in Hstep. rewrite (bind_done _ H1) in Hstep.
  change (401 =? 401) with true in Hstep. cbv iota in Hstep.
  destruct (call_trace _ _ _ H1) as (evs1 & Ht1 & Hl1 & Hc1).
  unfold bind at 1 in Hstep.
  destruct (login_eco w1) as [ol w2] eqn:El.
  destruct (login_eco_counts url _ _ _ El) as (evs2 & Ht2 & Hl2 & Hc2).
  destruct ol as [[]| | |].
  2-4: inversion Hstep; subst o w';
       rewrite (since_app w w2 (evs1 ++ evs2))
         by (rewrite Ht2, Ht1, app_assoc; reflexivity);
       rewrite !count_app, Hl1, Hl2, Hc1, Hc2;
       (split; [reflexivity | split; [simpl; lia | intros ? ? ? ? Hd; discriminate Hd]]).
  unfold bind at 1 in Hstep.
  destruct (call w2) as [oc w3] eqn:Ec.
  destruct (call_trace _ _ _ Ec) as (evs3 & Ht3 & Hl3 & Hc3).
  destruct oc as [[b2 c2]| | |].
  2-4: inversion Hstep; subst o w';
       rewrite (since_app w w3 (evs1 ++ evs2 ++ evs3))
         by (rewrite Ht3, Ht2, Ht1, !app_assoc; reflexivity);
       rewrite !count_app, Hl1, Hl2, Hl3, Hc1, Hc2, Hc3;
       (split; [reflexivity | split; [simpl; lia | intros ? ? ? ? Hd Hd'; inversion Hd; subst; congruence]]).
  destruct (c2 =? 200) eqn:E200; simpl in Hstep.
  - unfold ret in Hstep. inversion Hstep; subst o w'.
    rewrite (since_app w w3 (evs1 ++ evs2 ++ evs3))
      by (rewrite Ht3, Ht2, Ht1, !app_assoc; reflexivity).
    rewrite !count_app, Hl1, Hl2, Hl3, Hc1, Hc2, Hc3.
    split; [reflexivity|]. split; [simpl; lia|].
    intros w2' b2' c2' w3' Hd Hd'. inversion Hd; subst w2'.
    rewrite Ec in Hd'. inversion Hd'; subst. rewrite E200.
    split; reflexivity.
  - unfold bind, error_print, emit, sys_exit in Hstep. inversion Hstep; subst o w'.
    simpl trace.
    rewrite (since_app w _ (evs1 ++ evs2 ++ evs3 ++ [EError still_failing]))
      by (simpl; rewrite Ht3, Ht2, Ht1, !app_assoc; reflexivity).
    rewrite !count_app, Hl1, Hl2, Hl3, Hc1, Hc2, Hc3.
    split; [reflexivity|]. split; [unfold count; simpl; lia|].
    intros w2' b2' c2' w3' Hd Hd'. inversion Hd; subst w2'.
    rewrite Ec in Hd'. inversion Hd'; subst. rewrite E200.
    split; reflexivity.
Qed.
End ListWithRelogin.

Lemma cert_list_step_shape w :
  cert_list_step w
  = list_with_relogin get_cert_list [L "登录后获取证书列表失败"]
      (fun resp_body =>
         error_print [L "get_cert_list 请求失败"] ;;
         error_print [B resp_body] ;;
         sys_exit) w.
Proof. reflexivity. Qed.

Lemma team_list_step_shape w :
  team_list_step w
  = list_with_relogin (http_request GET user_team_list_url None)
      [L "登录后仍无法获取用户团队列表。"]
      (fun resp_body =>
         error_print [L "获取用户团队列表失败: "; B resp_body] ;;
         sys_exit) w.
Proof. reflexivity. Qed.

Lemma device_list_step_shape w :
  device_list_step w
  = list_with_relogin eco_device_list [L "登录后获取设备列表失败"]
      (fun resp_body =>
         error_print [L "获取设备列表失败: "; B resp_body] ;;
         sys_exit) w.
Proof.
  unfold device_list_step, list_with_relogin, bind, ret, error_print, emit,
    sys_exit.
  destruct (eco_device_list w) as [[[b c]| | |] w1]; try reflexivity.
  destruct (c =? 401) eqn:E401.
  - destruct (login_eco w1) as [[[]| | |] w2]; try reflexivity.
    destruct (eco_device_list w2) as [[[b2 c2]| | |] w3]; try reflexivity.
    destruct (c2 =? 200) eqn:E200; simpl; [rewrite E200|]; reflexivity.
  - destruct (c =? 200); reflexivity.
Qed.

(** C3.  Each of the three listing steps (certificates, devices, teams)
    handles a 401 by exactly one login followed by at most one more
    call, never more; when the login returns and the retried call is
    answered, a status other than 200 (a second 401 included) makes the
    step leave through [sys.exit], and a 200 is returned. *)
Theorem listing_steps_relogin_once :
  relogin_once cert_list_url get_cert_list cert_list_step /\
  relogin_once device_list_url eco_device_list device_list_step /\
  relogin_once user_team_list_url (http_request GET user_team_list_url None)
               team_list_step.
Proof.
  split; [|split].
  - intros w b w1 o w' H1 H. rewrite cert_list_step_shape in H.
    revert w b w1 o w' H1 H. apply list_with_relogin_once.
    intros w o w'. apply http_request_trace.
  - intros w b w1 o w' H1 H. rewrite device_list_step_shape in H.
    revert w b w1 o w' H1 H. apply list_with_relogin_once.
    intros w o w'. apply http_request_trace.
  - intros w b w1 o w' H1 H. rewrite team_list_step_shape in H.
    revert w b w1 o w' H1 H. apply list_with_relogin_once.
    intros w o w'. apply http_request_trace.
Qed.

Lemma listing_steps_relogin_once_witness :
  count is_login
    (since (with_config always_401 (JObj []))
           (snd (cert_list_step (with_config always_401 (JObj []))))) = 1%nat /\
  count (is_call_in [cert_list_url])
    (since (with_config always_401 (JObj []))
           (snd (cert_list_step (with_config always_401 (JObj []))))) = 2%nat /\
  fst (cert_list_step (with_config always_401 (JObj []))) = Exit.
Proof.
  set (w := with_config always_401 (JObj [])).
  destruct (proj1 listing_steps_relogin_once w
              (Some (plain "login required")) (snd (get_cert_list w))
              (fst (cert_list_step w)) (snd (cert_list_step w)))
    as (Hl & _ & Hr).
  - vm_compute. reflexivity.
  - apply surjective_pairing.
  - destruct (Hr (snd (login_eco (snd (get_cert_list w))))
                 (Some (plain "login required")) 401
                 (snd (get_cert_list (snd (login_eco (snd (get_cert_list w)))))))
      as (Hc & Ho).
    + vm_compute. reflexivity.
    + vm_compute. reflexivity.
    + split; [exact Hl | split; [exact Hc | exact Ho]].
Defined.

(** ** Downloads *)

Lemma fetches_sys_exit {A} : fetches (@sys_exit A).
Proof. intros w a w' H. discriminate H. Qed.

Lemma fetches_raise {A} : fetches (@raise A).
Proof. intros w a w' H. discriminate H. Qed.

Lemma fetches_bind_l {A B} (m : M A) (f : A -> M B) :
  fetches m -> (forall a, only anything (f a)) -> fetches (bind m f).
Proof.
  intros Hm Hf w b w' H. apply bind_inv in H. destruct H as (a & w1 & H1 & H2).
  destruct (Hm _ _ _ H1) as (evs1 & Ht1 & Hc1).
  destruct (only_trace _ _ _ _ _ (Hf a) H2) as (evs2 & Ht2 & _).
  exists (evs1 ++ evs2). split.
  - rewrite Ht2, Ht1, app_assoc. reflexivity.
  - rewrite count_app. lia.
Qed.

Lemma fetches_bind_r {A B} (m : M A) (f : A -> M B) :
  only anything m -> (forall a, fetches (f a)) -> fetches (bind m f).
Proof.
  intros Hm Hf w b w' H. apply bind_inv in H. destruct H as (a & w1 & H1 & H2).
  destruct (only_trace _ _ _ _ _ Hm H1) as (evs1 & Ht1 & _).
  destruct (Hf a _ _ _ H2) as (evs2 & Ht2 & Hc2).
  exists (evs1 ++ evs2). split.
  - rewrite Ht2, Ht1, app_assoc. reflexivity.
  - rewrite count_app. lia.
Qed.

Lemma fetches_download_file url name : fetches (download_file url name).
Proof.
  unfold download_file. apply fetches_bind_r; [only_tac | intros g].
  cbv zeta. intros w a w' H. unfold bind at 1, ask at 1 in H.
  set (w0 := World _ _ _ _ (trace w ++ [EFetch url])) in H.
  assert (Hrest : exists evs, trace w' = trace w0 ++ evs).
  { destruct (o_fetch (env w) (trace w ++ [EFetch url]));
      match type of H with
      | ?k w0 = _ =>
          assert (Hk : only anything k) by only_tac;
          destruct (only_trace _ _ _ _ _ Hk H) as (evs & Ht & _);
          exists evs; exact Ht
      end. }
  destruct Hrest as (evs & Ht). exists ([EFetch url] ++ evs). split.
  - rewrite Ht. unfold w0. simpl. rewrite <- app_assoc. reflexivity.
  - rewrite count_app. unfold count at 1. simpl. lia.
Qed.

Create HintDb fetches discriminated.
#[export] Hint Resolve fetches_download_file : fetches.

Ltac fetch_step :=
  match goal with
  | |- fetches sys_exit => apply fetches_sys_exit
  | |- fetches raise => apply fetches_raise
  | |- fetches (bind _ _) =>
      apply fetches_bind_l;
      [ solve [eauto with fetches] | intros; solve [only_tac] ]
  | |- fetches (bind _ _) => apply fetches_bind_r; [ solve [only_tac] | intros ]
  | |- fetches (match ?x with _ => _ end) => destruct x
  | |- fetches _ => solve [eauto with fetches]
  end.

Ltac fetch_tac := cbv zeta; repeat (fetch_step; cbv zeta).

Lemma fetches_download_cert obj name : fetches (download_cert obj name).
Proof. unfold download_cert. fetch_tac. Qed.
#[export] Hint Resolve fetches_download_cert : fetches.

Lemma fetches_after_create_cert name body code :
  fetches (after_create_cert name body code).
Proof. unfold after_create_cert. fetch_tac. Qed.
#[export] Hint Resolve fetches_after_create_cert : fetches.

Lemma fetches_create_new_debug_cert name dc :
  fetches (create_new_debug_cert name dc).
Proof. unfold create_new_debug_cert, submit_cert, create_cert. fetch_tac. Qed.
#[export] Hint Resolve fetches_create_new_debug_cert : fetches.

Lemma fetches_after_create_profile fn body code :
  fetches (after_create_profile fn body code).
Proof. unfold after_create_profile. fetch_tac. Qed.
#[export] Hint Resolve fetches_after_create_profile : fetches.

Lemma fetches_submit_profile pn pkg fn dev :
  fetches (submit_profile pn pkg fn dev).
Proof. unfold submit_profile, create_profile. fetch_tac. Qed.
#[export] Hint Resolve fetches_submit_profile : fetches.

(** ** Reuse of the cached certificate and profile *)

Lemma only_glob {A} p (m : M A) w o w' :
  only p m -> m w = (o, w') -> glob w' = glob w.
Proof.
  intros Hm H. destruct (Hm w) as (_ & _ & Hg & _). rewrite H in Hg. exact Hg.
Qed.

Lemma ret_inv {A} (a b : A) w w' : ret a w = (Done b, w') -> b = a /\ w' = w.
Proof. unfold ret. intros H. inversion H. auto. Qed.

(** The three ways [reuse_cert] returns: nothing to reuse; the cached
    file, which is there and whose identifier is the cached one; or the
    first listed certificate of that name, downloaded again. *)
Lemma reuse_cert_done name existing same w r w' :
  reuse_cert name existing same w = (Done r, w') ->
  (r = None /\ w' = w) \/
  (exists c0 rest cid,
      same = c0 :: rest /\ py_get c0 "id" JNull = Some cid /\
      r = Some (CertInfo false cid (name ++ ".cer")%string
                         (local_cert_path (glob w) name)) /\
      w' = w /\
      fs w (local_cert_path (glob w) name) <> None /\
      py_eq cid existing = true) \/
  (exists c0 rest cid info evs,
      same = c0 :: rest /\ py_get c0 "id" JNull = Some cid /\
      r = Some info /\ new_cert info = false /\ cert_id info = cid /\
      trace w' = trace w ++ evs /\ (1 <= count is_fetch evs)%nat).
Proof.
  unfold reuse_cert. intros H.
  destruct same as [|c0 rest].
  { apply ret_inv in H. left. exact H. }
  apply bind_inv in H. destruct H as (cid & wa & Ha & H).
  apply must_inv in Ha. destruct Ha as [Hcid ->].
  apply bind_inv in H. destruct H as (oid & wb & Hb & H).
  apply must_inv in Hb. destruct Hb as [Hoid ->].
  destruct (py_truthy cid && py_truthy oid).
  2: { apply ret_inv in H. left. exact H. }
  unfold bind at 1, get_globals at 1 in H. cbv zeta in H.
  unfold bind at 1, os_path_isfile at 1 in H.
  fold (local_cert_path (glob w) name) in H.
  destruct (fs w (local_cert_path (glob w) name)) as [t|] eqn:Ef.
  - destruct (py_eq cid existing) eqn:Eeq; cbn [andb] in H.
    + apply ret_inv in H. destruct H as [-> ->].
      right. left. exists c0, rest, cid. repeat split; try assumption.
      discriminate.
    + right. right.
      assert (Hf : fetches
                (cert_file_path <- download_cert oid (name ++ ".cer")%string ;;
                 update_config
                   [("debug_cert_new_cert", JStr "false");
                    ("debug_cert_id", cid);
                    ("debug_cert_name", JStr (os_path_basename cert_file_path));
                    ("debug_cert_path", JStr cert_file_path)] ;;
                 ret (Some (CertInfo false cid
                              (os_path_basename cert_file_path) cert_file_path))))
        by fetch_tac.
      destruct (Hf _ _ _ H) as (evs & Ht & Hc).
      apply bind_inv in H. destruct H as (p & w1 & _ & H).
      apply bind_inv in H. destruct H as ([] & w2 & _ & H).
      apply ret_inv in H. destruct H as [-> _].
      exists c0, rest, cid, (CertInfo false cid (os_path_basename p) p), evs.
      repeat split; assumption.
  - cbn [andb] in H. right. right.
    assert (Hf : fetches
              (cert_file_path <- download_cert oid (name ++ ".cer")%string ;;
               update_config
                 [("debug_cert_new_cert", JStr "false");
                  ("debug_cert_id", cid);
                  ("debug_cert_name", JStr (os_path_basename cert_file_path));
                  ("debug_cert_path", JStr cert_file_path)] ;;
               ret (Some (CertInfo false cid
                            (os_path_basename cert_file_path) cert_file_path))))
      by fetch_tac.
    destruct (Hf _ _ _ H) as (evs & Ht & Hc).
    apply bind_inv in H. destruct H as (p & w1 & _ & H).
    apply bind_inv in H. destruct H as ([] & w2 & _ & H).
    apply ret_inv in H. destruct H as [-> _].
    exists c0, rest, cid, (CertInfo false cid (os_path_basename p) p), evs.
    repeat split; assumption.
Qed.

Lemma loads_or_exit_done body what w j w' :
  loads_or_exit body what w = (Done j, w') ->
  exists t, body = Some t /\ parsed t = Some j /\ w' = w.
Proof.
  unfold loads_or_exit. destruct body as [t|]; [|discriminate].
  destruct (parsed t) as [j'|] eqn:E; [|discriminate].
  intros H. apply ret_inv in H. destruct H as [-> ->]. exists t. auto.
Qed.

(** How [create_and_download_debug_cert] returns: the listing step
    returned a JSON listing, and then either the first certificate of
    that name was reused ([reuse_cert]), or a new one was created. *)
Lemma create_and_download_debug_cert_done name existing w info w' :
  create_and_download_debug_cert name existing w = (Done info, w') ->
  exists t code w1 resp_json dc same,
    cert_list_step w = (Done (Some t, code), w1) /\
    parsed t = Some resp_json /\
    debug_certs_of resp_json = Some dc /\
    same_name_certs_of name dc = Some same /\
    ((reuse_cert name existing same w1 = (Done (Some info), w')) \/
     (exists w2, reuse_cert name existing same w1 = (Done None, w2) /\
                 create_new_debug_cert name dc w2 = (Done info, w'))).
Proof.
  unfold create_and_download_debug_cert. intros H.
  apply bind_inv in H. destruct H as ([rb code] & w1 & H1 & H).
  apply bind_inv in H. destruct H as (resp_json & w2 & H2 & H).
  apply loads_or_exit_done in H2. destruct H2 as (t & -> & Hp & ->).
  apply bind_inv in H. destruct H as (dc & wa & Ha & H).
  apply must_inv in Ha. destruct Ha as [Hdc ->].
  apply bind_inv in H. destruct H as (same & wb & Hb & H).
  apply must_inv in Hb. destruct Hb as [Hsame ->].
  apply bind_inv in H. destruct H as (reused & w3 & Hr & H).
  exists t, code, w1, resp_json, dc, same. repeat split; try assumption.
  destruct reused as [i|].
  - apply ret_inv in H. destruct H as [-> ->]. left. exact Hr.
  - right. exists w3. split; assumption.
Qed.

Lemma fp_excludes urls urls' f l e :
  forallb (fun u => negb (mem u urls')) urls = true ->
  fp urls f l e = true -> is_call_in urls' e = false.
Proof.
  intros Hd. destruct e; simpl; try reflexivity.
  intros Hu. unfold mem in Hu. apply existsb_exists in Hu.
  destruct Hu as (x & Hx & Hux). apply String.eqb_eq in Hux. subst x.
  rewrite forallb_forall in Hd. specialize (Hd _ Hx).
  apply negb_true_iff in Hd. exact Hd.
Qed.

Lemma fp_no_fetch urls l e : fp urls false l e = true -> is_fetch e = false.
Proof. destruct e; simpl; congruence. Qed.

Lemma fp_no_http l f e : fp [] f l e = true -> is_http e = false.
Proof. destruct e; simpl; congruence. Qed.

Lemma reuse_cert_cached name existing c0 rest cid oid w :
  py_get c0 "id" JNull = Some cid ->
  py_get c0 "certObjectId" JNull = Some oid ->
  py_truthy cid = true ->
  py_truthy oid = true ->
  fs w (local_cert_path (glob w) name) <> None ->
  py_eq cid existing = true ->
  reuse_cert name existing (c0 :: rest) w
  = (Done (Some (CertInfo false cid (name ++ ".cer")%string
                          (local_cert_path (glob w) name))), w).
Proof.
  intros Hcid Hoid Htc Hto Hfile Heq.
  unfold reuse_cert. rewrite Hcid, Hoid. cbn [must].
  unfold bind at 1, ret at 1. unfold bind at 1, ret at 1.
  rewrite Htc, Hto. cbn [andb].
  unfold bind at 1, get_globals at 1. cbv zeta.
  unfold bind at 1, os_path_isfile at 1.
  fold (local_cert_path (glob w) name).
  destruct (fs w (local_cert_path (glob w) name)); [|congruence].
  rewrite Heq. reflexivity.
Qed.

(** C1, as the code has it.  A run on an intact cache creates nothing.
    Certificate: when the listing step returns a listing whose first
    debug certificate of that name has an identifier and an object
    identifier, the local [.cer] file exists and the listed identifier
    equals the cached one, the function returns the cached record in the
    world the listing step left, having made no creation call and no
    download.  Profile: when the local [.p7b] file exists (and the
    stored config is a mapping), the function returns the cached record
    without any remote call. *)
Theorem second_run_creates_nothing :
  (forall w name existing t code w1 resp_json dc c0 rest cid oid,
      cert_list_step w = (Done (Some t, code), w1) ->
      parsed t = Some resp_json ->
      debug_certs_of resp_json = Some dc ->
      same_name_certs_of name dc = Some (c0 :: rest) ->
      py_get c0 "id" JNull = Some cid ->
      py_get c0 "certObjectId" JNull = Some oid ->
      py_truthy cid = true ->
      py_truthy oid = true ->
      fs w1 (local_cert_path (glob w1) name) <> None ->
      py_eq cid existing = true ->
      create_and_download_debug_cert name existing w
      = (Done (CertInfo false cid (name ++ ".cer")%string
                        (local_cert_path (glob w1) name)), w1) /\
      count is_creation_call (since w w1) = 0%nat /\
      count is_fetch (since w w1) = 0%nat) /\
  (forall w profile_name package_name d,
      fs w (local_profile_path (glob w) profile_name package_name) <> None ->
      fst (read_eco_config w) = Done (JObj d) ->
      exists w',
        create_and_download_debug_profile profile_name package_name w
        = (Done (ProfileInfo
                   (profile_file_name profile_name package_name)
                   (local_profile_path (glob w) profile_name package_name)), w') /\
        count is_creation_call (since w w') = 0%nat /\
        count is_http (since w w') = 0%nat).
Proof.
  split.
  - intros w name existing t code w1 resp_json dc c0 rest cid oid
           Hstep Hp Hdc Hsame Hcid Hoid Htc Hto Hfile Heq.
    split.
    + unfold create_and_download_debug_cert.
      rewrite (bind_done _ Hstep). unfold loads_or_exit. rewrite Hp.
      unfold bind at 1, ret at 1. rewrite Hdc. unfold bind at 1, must at 1, ret at 1.
      rewrite Hsame. unfold bind at 1, must at 1, ret at 1.
      rewrite (bind_done _ (reuse_cert_cached name existing c0 rest cid oid w1
                              Hcid Hoid Htc Hto Hfile Heq)).
      reflexivity.
    + destruct (only_trace _ _ _ _ _ only_cert_list_step Hstep) as (evs & Ht & Hev).
      rewrite (since_app _ _ _ Ht). split.
      * apply (count_none (fp [cert_list_url] false true)); [|exact Hev].
        intros e. apply fp_excludes. reflexivity.
      * apply (count_none (fp [cert_list_url] false true)); [|exact Hev].
        intros e. apply fp_no_fetch.
  - intros w pn pkg d Hfile Hcfg.
    assert (Hc : config_of w = JObj d).
    { destruct (read_eco_config_spec w) as (w0 & Hr & _).
      rewrite Hr in Hcfg. simpl in Hcfg. congruence. }
    unfold create_and_download_debug_profile.
    unfold bind at 1, get_globals at 1. cbv zeta.
    unfold bind at 1, os_path_isfile at 1.
    fold (local_profile_path (glob w) pn pkg).
    destruct (fs w (local_profile_path (glob w) pn pkg)); [|congruence].
    set (kw := [("debug_profile_name", JStr (profile_file_name pn pkg));
                ("debug_profile_path", JStr (local_profile_path (glob w) pn pkg))]).
    destruct (update_config kw w) as [o w'] eqn:Eu.
    assert (Ho : o = Done tt).
    { unfold update_config in Eu.
      destruct (read_eco_config_spec w) as (w0 & Hr & _).
      rewrite (bind_done _ Hr), Hc, set_items_obj in Eu.
      unfold bind at 1, must at 1, ret at 1 in Eu.
      unfold write_eco_config, bind, get_globals, is_locked in Eu.
      destruct (locked w0 (ECO_CONFIG_FILE (glob w0)));
        simpl in Eu; inversion Eu; reflexivity. }
    subst o. exists w'. split.
    + unfold bind. rewrite Eu. reflexivity.
    + destruct (only_trace _ _ _ _ _ (only_update_config kw) Eu) as (evs & Ht & Hev).
      rewrite (since_app _ _ _ Ht). split.
      * apply (count_none (fp [] false false)); [|exact Hev].
        intros e. apply fp_excludes. reflexivity.
      * apply (count_none (fp [] false false)); [|exact Hev].
        intros e. apply fp_no_http.
Qed.

Lemma second_run_creates_nothing_witness :
  create_and_download_debug_cert CERT_NAME (JStr "A") cached_world
  = (Done (CertInfo false (JStr "A") "xiaobai-debug.cer" dev_cert_file),
     snd (cert_list_step cached_world)) /\
  count is_creation_call
    (since cached_world (snd (cert_list_step cached_world))) = 0%nat /\
  count is_fetch
    (since cached_world (snd (cert_list_step cached_world))) = 0%nat.
Proof.
  apply (proj1 second_run_creates_nothing
           cached_world CERT_NAME (JStr "A")
           (json_text (listing [listed_cert "A" "O" CERT_NAME])) 200
           (snd (cert_list_step cached_world))
           (listing [listed_cert "A" "O" CERT_NAME])
           [listed_cert "A" "O" CERT_NAME]
           (listed_cert "A" "O" CERT_NAME) [] (JStr "A") (JStr "O"));
    try reflexivity.
  vm_compute. discriminate.
Defined.

(** C1, as the claim has it, fails: the local [.cer] file exists and the
    listed identifier equals the cached [debug_cert_id], but the listing
    entry has no [certObjectId]; the guard on it sends the run into the
    creation, which deletes the listed certificate and submits a new
    request. *)
Lemma cached_cert_without_object_id_is_recreated :
  let w := incomplete_entry_world in
  let w' := snd (process_debug_cert w) in
  fs w dev_cert_file <> None /\
  fst (get_config_value "debug_cert_id" w) = Done (JStr "A") /\
  fst (process_debug_cert w) = Done tt /\
  fs w' dev_cert_file <> None /\
  count is_creation_call (since w w') = 1%nat /\
  map (fun e => match e with EHttp _ u _ _ => u | _ => "" end)
      (filter is_http (since w w'))
  = [cert_list_url; cert_delete_url; cert_add_url; reapply_url].
Proof.
  cbv zeta. repeat split; try reflexivity; vm_compute; discriminate.
Qed.

(** ** Duplicate names *)

Lemma bind_split {A B} p (m : M A) (f : A -> M B) w o w' :
  only p m ->
  bind m f w = (o, w') ->
  (exists evs, trace w' = trace w ++ evs /\ forallb p evs = true) \/
  (exists a w1 evs,
      m w = (Done a, w1) /\ trace w1 = trace w ++ evs /\
      forallb p evs = true /\ f a w1 = (o, w')).
Proof.
  intros Hm H. unfold bind in H. destruct (m w) as [om w1] eqn:Em.
  destruct (only_trace _ _ _ _ _ Hm Em) as (evs & Ht & Hp).
  destruct om as [a| | |].
  - right. exists a, w1, evs. repeat split; assumption.
  - inversion H; subst. left. exists evs. split; assumption.
  - inversion H; subst. left. exists evs. split; assumption.
  - inversion H; subst. left. exists evs. split; assumption.
Qed.

Lemma app_eq_prefix (p : event -> bool) l1 r pre x post :
  l1 ++ r = pre ++ x :: post ->
  forallb p l1 = true -> p x = false ->
  exists m, pre = l1 ++ m /\ r = m ++ x :: post.
Proof.
  revert pre. induction l1 as [|a l1 IH]; intros pre Heq Hp Hx.
  - exists pre. split; [reflexivity | exact Heq].
  - simpl in Hp. apply andb_true_iff in Hp. destruct Hp as [Ha Hl].
    destruct pre as [|b pre]; simpl in Heq; inversion Heq; subst.
    + congruence.
    + destruct (IH pre H1 Hl Hx) as (m & -> & ->).
      exists m. split; reflexivity.
Qed.

Lemma forallb_at (p : event -> bool) l pre x post :
  l = pre ++ x :: post -> forallb p l = true -> p x = true.
Proof.
  intros -> H. rewrite forallb_app in H. apply andb_true_iff in H.
  destruct H as [_ H]. simpl in H. apply andb_true_iff in H. tauto.
Qed.

Lemma http_request_done m url data w r w' :
  http_request m url data w = (Done r, w') ->
  exists pre headers post,
    trace w' = trace w ++ pre ++
               EHttp m url headers (match m with GET => None | POST => data end)
               :: post.
Proof.
  unfold http_request. intros H.
  apply bind_inv in H. destruct H as (config & w0 & H0 & H).
  destruct (only_trace _ _ _ _ _ only_read_eco_config H0) as (evs0 & Ht0 & _).
  apply bind_inv in H. destruct H as (tok & wa & Ha & H).
  apply must_inv in Ha. destruct Ha as [_ ->].
  apply bind_inv in H. destruct H as (team & wb & Hb & H).
  apply must_inv in Hb. destruct Hb as [_ ->].
  apply bind_inv in H. destruct H as (uid & wc & Hc & H).
  apply must_inv in Hc. destruct Hc as [_ ->].
  cbv zeta in H. unfold bind at 1, ask at 1 in H.
  match type of H with
  | context [trace w0 ++ [?e]] => set (ev := e) in H
  end.
  match type of H with
  | ?k ?w1 = _ =>
      assert (Hk : only anything k) by only_tac;
      destruct (only_trace _ _ _ _ _ Hk H) as (post & Ht & _)
  end.
  exists evs0. eexists. exists post.
  rewrite Ht. simpl. rewrite Ht0, <- !app_assoc. reflexivity.
Qed.

Lemma delete_same_named_done name dc w w1 evs :
  delete_same_named name dc w = (Done tt, w1) ->
  trace w1 = trace w ++ evs ->
  exists ids,
    same_ids name dc = Some ids /\
    (ids <> [] -> exists e, In e evs /\ deletes ids e).
Proof.
  unfold delete_same_named. intros H Ht.
  apply bind_inv in H. destruct H as (ids & wa & Ha & H).
  apply must_inv in Ha. destruct Ha as [Hids ->].
  exists ids. split; [exact Hids|]. intros Hne.
  destruct ids as [|i ids']; [congruence|].
  apply bind_inv in H. destruct H as (r & wb & Hd & H).
  apply ret_inv in H. destruct H as [_ ->].
  unfold delete_certs in Hd. apply http_request_done in Hd.
  destruct Hd as (pre & headers & post & Hd).
  rewrite Hd in Ht. apply app_inv_head in Ht. subst evs.
  eexists. split.
  - apply in_or_app. right. left. reflexivity.
  - exists headers. reflexivity.
Qed.

Lemma in_same_ids name dc ids c n i :
  same_ids name dc = Some ids ->
  In c dc ->
  py_get c "certName" JNull = Some n ->
  py_eq n (JStr name) = true ->
  py_get c "id" JNull = Some i ->
  py_truthy i = true ->
  In i ids.
Proof.
  revert ids. induction dc as [|c' dc IH]; intros ids Hs Hin Hn Heq Hi Ht.
  - destruct Hin.
  - simpl in Hs.
    destruct (py_get c' "certName" JNull) as [n'|] eqn:En; [|discriminate].
    destruct (py_get c' "id" JNull) as [i'|] eqn:Ei; [|discriminate].
    destruct (same_ids name dc) as [r'|] eqn:Er; [|discriminate].
    inversion Hs; subst ids. destruct Hin as [-> | Hin].
    + rewrite Hn in En. inversion En; subst n'.
      rewrite Hi in Ei. inversion Ei; subst i'.
      rewrite Heq, Ht. left. reflexivity.
    + specialize (IH r' eq_refl Hin Hn Heq Hi Ht).
      destruct (py_eq n' (JStr name) && py_truthy i'); [right|]; exact IH.
Qed.

(** A creation request of [create_new_debug_cert] comes after the
    deletion of every listed identifier of that name. *)
Lemma create_new_debug_cert_order name dc w o w' pre headers data post :
  create_new_debug_cert name dc w = (o, w') ->
  since w w' = pre ++ EHttp POST cert_add_url headers data :: post ->
  exists ids,
    same_ids name dc = Some ids /\
    (ids <> [] -> exists e, In e pre /\ deletes ids e).
Proof.
  unfold create_new_debug_cert. intros H Hs.
  apply (bind_split (fp [cert_delete_url] false false)) in H;
    [|apply only_delete_same_named].
  destruct H as [(evs & Ht & Hp) | ([] & w1 & evs & Hd & Ht & Hp & H)].
  - rewrite (since_app _ _ _ Ht) in Hs.
    apply (forallb_at _ _ _ _ _ Hs) in Hp. discriminate Hp.
  - match type of H with
    | ?k w1 = _ =>
        assert (Hk : only anything k)
          by (unfold submit_cert, create_cert; only_tac);
        destruct (only_trace _ _ _ _ _ Hk H) as (evs2 & Ht2 & _)
    end.
    rewrite (since_app w w' (evs ++ evs2)) in Hs
      by (rewrite Ht2, Ht, app_assoc; reflexivity).
    destruct (app_eq_prefix _ _ _ _ _ _ Hs Hp eq_refl) as (m & -> & _).
    destruct (delete_same_named_done _ _ _ _ _ Hd Ht) as (ids & Hids & Hdel).
    exists ids. split; [exact Hids|]. intros Hne.
    destruct (Hdel Hne) as (e & He & Hde).
    exists e. split; [apply in_or_app; left; exact He | exact Hde].
Qed.

(** Either [create_and_download_debug_cert] ends without having reached
    the creation, or it reaches [create_new_debug_cert] with the debug
    certificates of the listing. *)
Lemma cert_flow_reaches_creation name existing w o w' :
  create_and_download_debug_cert name existing w = (o, w') ->
  (exists evs, trace w' = trace w ++ evs /\ forallb before_creation evs = true) \/
  (exists t code w1 resp_json dc w2 evs,
      cert_list_step w = (Done (Some t, code), w1) /\
      parsed t = Some resp_json /\
      debug_certs_of resp_json = Some dc /\
      trace w2 = trace w ++ evs /\ forallb before_creation evs = true /\
      create_new_debug_cert name dc w2 = (o, w')).
Proof.
  unfold create_and_download_debug_cert, before_creation. intros H.
  apply (bind_split (fp [cert_list_url; reapply_url] true true)) in H;
    [|only_tac].
  destruct H as [H | ([rb code] & w1 & evs1 & H1 & Ht1 & Hp1 & H)];
    [left; exact H|].
  apply (bind_split (fp [cert_list_url; reapply_url] true true)) in H;
    [|only_tac].
  destruct H as [(evs & Ht & Hp) | (resp_json & w2 & evs2 & H2 & Ht2 & Hp2 & H)].
  { left. exists (evs1 ++ evs). split.
    - rewrite Ht, Ht1, app_assoc. reflexivity.
    - rewrite forallb_app, Hp1, Hp. reflexivity. }
  apply loads_or_exit_done in H2. destruct H2 as (t & -> & Hparsed & ->).
  assert (Hstop : forall oo : outcome cert_info,
             (oo, w1) = (o, w') ->
             exists evs, trace w' = trace w ++ evs /\
                         forallb (fp [cert_list_url; reapply_url] true true) evs = true).
  { intros oo E. inversion E; subst. exists evs1. split; assumption. }
  destruct (debug_certs_of resp_json) as [dc|] eqn:Edc;
    [|left; exact (Hstop _ H)].
  unfold bind at 1, must at 1, ret at 1 in H.
  destruct (same_name_certs_of name dc) as [same|] eqn:Esame;
    [|left; exact (Hstop _ H)].
  unfold bind at 1, must at 1, ret at 1 in H.
  apply (bind_split (fp [cert_list_url; reapply_url] true true)) in H;
    [|only_tac].
  destruct H as [(evs & Ht & Hp) | (reused & w3 & evs3 & H3 & Ht3 & Hp3 & H)].
  { left. exists (evs1 ++ evs). split.
    - rewrite Ht, Ht1, app_assoc. reflexivity.
    - rewrite forallb_app, Hp1, Hp. reflexivity. }
  destruct reused as [i|].
  - unfold ret in H. inversion H; subst. left. exists (evs1 ++ evs3). split.
    + rewrite Ht3, Ht1, app_assoc. reflexivity.
    + rewrite forallb_app, Hp1, Hp3. reflexivity.
  - right. exists t, code, w1, resp_json, dc, w3, (evs1 ++ evs3).
    repeat split; try assumption.
    + rewrite Ht3, Ht1, app_assoc. reflexivity.
    + rewrite forallb_app, Hp1, Hp3. reflexivity.
Qed.

Lemma returns_bind {A B} (Q : B -> Prop) (m : M A) (f : A -> M B) :
  (forall a, returns Q (f a)) -> returns Q (bind m f).
Proof.
  intros Hf w b w' H. apply bind_inv in H. destruct H as (a & w1 & _ & H).
  exact (Hf a _ _ _ H).
Qed.

Lemma returns_never {A} (Q : A -> Prop) (o : outcome A) :
  (forall a, o <> Done a) -> returns Q (fun w => (o, w)).
Proof. intros Ho w a w' H. inversion H. congruence. Qed.

Lemma create_new_debug_cert_is_new name dc :
  returns (fun info => new_cert info = true) (create_new_debug_cert name dc).
Proof.
  unfold create_new_debug_cert, submit_cert, after_create_cert.
  repeat first
    [ apply returns_bind; intros
    | match goal with
      | |- returns _ (match ?x with _ => _ end) => destruct x
      | |- returns _ sys_exit => apply returns_never; discriminate
      | |- returns _ (ret _) => intros ? ? ? H; apply ret_inv in H;
                                destruct H as [-> _]; reflexivity
      end ].
Qed.

(** ** Rejections under status 200 *)

Lemma rejected_exits (msg : list frag) {A} w :
  (error_print msg ;; @sys_exit A) w
  = (Exit, World (fs w) (locked w) (glob w) (env w) (trace w ++ [EError msg])).
Proof. reflexivity. Qed.

(** C5, as the code has it.  A certificate creation and a profile
    creation that come back with status 200 and a [ret.code] other than 0
    end the run through [sys.exit] right after the call, the last thing
    done being the error message that carries [ret.msg]: nothing is
    retried.  The answer to a certificate deletion and the answer to a
    device registration are not looked at: whatever they are, the run
    goes on (after a registration, with a fresh device listing). *)
Theorem creation_rejections_are_fatal :
  (forall name csr w t w1 resp_json r code msg,
      create_cert name 1 csr w = (Done (Some t, 200), w1) ->
      parsed t = Some resp_json ->
      py_get resp_json "ret" (JObj []) = Some r ->
      py_get r "code" (JNum 0) = Some code ->
      py_get r "msg" (JStr "") = Some msg ->
      py_eq code (JNum 0) = false ->
      exists w',
        submit_cert name csr w = (Exit, w') /\
        trace w' = trace w1 ++ [EError [L "请求证书失败: "; V msg]]) /\
  (forall profile_name package_name profile_filename dev_id
          w cert_id w0 t w1 resp_json r code msg,
      get_config_value "debug_cert_id" w = (Done cert_id, w0) ->
      py_truthy cert_id = true ->
      create_profile profile_name cert_id package_name [dev_id] w0
      = (Done (Some t, 200), w1) ->
      parsed t = Some resp_json ->
      py_get resp_json "ret" (JObj []) = Some r ->
      py_get r "code" (JNum 0) = Some code ->
      py_get r "msg" (JStr "") = Some msg ->
      py_eq code (JNum 0) = false ->
      exists w',
        submit_profile profile_name package_name profile_filename dev_id w
        = (Exit, w') /\
        trace w' = trace w1 ++ [EError [L "创建 profile 失败: "; V msg]]) /\
  (forall name dc ids w answer w1,
      same_ids name dc = Some ids -> ids <> [] ->
      delete_certs ids w = (Done answer, w1) ->
      delete_same_named name dc w = (Done tt, w1)) /\
  (forall udid found w answer w1,
      create_device ("xiaobai-device-" ++ take 10 udid)%string udid w
      = (Done answer, w1) ->
      register_device udid found w = relist_device udid found w1).
Proof.
  split; [|split; [|split]].
  - intros name csr w t w1 resp_json r code msg Hc Hp Hr Hcode Hmsg Hne.
    eexists. split.
    + unfold submit_cert. rewrite (bind_done _ Hc).
      unfold after_create_cert. change (negb (200 =? 200)) with false. cbv iota.
      unfold loads_or_exit. rewrite Hp.
      unfold bind at 1, ret at 1. rewrite Hr.
      unfold bind at 1, must at 1, ret at 1. rewrite Hcode.
      unfold bind at 1, must at 1, ret at 1. rewrite Hmsg.
      unfold bind at 1, must at 1, ret at 1. rewrite Hne. cbn [negb].
      apply rejected_exits.
    + reflexivity.
  - intros pn pkg fn dev w cert w0 t w1 resp_json r code msg
           Hg Ht Hc Hp Hr Hcode Hmsg Hne.
    eexists. split.
    + unfold submit_profile. rewrite (bind_done _ Hg). rewrite Ht. cbn [negb].
      rewrite (bind_done _ Hc).
      unfold after_create_profile. change (negb (200 =? 200)) with false. cbv iota.
      unfold loads_or_exit. rewrite Hp.
      unfold bind at 1, ret at 1. rewrite Hr.
      unfold bind at 1, must at 1, ret at 1. rewrite Hcode.
      unfold bind at 1, must at 1, ret at 1. rewrite Hmsg.
      unfold bind at 1, must at 1, ret at 1. rewrite Hne. cbn [negb].
      apply rejected_exits.
    + reflexivity.
  - intros name dc ids w answer w1 Hids Hne Hd.
    unfold delete_same_named. rewrite Hids.
    unfold bind at 1, must at 1, ret at 1.
    destruct ids as [|i ids]; [congruence|].
    rewrite (bind_done _ Hd). reflexivity.
  - intros udid found w answer w1 Hc.
    unfold register_device. rewrite (bind_done _ Hc). reflexivity.
Qed.

Lemma creation_rejections_are_fatal_witness :
  exists w',
    submit_cert CERT_NAME "csr" rejecting_world = (Exit, w') /\
    trace w'
    = trace (snd (create_cert CERT_NAME 1 "csr" rejecting_world))
      ++ [EError [L "请求证书失败: "; V (JStr "denied")]].
Proof.
  apply (proj1 creation_rejections_are_fatal
           CERT_NAME "csr" rejecting_world (json_text rejection)
           (snd (create_cert CERT_NAME 1 "csr" rejecting_world))
           rejection
           (JObj [("code", JNum 1); ("msg", JStr "denied")])
           (JNum 1) (JStr "denied"));
    reflexivity.
Defined.

(** C5, as the claim has it, fails for the deletion: the deletion request
    for the two duplicates is answered with status 200 and [ret.code] 1;
    the run is not ended, no message is written, the creation is
    submitted next and the function returns the new certificate. *)
Lemma rejected_deletion_is_not_fatal :
  let w := duplicates_world in
  let w' := snd (create_and_download_debug_cert CERT_NAME (JStr "") w) in
  fst (delete_certs [JStr "A"; JStr "B"] (snd (cert_list_step w)))
  = Done (Some (json_text rejection), 200) /\
  py_get rejection "ret" (JObj [])
  = Some (JObj [("code", JNum 1); ("msg", JStr "denied")]) /\
  py_eq (JNum 1) (JNum 0) = false /\
  fst (create_and_download_debug_cert CERT_NAME (JStr "") w)
  = Done (CertInfo true (JStr "C1") "xiaobai-debug.cer" dev_cert_file) /\
  count is_error (since w w') = 0%nat /\
  map (fun e => match e with EHttp _ u _ _ => u | _ => "" end)
      (filter is_http (since w w'))
  = [cert_list_url; cert_delete_url; cert_add_url; reapply_url].
Proof. cbv zeta. repeat split; reflexivity. Qed.

(** * Further properties of the code *)

(** ** The config store: edge behaviour *)

Lemma merge_app kw1 kw2 d : merge (kw1 ++ kw2) d = merge kw2 (merge kw1 d).
Proof.
  revert d. induction kw1 as [|[k v] r IH]; intros d; simpl; [reflexivity|].
  apply IH.
Qed.

Lemma keys_dict_set k v d :
  map fst (dict_set k v d)
  = if existsb (String.eqb k) (map fst d) then map fst d else map fst d ++ [k].
Proof.
  induction d as [|[k' v'] r IH]; simpl; [reflexivity|].
  destruct (String.eqb k k') eqn:E; simpl.
  - apply String.eqb_eq in E. subst k'. reflexivity.
  - rewrite IH. destruct (existsb (String.eqb k) (map fst r)); reflexivity.
Qed.

Lemma existsb_eqb_in k l : existsb (String.eqb k) l = true <-> In k l.
Proof.
  rewrite existsb_exists. split.
  - intros (x & Hx & E). apply String.eqb_eq in E. subst x. exact Hx.
  - intros H. exists k. split; [exact H | apply String.eqb_refl].
Qed.

Lemma nodup_dict_set k v d :
  NoDup (map fst d) -> NoDup (map fst (dict_set k v d)).
Proof.
  intros Hd. rewrite keys_dict_set.
  destruct (existsb (String.eqb k) (map fst d)) eqn:E; [exact Hd|].
  assert (Hn : ~ In k (map fst d)).
  { intros Hin. apply existsb_eqb_in in Hin. congruence. }
  clear E. induction (map fst d) as [|a l IH]; simpl.
  - constructor; [intros [] | constructor].
  - inversion Hd as [|? ? Ha Hl]; subst. constructor.
    + rewrite in_app_iff. simpl. intros [H | [H | []]]; [tauto|].
      subst a. apply Hn. left. reflexivity.
    + apply IH; [exact Hl|]. intros H. apply Hn. right. exact H.
Qed.

Lemma keys_merge kwargs d :
  exists extra, map fst (merge kwargs d) = map fst d ++ extra.
Proof.
  revert d. induction kwargs as [|[k v] r IH]; intros d; simpl.
  - exists []. rewrite app_nil_r. reflexivity.
  - destruct (IH (dict_set k v d)) as (extra & He). rewrite He, keys_dict_set.
    destruct (existsb (String.eqb k) (map fst d)).
    + exists extra. reflexivity.
    + exists (k :: extra). rewrite <- app_assoc. reflexivity.
Qed.

Lemma nodup_merge kwargs d :
  NoDup (map fst d) -> NoDup (map fst (merge kwargs d)).
Proof.
  revert d. induction kwargs as [|[k v] r IH]; intros d Hd; simpl; [exact Hd|].
  apply IH, nodup_dict_set, Hd.
Qed.

(** X1.  A config file that is missing or does not parse is read as the
    empty mapping, so the next [update_config] replaces it: afterwards
    the stored document holds the keys of the update and nothing else,
    and every other key reads as the empty string. *)
Theorem update_config_replaces_unreadable :
  forall w kwargs,
    (fs w (ECO_CONFIG_FILE (glob w)) = None \/
     exists t, fs w (ECO_CONFIG_FILE (glob w)) = Some t /\ parsed t = None) ->
    locked w (ECO_CONFIG_FILE (glob w)) = false ->
    exists w',
      update_config kwargs w = (Done tt, w') /\
      fst (read_eco_config w') = Done (JObj (merge kwargs [])) /\
      (forall k, ~ In k (map fst kwargs) ->
                 fst (get_config_value k w') = Done (JStr "")).
Proof.
  intros w kwargs Hbad Hl.
  assert (Hc : config_of w = JObj []).
  { unfold config_of. destruct Hbad as [-> | (t & -> & ->)]; reflexivity. }
  destruct (update_config_spec w [] kwargs Hc Hl) as (w' & Hu & Hc' & _).
  exists w'. split; [exact Hu|]. split.
  - destruct (read_eco_config_spec w') as (w0 & Hr & _). rewrite Hr. simpl.
    rewrite Hc'. reflexivity.
  - intros k Hk. rewrite (get_config_value_spec w' _ k Hc').
    rewrite (assoc_merge_other k kwargs [] Hk). reflexivity.
Qed.

Lemma update_config_replaces_unreadable_witness :
  exists w',
    update_config [("uid", JStr "u1")] corrupt_config_world = (Done tt, w') /\
    fst (read_eco_config w') = Done (JObj [("uid", JStr "u1")]) /\
    fst (get_config_value "oauth2_token" w') = Done (JStr "").
Proof.
  destruct (update_config_replaces_unreadable corrupt_config_world
              [("uid", JStr "u1")])
    as (w' & Hu & Hr & Hk).
  - right. exists (plain "{ oauth2_token"). split; reflexivity.
  - reflexivity.
  - exists w'. split; [exact Hu|]. split; [exact Hr|].
    apply Hk. simpl. intros [E|[]]. discriminate E.
Defined.

(** X2.  A config file that cannot be written makes [update_config] fail
    silently: the call returns normally, one error message is written,
    the disk is unchanged and every key still reads as before. *)
Theorem update_config_write_failure_is_silent :
  forall w d kwargs,
    fst (read_eco_config w) = Done (JObj d) ->
    locked w (ECO_CONFIG_FILE (glob w)) = true ->
    exists w',
      update_config kwargs w = (Done tt, w') /\
      fs w' = fs w /\
      (1 <= count is_error (since w w'))%nat /\
      (forall k, fst (get_config_value k w') = fst (get_config_value k w)).
Proof.
  intros w d kwargs Hr Hl.
  destruct (read_eco_config_spec w) as (w0 & Hr0 & Hf0 & Hg0 & Hl0 & He0).
  rewrite Hr0 in Hr. simpl in Hr. inversion Hr as [Hc].
  destruct (only_trace _ _ _ _ _ only_read_eco_config Hr0) as (evs0 & Ht0 & _).
  unfold update_config. rewrite (bind_done _ Hr0). rewrite Hc, set_items_obj.
  unfold bind at 1, must at 1, ret at 1.
  unfold write_eco_config, bind, get_globals, is_locked.
  rewrite Hg0, Hl0, Hl. unfold error_print, emit. simpl.
  eexists. split; [reflexivity|]. simpl. split; [exact Hf0|]. split.
  - erewrite since_app; [|simpl; rewrite Ht0, <- app_assoc; reflexivity].
    rewrite count_app. unfold count at 2. simpl. lia.
  - intros k.
    match goal with
    | |- fst (get_config_value k ?w1) = _ =>
        assert (Hc1 : config_of w1 = config_of w)
          by (apply config_of_ext; simpl; [exact Hf0 | exact Hg0])
    end.
    rewrite Hc in Hc1.
    rewrite (get_config_value_spec _ d k Hc1), (get_config_value_spec w d k Hc).
    reflexivity.
Qed.

Lemma update_config_write_failure_is_silent_witness :
  exists w',
    update_config [("uid", JStr "u1")]
      (locked_config_world (JObj [("uid", JStr "u0")])) = (Done tt, w') /\
    fst (get_config_value "uid" w') = Done (JStr "u0").
Proof.
  destruct (update_config_write_failure_is_silent
              (locked_config_world (JObj [("uid", JStr "u0")]))
              [("uid", JStr "u0")] [("uid", JStr "u1")])
    as (w' & Hu & _ & _ & Hk).
  - reflexivity.
  - reflexivity.
  - exists w'. split; [exact Hu|]. rewrite Hk. reflexivity.
Defined.

(** X3.  Updates compose: on a stored mapping that can be written, two
    [update_config] calls in a row leave the document that the single
    call with the concatenated updates leaves (a later value for a key
    wins). *)
Theorem update_config_composes :
  forall w d kw1 kw2,
    fst (read_eco_config w) = Done (JObj d) ->
    locked w (ECO_CONFIG_FILE (glob w)) = false ->
    exists w1 w2 w12,
      update_config kw1 w = (Done tt, w1) /\
      update_config kw2 w1 = (Done tt, w2) /\
      update_config (kw1 ++ kw2) w = (Done tt, w12) /\
      fst (read_eco_config w2) = fst (read_eco_config w12) /\
      fs w2 (ECO_CONFIG_FILE (glob w))
      = Some (Text (o_dumps (env w) (JObj (merge (kw1 ++ kw2) d)))
                   (Some (JObj (merge (kw1 ++ kw2) d)))).
Proof.
  intros w d kw1 kw2 Hr Hl.
  assert (Hc : config_of w = JObj d).
  { destruct (read_eco_config_spec w) as (w0 & Hr0 & _).
    rewrite Hr0 in Hr. simpl in Hr. congruence. }
  destruct (update_config_spec w d kw1 Hc Hl) as (w1 & Hu1 & Hc1 & Hg1 & Hl1 & He1).
  assert (Hl1' : locked w1 (ECO_CONFIG_FILE (glob w1)) = false)
    by (rewrite Hg1, Hl1; exact Hl).
  destruct (update_config_spec w1 _ kw2 Hc1 Hl1') as (w2 & Hu2 & Hc2 & Hg2 & Hl2 & He2).
  destruct (update_config_spec w d (kw1 ++ kw2) Hc Hl) as (w12 & Hu12 & Hc12 & _).
  exists w1, w2, w12. repeat split; try assumption.
  - destruct (read_eco_config_spec w2) as (wa & Ha & _).
    destruct (read_eco_config_spec w12) as (wb & Hb & _).
    rewrite Ha, Hb. simpl. rewrite Hc2, Hc12, merge_app. reflexivity.
  - clear Hu12 Hc12.
    unfold update_config in Hu2.
    destruct (read_eco_config_spec w1) as (w0 & Hr0 & Hf0 & Hg0 & Hl0 & He0).
    rewrite (bind_done _ Hr0), Hc1, set_items_obj in Hu2.
    unfold bind at 1, must at 1, ret at 1 in Hu2.
    destruct (write_eco_config_spec w0 (JObj (merge kw2 (merge kw1 d))))
      as (w2' & Hw & _ & _ & _ & _ & _ & Hfs).
    { rewrite Hg0, Hl0. exact Hl1'. }
    rewrite Hw in Hu2. inversion Hu2; subst w2'.
    rewrite Hfs, Hg0, Hg1, He0, He1, merge_app. unfold dump_ops. simpl.
    unfold upd. rewrite String.eqb_refl. reflexivity.
Qed.

Lemma update_config_composes_witness :
  exists w2 w12,
    fst (read_eco_config w2) = fst (read_eco_config w12) /\
    fst (get_config_value "a" w2) = Done (JStr "2").
Proof.
  destruct (update_config_composes (with_config silent (JObj []))
              [] [("a", JStr "1")] [("a", JStr "2")])
    as (w1 & w2 & w12 & _ & Hu2 & Hu12 & Heq & Hfs).
  - reflexivity.
  - reflexivity.
  - exists w2, w12. split; [exact Heq|].
    destruct (read_eco_config_spec w12) as (wb & Hb & _).
    unfold get_config_value.
    destruct (read_eco_config w2) as [o wa] eqn:Ea. simpl in Heq.
    rewrite Hb in Heq. simpl in Heq. subst o.
    unfold bind. rewrite Ea.
    assert (E : config_of w12 = JObj [("a", JStr "2")]).
    { unfold config_of.
      inversion Hu12 as [H12]. clear Hu12.
      vm_compute in H12. inversion H12. reflexivity. }
    rewrite E. reflexivity.
Defined.

(** X4.  The stored document keeps its shape: after [update_config] on a
    mapping with distinct keys, the keys are still distinct, and the old
    keys come first in their old order, new keys after them. *)
Theorem update_config_keeps_keys_in_order :
  forall w d kwargs,
    fst (read_eco_config w) = Done (JObj d) ->
    locked w (ECO_CONFIG_FILE (glob w)) = false ->
    NoDup (map fst d) ->
    exists w' d' extra,
      update_config kwargs w = (Done tt, w') /\
      fst (read_eco_config w') = Done (JObj d') /\
      NoDup (map fst d') /\
      map fst d' = map fst d ++ extra.
Proof.
  intros w d kwargs Hr Hl Hd.
  assert (Hc : config_of w = JObj d).
  { destruct (read_eco_config_spec w) as (w0 & Hr0 & _).
    rewrite Hr0 in Hr. simpl in Hr. congruence. }
  destruct (update_config_spec w d kwargs Hc Hl) as (w' & Hu & Hc' & _).
  destruct (keys_merge kwargs d) as (extra & He).
  exists w', (merge kwargs d), extra. repeat split; try assumption.
  - destruct (read_eco_config_spec w') as (w0 & Hr0 & _). rewrite Hr0. simpl.
    rewrite Hc'. reflexivity.
  - apply nodup_merge, Hd.
Qed.

Lemma update_config_keeps_keys_in_order_witness :
  exists w' d' extra,
    update_config [("b", JStr "2"); ("a", JStr "3")]
      (with_config silent (JObj [("a", JStr "1")])) = (Done tt, w') /\
    fst (read_eco_config w') = Done (JObj d') /\
    NoDup (map fst d') /\
    map fst d' = ["a"] ++ extra.
Proof.
  apply (update_config_keeps_keys_in_order
           (with_config silent (JObj [("a", JStr "1")]))
           [("a", JStr "1")] [("b", JStr "2"); ("a", JStr "3")]).
  - reflexivity.
  - reflexivity.
  - repeat constructor. simpl. tauto.
Defined.

(** ** Initialization *)

(** The [else] branch of [initialize_eco_config] on a stored mapping. *)
Lemma initialize_existing_doc w d :
  config_of w = JObj d ->
  fs w (ECO_CONFIG_FILE (glob w)) <> None ->
  locked w (ECO_CONFIG_FILE (glob w)) = false ->
  exists w',
    (present <- os_path_isfile (ECO_CONFIG_FILE (glob w)) ;;
     if negb present then
       write_eco_config
         (JObj [("storepass", JStr DEFAULT_STOREPASS);
                ("keyalias", JStr DEFAULT_KEYALIAS)])
     else
       storepass <- get_config_value "storepass" ;;
       (if negb (py_truthy storepass)
        then update_config [("storepass", JStr DEFAULT_STOREPASS)]
        else ret tt) ;;
       keyalias <- get_config_value "keyAlias" ;;
       (if negb (py_truthy keyalias)
        then update_config [("keyalias", JStr DEFAULT_KEYALIAS)]
        else ret tt)) w = (Done tt, w') /\
    config_of w' = JObj (initialized d).
Proof.
  intros Hc Hex Hl.
  unfold bind at 1. unfold os_path_isfile.
  destruct (fs w (ECO_CONFIG_FILE (glob w))) as [t|] eqn:Et; [|congruence].
  cbn [negb].
  destruct (get_config_value_run w d "storepass" Hc)
    as (w0 & Hg0 & Hf0 & Hgl0 & Hl0 & He0).
  rewrite (bind_done _ Hg0).
  assert (Hc0 : config_of w0 = JObj d)
    by (rewrite (config_of_ext w w0 Hf0 Hgl0); exact Hc).
  assert (Hlk0 : locked w0 (ECO_CONFIG_FILE (glob w0)) = false)
    by (rewrite Hgl0, Hl0; exact Hl).
  unfold initialized. fold (lookup "storepass" d).
  set (d1 := if py_truthy (lookup "storepass" d) then d
             else dict_set "storepass" (JStr DEFAULT_STOREPASS) d).
  assert (Hstep : exists w1,
             (if negb (py_truthy (lookup "storepass" d))
              then update_config [("storepass", JStr DEFAULT_STOREPASS)]
              else ret tt) w0 = (Done tt, w1) /\
             config_of w1 = JObj d1 /\
             locked w1 (ECO_CONFIG_FILE (glob w1)) = false).
  { unfold d1. destruct (py_truthy (lookup "storepass" d)); cbn [negb].
    - exists w0. repeat split; assumption.
    - destruct (update_config_spec w0 d [("storepass", JStr DEFAULT_STOREPASS)]
                  Hc0 Hlk0) as (w1 & Hu & Hc1 & Hg1 & Hl1 & _).
      exists w1. repeat split; try assumption.
      rewrite Hg1, Hl1. exact Hlk0. }
  destruct Hstep as (w1 & Hs & Hc1 & Hlk1).
  rewrite (bind_done _ Hs).
  destruct (get_config_value_run w1 d1 "keyAlias" Hc1)
    as (w2 & Hg2 & Hf2 & Hgl2 & Hl2 & He2).
  rewrite (bind_done _ Hg2). fold (lookup "keyAlias" d1).
  assert (Hc2 : config_of w2 = JObj d1)
    by (rewrite (config_of_ext w1 w2 Hf2 Hgl2); exact Hc1).
  assert (Hlk2 : locked w2 (ECO_CONFIG_FILE (glob w2)) = false)
    by (rewrite Hgl2, Hl2; exact Hlk1).
  destruct (py_truthy (lookup "keyAlias" d1)); cbn [negb].
  - exists w2. split; [reflexivity | exact Hc2].
  - destruct (update_config_spec w2 d1 [("keyalias", JStr DEFAULT_KEYALIAS)]
                Hc2 Hlk2) as (w3 & Hu & Hc3 & _).
    exists w3. split; [exact Hu | exact Hc3].
Qed.

Lemma read_of_config_of w j :
  config_of w = j -> fst (read_eco_config w) = Done j.
Proof.
  intros H. destruct (read_eco_config_spec w) as (w0 & Hr & _).
  rewrite Hr. simpl. congruence.
Qed.

(** X5.  On a machine without config file, and on every machine in
    debug mode, [initialize_eco_config] leaves exactly the two built-in
    defaults: in debug mode the whole stored document, the session
    included, is discarded first. *)
Theorem initialize_fresh_or_debug_gives_defaults :
  forall w,
    fs w (ECO_CONFIG_FILE (glob w)) = None \/ DEBUG (glob w) = true ->
    locked w (ECO_CONFIG_FILE (glob w)) = false ->
    exists w',
      initialize_eco_config w = (Done tt, w') /\
      fst (read_eco_config w') = Done default_config /\
      fst (get_config_value "oauth2_token" w') = Done (JStr "").
Proof.
  intros w Hcase Hl.
  assert (Hgoal : exists w',
             initialize_eco_config w = (Done tt, w') /\
             config_of w' = default_config).
  { unfold initialize_eco_config. unfold bind at 1. unfold get_globals.
    destruct (DEBUG (glob w)) eqn:Ed.
    - destruct (clear_eco_config_file_spec w Hl)
        as (w1 & Hcl & Hc1 & Hg1 & Hl1 & _ & Hfs1).
      rewrite (bind_done _ Hcl). rewrite <- Hg1.
      destruct (initialize_existing_doc w1 [] Hc1) as (w' & Hi & Hc').
      + rewrite Hfs1, Hg1. unfold dump_ops. simpl. unfold upd.
        rewrite String.eqb_refl. discriminate.
      + rewrite Hg1, Hl1. exact Hl.
      + exists w'. split; [exact Hi | exact Hc'].
    - destruct Hcase as [Hnone | Hd]; [|discriminate Hd].
      unfold bind at 1. unfold ret at 1.
      unfold bind at 1. unfold os_path_isfile. rewrite Hnone. cbn [negb].
      destruct (write_eco_config_spec w default_config Hl) as (w' & Hw & Hc' & _).
      exists w'. split; [exact Hw | exact Hc']. }
  destruct Hgoal as (w' & Hi & Hc'). exists w'. split; [exact Hi|]. split.
  - apply read_of_config_of, Hc'.
  - rewrite (get_config_value_spec w' _ "oauth2_token" Hc'). reflexivity.
Qed.

Lemma initialize_fresh_or_debug_gives_defaults_witness :
  exists w',
    initialize_eco_config debug_world = (Done tt, w') /\
    fst (read_eco_config w') = Done default_config /\
    fst (get_config_value "oauth2_token" w') = Done (JStr "").
Proof.
  apply (initialize_fresh_or_debug_gives_defaults debug_world).
  - right. reflexivity.
  - reflexivity.
Defined.

(** X6.  Outside debug mode, [initialize_eco_config] keeps a stored
    password: when the stored mapping has a non-empty ["storepass"], that
    value is still there afterwards, and every key other than
    ["storepass"] and ["keyalias"] keeps its value too. *)
Theorem initialize_keeps_storepass :
  forall w t d,
    DEBUG (glob w) = false ->
    fs w (ECO_CONFIG_FILE (glob w)) = Some t ->
    parsed t = Some (JObj d) ->
    locked w (ECO_CONFIG_FILE (glob w)) = false ->
    py_truthy (lookup "storepass" d) = true ->
    exists w',
      initialize_eco_config w = (Done tt, w') /\
      fst (get_config_value "storepass" w') = Done (lookup "storepass" d) /\
      (forall k, k <> "keyalias" ->
                 fst (get_config_value k w') = Done (lookup k d)).
Proof.
  intros w t d Hd Hfs Hp Hl Hs.
  assert (Hc : config_of w = JObj d)
    by (unfold config_of; rewrite Hfs, Hp; reflexivity).
  unfold initialize_eco_config. unfold bind at 1. unfold get_globals.
  rewrite Hd. unfold bind at 1. unfold ret at 1.
  destruct (initialize_existing_doc w d Hc) as (w' & Hi & Hc').
  { rewrite Hfs. discriminate. }
  { exact Hl. }
  exists w'. split; [exact Hi|].
  assert (Hk : forall k, k <> "keyalias" ->
                         fst (get_config_value k w') = Done (lookup k d)).
  { intros k Hk. rewrite (get_config_value_spec w' _ k Hc').
    unfold initialized. rewrite Hs.
    destruct (py_truthy (lookup "keyAlias" d)); [reflexivity|].
    rewrite assoc_dict_set_other by exact Hk. reflexivity. }
  split; [apply Hk; discriminate | exact Hk].
Qed.

Lemma initialize_keeps_storepass_witness :
  exists w',
    initialize_eco_config
      (with_config silent (JObj [("storepass", JStr "secret")])) = (Done tt, w') /\
    fst (get_config_value "storepass" w') = Done (JStr "secret").
Proof.
  destruct (initialize_keeps_storepass
              (with_config silent (JObj [("storepass", JStr "secret")]))
              (Text "{...}" (Some (JObj [("storepass", JStr "secret")])))
              [("storepass", JStr "secret")])
    as (w' & Hi & Hs & _); try reflexivity.
  exists w'. split; [exact Hi | exact Hs].
Defined.

(** ** The callback server and the login: what they leave behind *)

Lemma since_refl w : since w w = [].
Proof. apply since_app. rewrite app_nil_r. reflexivity. Qed.

Lemma replies_app l1 l2 : replies (l1 ++ l2) = replies l1 ++ replies l2.
Proof. unfold replies. apply flat_map_app. Qed.

(** The files a run of log lines has left alone. *)
Ltac frame_tac p Hp :=
  repeat match goal with
         | Hf : forall q, q <> _ -> _ = _ |- _ =>
             rewrite (Hf p Hp); clear Hf; cbn [fs]
         end.

Lemma do_POST_cases tf lg rq w o w' :
  do_POST tf lg rq w = (o, w') ->
  exists evs, trace w' = trace w ++ evs /\ handled tf lg rq w o w' evs.
Proof.
  unfold do_POST. intros H.
  assert (Hs : forall evs (b0 : bool) f,
             ret b0 (World f (locked w) (glob w) (env w) (trace w ++ evs)) = (o, w') ->
             Done b0 = o /\ trace w' = trace w ++ evs /\ fs w' = f).
  { intros evs b0 f E. inversion E; subst. repeat split. }
  assert (H4 : forall evs status f,
             ret false (World f (locked w) (glob w) (env w) (trace w ++ evs))
             = (o, w') ->
             requests_seen evs = 0%nat ->
             shutdowns evs = 0%nat ->
             replies evs = [status] ->
             status = 404 \/ status = 400 ->
             (forall p, p <> lg -> f p = fs w p) ->
             exists evs0, trace w' = trace w ++ evs0 /\ handled tf lg rq w o w' evs0).
  { intros evs status f E Hq Hsd Hr Hst Hfr. apply Hs in E.
    destruct E as (<- & Ht & Hf).
    exists evs. split; [exact Ht|]. split; [exact Hq|]. split; [exact Hsd|].
    right. left. exists status. repeat split; auto.
    intros p Hp. rewrite Hf. apply Hfr, Hp. }
  destruct (String.eqb (rq_path rq) "/callback") eqn:Epath; cbn [negb] in H.
  2: { repeat exec H. rewrite <- ?app_assoc in H.
       apply (H4 _ 404) in H; auto. }
  apply String.eqb_eq in Epath.
  destruct (negb (rq_readable rq)).
  { unfold raise in H. inversion H; subst. exists []. rewrite app_nil_r.
    split; [reflexivity|]. split; [reflexivity|]. split; [reflexivity|].
    left. repeat split. }
  exec H.
  destruct (form_get "tempToken" (rq_form rq)) as [|temp_token rest].
  { repeat exec H. rewrite <- ?app_assoc in H.
    apply (H4 _ 400) in H; auto. intros p Hp. frame_tac p Hp. reflexivity. }
  cbv zeta in H. repeat exec H.
  match type of H with
  | context [o_exchange ?e ?h] => destruct (o_exchange e h) as [t1|]
  end.
  2: { repeat exec H. rewrite <- ?app_assoc in H.
       apply (H4 _ 400) in H; auto. intros p Hp. frame_tac p Hp. reflexivity. }
  cbv zeta in H. repeat exec H.
  match type of H with
  | context [o_exchange ?e ?h] => destruct (o_exchange e h) as [t2|]
  end.
  2: { repeat exec H. rewrite <- ?app_assoc in H.
       apply (H4 _ 400) in H; auto. intros p Hp. frame_tac p Hp. reflexivity. }
  destruct (parsed t2) as [resp_json|].
  2: { repeat exec H. rewrite <- ?app_assoc in H.
       apply (H4 _ 400) in H; auto. intros p Hp. frame_tac p Hp. reflexivity. }
  destruct (py_get resp_json "userInfo" (JObj [])) as [user_info|].
  2: { unfold bind at 1, must at 1, raise at 1 in H. rewrite <- ?app_assoc in H.
       inversion H; subst o w'. eexists. split; [reflexivity|].
       split; [reflexivity|]. split; [reflexivity|].
       left. repeat split. intros p Hp. cbn [fs]. frame_tac p Hp. reflexivity. }
  repeat exec H.
  destruct (py_truthy user_info) eqn:Etruthy; cbn [negb] in H.
  2: { repeat exec H. rewrite <- ?app_assoc in H.
       apply (H4 _ 400) in H; auto. intros p Hp. frame_tac p Hp. reflexivity. }
  exec H.
  destruct (locked w tf) eqn:Elk; unfold bind at 1 in H.
  - match type of H with
    | context [logger_error ?l ?m ?v] =>
        destruct (logger_error_run l m v) as (fe & E & Hfe); rewrite E in H; clear E
    end.
    repeat exec H. rewrite <- ?app_assoc in H.
    apply Hs in H. destruct H as (<- & Ht & Hf').
    eexists. split; [exact Ht|]. split; [reflexivity|]. split; [reflexivity|].
    right. right. repeat split; auto.
    + intros p _ Hp. rewrite Hf'. frame_tac p Hp. reflexivity.
    + intros Hc. rewrite Elk in Hc. discriminate Hc.
  - match type of H with
    | context [bind (dumps ?j) ?k ?v] =>
        change (bind (dumps j) k v) with (k (o_dumps (env v) j) v) in H
    end.
    cbv beta in H. cbn [fs locked glob env trace] in H.
    match type of H with
    | context [bind (do_ops ?ops) ?k ?v] =>
        change (bind (do_ops ops) k v)
          with (k tt (World (apply_ops ops (fs v)) (locked v) (glob v) (env v)
                        (trace v))) in H
    end.
    cbv beta in H. cbn [fs locked glob env trace] in H.
    match type of H with
    | context [logger_info ?l ?m ?v] =>
        destruct (logger_info_run l m v) as (fe & E & Hfe); rewrite E in H; clear E
    end.
    cbn [fs locked glob env trace] in Hfe.
    repeat exec H. rewrite <- ?app_assoc in H.
    apply Hs in H. destruct H as (<- & Ht & Hf').
    eexists. split; [exact Ht|]. split; [reflexivity|]. split; [reflexivity|].
    right. right. repeat split; auto.
    + intros p Hpt Hp. rewrite Hf'.
      rewrite (Hf6 p Hp), (Hf5 p Hp), (Hfe p Hp).
      unfold apply_ops, dump_ops. cbn [fold_left apply_op]. unfold upd.
      apply String.eqb_neq in Hpt. rewrite Hpt.
      frame_tac p Hp. reflexivity.
    + intros _ Hne. exists user_info. split; [exact Etruthy|].
      rewrite Hf'. rewrite (Hf6 tf Hne), (Hf5 tf Hne), (Hfe tf Hne).
      unfold apply_ops, dump_ops. cbn [fold_left apply_op]. unfold upd.
      rewrite String.eqb_refl. reflexivity.
Qed.

(** One turn of the server loop always comes back, with at most one
    reply; it asks to stop only after the 200 to a POST to [/callback],
    and a request that is not a POST gets the answer of the base class
    and nothing else. *)
Lemma handle_request_cases tf lg rq w :
  exists b w' evs,
    handle_request tf lg rq w = (Done b, w') /\
    trace w' = trace w ++ ERequest rq :: evs /\
    locked w' = locked w /\
    requests_seen evs = 0%nat /\
    shutdowns evs = (if b then 1%nat else 0%nat) /\
    (length (replies evs) <= 1)%nat /\
    (if b then
       rq_method rq = "POST" /\ rq_path rq = "/callback" /\
       replies evs = [200] /\
       (forall p, p <> tf -> p <> lg -> fs w' p = fs w p) /\
       (locked w tf = false -> tf <> lg ->
        exists user_info,
          py_truthy user_info = true /\
          fs w' tf = Some (Text (o_dumps (env w) user_info) (Some user_info)))
     else
       forall p, p <> lg -> fs w' p = fs w p) /\
    (rq_method rq <> "POST" ->
     b = false /\ fs w' = fs w /\
     replies evs = match rq_inherited rq with
                   | Some (status, _) => [status]
                   | None => []
                   end).
Proof.
  unfold handle_request. unfold bind at 1, emit at 1.
  set (w0 := World (fs w) (locked w) (glob w) (env w) (trace w ++ [ERequest rq])).
  destruct (String.eqb (rq_method rq) "POST") eqn:Em.
  - apply String.eqb_eq in Em.
    destruct (do_POST tf lg rq w0) as [o w'] eqn:E.
    destruct (do_POST_cases _ _ _ _ _ _ E) as (evs & Ht & Hq & Hsd & Hcase).
    assert (Ht' : trace w' = trace w ++ ERequest rq :: evs).
    { rewrite Ht. unfold w0. simpl. rewrite <- app_assoc. reflexivity. }
    assert (Hlk : locked w' = locked w).
    { pose proof (proj1 (proj2 (only_do_POST tf lg rq w0))) as Hl.
      rewrite E in Hl. exact Hl. }
    destruct Hcase as [(-> & Hr & Hf) | [(status & -> & Hr & Hst & Hf)
                                        | (-> & Hpath & Hr & Hp & Hw)]].
    + exists false, w', evs. rewrite Hr.
      repeat split; auto; try contradiction.
    + exists false, w', evs. rewrite Hr.
      repeat split; auto; try contradiction.
    + exists true, w', evs. rewrite Hr.
      repeat split; auto; try contradiction.
  - apply String.eqb_neq in Em.
    destruct (rq_inherited rq) as [[status body]|].
    + exists false.
      exists (World (fs w) (locked w) (glob w) (env w)
                (trace w ++ [ERequest rq] ++ [EReply status body])).
      exists [EReply status body].
      unfold bind, emit, ret. simpl. rewrite <- app_assoc.
      repeat split; auto.
    + exists false, w0, []. repeat split; auto.
Qed.


(** X8.  When [serve_forever] returns, it has asked for the shutdown
    once, in its last turn, and that turn answered a POST to [/callback]
    with 200: the request is one of those that arrived, the requests
    before it were all served, with at most one reply each, and the
    requests behind it were not read.  No file but the handoff file and
    the server's log has changed, and if the handoff file can be written
    it then holds a non-empty userInfo. *)
Theorem serve_forever_stops_at_first_success :
  forall tf lg rqs w w',
    serve_forever tf lg rqs w = (Done tt, w') ->
    exists served rq behind earlier,
      rqs = served ++ rq :: behind /\
      rq_method rq = "POST" /\ rq_path rq = "/callback" /\
      requests_seen (since w w') = S (length served) /\
      shutdowns (since w w') = 1%nat /\
      replies (since w w') = earlier ++ [200] /\
      (length earlier <= length served)%nat /\
      (forall p, p <> tf -> p <> lg -> fs w' p = fs w p) /\
      (locked w tf = false -> tf <> lg ->
       exists t user_info,
         fs w' tf = Some t /\ parsed t = Some user_info /\
         py_truthy user_info = true).
Proof.
  intros tf lg rqs. induction rqs as [|rq rest IH]; intros w w' H.
  - discriminate H.
  - simpl in H.
    destruct (handle_request_cases tf lg rq w)
      as (b & w1 & evs & H1 & Ht1 & Hlk1 & Hq1 & Hsd1 & Hlen1 & Hb & _).
    rewrite (bind_done _ H1) in H.
    destruct b.
    + inversion H; subst w'. destruct Hb as (Hm & Hpath & Hr & Hfr & Hw).
      rewrite (since_app _ _ _ Ht1).
      change (ERequest rq :: evs) with ([ERequest rq] ++ evs).
      rewrite replies_app. unfold requests_seen, shutdowns in *.
      rewrite !count_app, Hq1, Hsd1, Hr.
      exists [], rq, rest, []. simpl. repeat split; auto.
      intros Hl Hne. destruct (Hw Hl Hne) as (ui & Hui & Hfs).
      eexists; exists ui. repeat split; [exact Hfs | reflexivity | exact Hui].
    + destruct (IH _ _ H)
        as (served & rq0 & behind & earlier & Hrqs & Hm & Hpath & Hseen & Hsd
            & Hrep & Hlen & Hfr & Hfile).
      destruct (only_trace _ _ _ _ _ (only_serve_forever tf lg rest) H)
        as (evs2 & Ht2 & _).
      rewrite (since_app _ _ _ Ht2) in Hrep, Hseen, Hsd.
      assert (Ht : trace w' = trace w ++ ([ERequest rq] ++ evs) ++ evs2).
      { rewrite Ht2, Ht1. rewrite <- !app_assoc. reflexivity. }
      rewrite (since_app _ _ _ Ht).
      rewrite !replies_app, Hrep. unfold requests_seen, shutdowns in *.
      rewrite !count_app, Hq1, Hsd1, Hseen, Hsd. simpl replies.
      exists (rq :: served), rq0, behind, (replies evs ++ earlier).
      rewrite app_assoc, Hrqs, length_app. simpl.
      repeat split; auto.
      * lia.
      * intros p Hpt Hp. rewrite (Hfr p Hpt Hp). apply Hb, Hp.
      * intros Hl Hne. apply Hfile; [|exact Hne]. rewrite Hlk1. exact Hl.
Qed.

Lemma serve_forever_stops_at_first_success_witness :
  exists served rq behind,
    [stray_request; unreadable_callback; page_request; empty_callback;
     good_callback; good_callback]
    = served ++ rq :: behind /\
    replies (since (with_config (login_oracle []) (JObj []))
               (snd (serve_forever "/tmp/eco_token_"
                       "/tmp/login_callback_handler_log_"
                       [stray_request; unreadable_callback; page_request;
                        empty_callback; good_callback; good_callback]
                       (with_config (login_oracle []) (JObj [])))))
    = [404; 200; 400; 200] /\
    length served = 4%nat.
Proof.
  destruct (serve_forever_stops_at_first_success "/tmp/eco_token_"
              "/tmp/login_callback_handler_log_"
              [stray_request; unreadable_callback; page_request;
               empty_callback; good_callback; good_callback]
              (with_config (login_oracle []) (JObj []))
              (snd (serve_forever "/tmp/eco_token_"
                      "/tmp/login_callback_handler_log_"
                      [stray_request; unreadable_callback; page_request;
                       empty_callback; good_callback; good_callback]
                      (with_config (login_oracle []) (JObj [])))))
    as (served & rq & behind & earlier & Hrqs & _ & _ & Hseen & _).
  - vm_compute. reflexivity.
  - exists served, rq, behind. split; [exact Hrqs|].
    split; [vm_compute; reflexivity|].
    vm_compute in Hseen. injection Hseen as Hseen. symmetry. exact Hseen.
Defined.

(** ** The files a run may change *)

Lemma apply_ops_frame ops f p :
  (forall op, In op ops -> ~ In p (op_paths op)) ->
  apply_ops ops f p = f p.
Proof.
  unfold apply_ops. revert f. induction ops as [|op r IH]; intros f H.
  - reflexivity.
  - simpl. rewrite IH by (intros op' Hin; apply H; right; exact Hin).
    assert (Hop : ~ In p (op_paths op)) by (apply H; left; reflexivity).
    destruct op; simpl in *; unfold upd;
      repeat match goal with
             | |- context [String.eqb p ?q] =>
                 destruct (String.eqb_spec p q); [subst; tauto|]
             end; reflexivity.
Qed.

Section Stays.
Variable g : globals.
Variable e : oracle.
Variable allowed : string -> Prop.

Lemma stays_pure {A} (f : world -> outcome A) :
  stays g e allowed (fun w => (f w, w)).
Proof. intros w Hg He. simpl. repeat split; assumption. Qed.

Lemma stays_ret {A} (a : A) : stays g e allowed (ret a).
Proof. apply (stays_pure (fun _ => Done a)). Qed.

Lemma stays_sys_exit {A} : stays g e allowed (@sys_exit A).
Proof. apply (stays_pure (fun _ => Exit)). Qed.

Lemma stays_raise {A} : stays g e allowed (@raise A).
Proof. apply (stays_pure (fun _ => Raise)). Qed.

Lemma stays_hang {A} : stays g e allowed (@hang A).
Proof. apply (stays_pure (fun _ => Hang)). Qed.

Lemma stays_must {A} (o : option A) : stays g e allowed (must o).
Proof. destruct o; [apply stays_ret | apply stays_raise]. Qed.

Lemma stays_read_file q : stays g e allowed (read_file q).
Proof. apply (stays_pure (fun w => Done (fs w q))). Qed.

Lemma stays_isfile q : stays g e allowed (os_path_isfile q).
Proof.
  apply (stays_pure
           (fun w => Done (match fs w q with Some _ => true | None => false end))).
Qed.

Lemma stays_is_locked q : stays g e allowed (is_locked q).
Proof. apply (stays_pure (fun w => Done (locked w q))). Qed.

Lemma stays_dumps j : stays g e allowed (dumps j).
Proof. apply (stays_pure (fun w => Done (o_dumps (env w) j))). Qed.

Lemma stays_emit ev : stays g e allowed (emit ev).
Proof. intros w Hg He. simpl. repeat split; assumption. Qed.

Lemma stays_do_ops ops :
  (forall op p, In op ops -> In p (op_paths op) -> allowed p) ->
  stays g e allowed (do_ops ops).
Proof.
  intros H w Hg He. simpl. repeat split; try assumption.
  intros p Hp. apply apply_ops_frame. intros op Hin Hpin.
  apply Hp. exact (H op p Hin Hpin).
Qed.

Lemma stays_log_append lg level msg :
  allowed lg -> stays g e allowed (log_append lg level msg).
Proof.
  intros Ha w Hg He. simpl. repeat split; try assumption.
  intros p Hp. unfold upd.
  destruct (String.eqb_spec p lg); [subst; contradiction | reflexivity].
Qed.

Lemma stays_logger_info lg msg :
  allowed lg -> stays g e allowed (logger_info lg msg).
Proof. apply stays_log_append. Qed.

Lemma stays_bind {A B} (m : M A) (f : A -> M B) :
  stays g e allowed m -> (forall a, stays g e allowed (f a)) ->
  stays g e allowed (bind m f).
Proof.
  intros Hm Hf w Hg He. specialize (Hm w Hg He). unfold bind.
  destruct (m w) as [o w1]. simpl in Hm. destruct Hm as (Hg1 & He1 & Hfs1).
  destruct o as [a| | |]; try (simpl; repeat split; assumption).
  specialize (Hf a w1 Hg1 He1). destruct (f a w1) as [o2 w2]. simpl in *.
  destruct Hf as (Hg2 & He2 & Hfs2). repeat split; try assumption.
  intros p Hp. rewrite Hfs2, Hfs1 by exact Hp. reflexivity.
Qed.

(** What [get_globals] returns is [g]. *)
Lemma stays_with_globals {B} (f : globals -> M B) :
  stays g e allowed (f g) -> stays g e allowed (bind get_globals f).
Proof.
  intros Hf w Hg He. destruct w as [f0 l0 g0 e0 t0]. simpl in Hg, He.
  subst g0 e0. unfold bind, get_globals. simpl. apply Hf; reflexivity.
Qed.

(** What the outside answers is its answer to some history. *)
Lemma stays_with_answer {A B} ev (o : oracle -> list event -> A) (f : A -> M B) :
  (forall hist, stays g e allowed (f (o e hist))) ->
  stays g e allowed (bind (ask ev o) f).
Proof.
  intros Hf w Hg He. destruct w as [f0 l0 g0 e0 t0]. simpl in Hg, He.
  subst g0 e0. unfold bind, ask. simpl.
  apply (Hf (t0 ++ [ev])); reflexivity.
Qed.

Lemma stays_with_temp {B} prefix (f : string -> M B) :
  (forall hist, stays g e allowed (f (o_mktemp e hist prefix))) ->
  stays g e allowed (bind (mktemp prefix) f).
Proof.
  intros Hf w Hg He. destruct w as [f0 l0 g0 e0 t0]. simpl in Hg, He.
  subst g0 e0. unfold bind, mktemp. simpl.
  apply (Hf t0); reflexivity.
Qed.

Lemma stays_logger_error lg msg :
  allowed lg -> stays g e allowed (logger_error lg msg).
Proof.
  intros Ha. unfold logger_error. apply stays_bind.
  - apply stays_log_append, Ha.
  - intros _. apply stays_emit.
Qed.

Lemma stays_open_log lg : allowed lg -> stays g e allowed (open_log lg).
Proof.
  intros Ha. unfold open_log. apply stays_bind; [apply stays_is_locked|].
  intros [|]; [apply stays_raise|].
  intros w Hg He. simpl. repeat split; try assumption.
  intros p Hp. unfold upd.
  destruct (String.eqb_spec p lg); [subst; contradiction | reflexivity].
Qed.

Lemma stays_catch (m : M bool) (a : bool) :
  stays g e allowed m ->
  stays g e allowed
    (fun w => match m w with (Raise, w') => (Done a, w') | r => r end).
Proof.
  intros Hm w Hg He. specialize (Hm w Hg He).
  destruct (m w) as [[b| | |] w1]; exact Hm.
Qed.
End Stays.

Lemma stays_weaken g e (a1 a2 : string -> Prop) {A} (m : M A) :
  (forall p, a1 p -> a2 p) -> stays g e a1 m -> stays g e a2 m.
Proof.
  intros Hsub Hm w Hg He. destruct (Hm w Hg He) as (Hg1 & He1 & Hfs).
  repeat split; try assumption. intros p Hp. apply Hfs. intros Ha. apply Hp, Hsub, Ha.
Qed.

Create HintDb stays discriminated.

Ltac allowed_tac :=
  intros; simpl in *;
  repeat match goal with
         | H : _ \/ _ |- _ => destruct H; subst; simpl in *
         | H : False |- _ => destruct H
         end;
  subst;
  unfold profile_files, cert_files, login_files, temp_file;
  solve [ auto | tauto | eauto 8 ].

Ltac stays_known :=
  solve [ eauto with stays
        | eapply stays_weaken; [ | solve [eauto with stays] ];
          unfold profile_files, cert_files, login_files; intros; tauto ].

Ltac stays_step :=
  match goal with
  | |- stays _ _ _ (bind get_globals _) => apply stays_with_globals
  | |- stays _ _ _ (bind (ask _ _) _) => apply stays_with_answer; intros
  | |- stays _ _ _ (bind (mktemp _) _) => apply stays_with_temp; intros
  | |- stays _ _ _ (bind _ _) => apply stays_bind; [ | intros ]
  | |- stays _ _ _ (ret _) => apply stays_ret
  | |- stays _ _ _ sys_exit => apply stays_sys_exit
  | |- stays _ _ _ raise => apply stays_raise
  | |- stays _ _ _ hang => apply stays_hang
  | |- stays _ _ _ (must _) => apply stays_must
  | |- stays _ _ _ (read_file _) => apply stays_read_file
  | |- stays _ _ _ (os_path_isfile _) => apply stays_isfile
  | |- stays _ _ _ (is_locked _) => apply stays_is_locked
  | |- stays _ _ _ (dumps _) => apply stays_dumps
  | |- stays _ _ _ (emit _) => apply stays_emit
  | |- stays _ _ _ (error_print _) => apply stays_emit
  | |- stays _ _ _ (do_ops _) => apply stays_do_ops; allowed_tac
  | |- stays _ _ _ (logger_info _ _) => apply stays_logger_info; allowed_tac
  | |- stays _ _ _ (logger_error _ _) => apply stays_logger_error; allowed_tac
  | |- stays _ _ _ (open_log _) => apply stays_open_log; allowed_tac
  | |- stays _ _ _ (match ?x with _ => _ end) => destruct x eqn:?
  | |- stays _ _ _ _ => stays_known
  end.

Ltac stays_tac := cbv zeta; repeat (stays_step; cbv zeta).

Lemma stays_read_eco_config g e a : stays g e a read_eco_config.
Proof. unfold read_eco_config. stays_tac. Qed.
#[export] Hint Resolve stays_read_eco_config : stays.

Lemma stays_get_config_value g e a key : stays g e a (get_config_value key).
Proof. unfold get_config_value. stays_tac. Qed.
#[export] Hint Resolve stays_get_config_value : stays.

Lemma stays_write_eco_config g e data :
  stays g e (login_files g e) (write_eco_config data).
Proof. unfold write_eco_config, dump_ops. stays_tac. Qed.
#[export] Hint Resolve stays_write_eco_config : stays.

Lemma stays_clear_eco_config_file g e :
  stays g e (login_files g e) clear_eco_config_file.
Proof. unfold clear_eco_config_file, dump_ops. stays_tac. Qed.
#[export] Hint Resolve stays_clear_eco_config_file : stays.

Lemma stays_update_config g e kwargs :
  stays g e (login_files g e) (update_config kwargs).
Proof. unfold update_config. stays_tac. Qed.
#[export] Hint Resolve stays_update_config : stays.

Lemma stays_initialize_eco_config g e :
  stays g e (login_files g e) initialize_eco_config.
Proof. unfold initialize_eco_config. stays_tac. Qed.
#[export] Hint Resolve stays_initialize_eco_config : stays.

Lemma stays_http_request g e a m url data : stays g e a (http_request m url data).
Proof. unfold http_request. stays_tac. Qed.
#[export] Hint Resolve stays_http_request : stays.

Lemma stays_loads_or_exit g e a body what : stays g e a (loads_or_exit body what).
Proof. unfold loads_or_exit. stays_tac. Qed.
#[export] Hint Resolve stays_loads_or_exit : stays.

Lemma stays_download_file g e (a : string -> Prop) url name :
  a (os_path_join (CONFIG_DIR g) [name]) ->
  stays g e a (download_file url name).
Proof. intros Ha. unfold download_file. stays_tac. Qed.

Lemma stays_download_cert g e (a : string -> Prop) obj name :
  a (os_path_join (CONFIG_DIR g) [name]) ->
  stays g e a (download_cert obj name).
Proof.
  intros Ha. unfold download_cert. stays_tac.
  apply stays_download_file. exact Ha.
Qed.

Lemma stays_do_POST g e tf lg rq :
  temp_file e tf -> temp_file e lg ->
  stays g e (login_files g e) (do_POST tf lg rq).
Proof. intros Htf Hlg. unfold do_POST, dump_ops. stays_tac. Qed.

Lemma stays_handle_request g e tf lg rq :
  temp_file e tf -> temp_file e lg ->
  stays g e (login_files g e) (handle_request tf lg rq).
Proof.
  intros Htf Hlg. unfold handle_request. stays_tac.
  - apply stays_catch. apply stays_do_POST; assumption.
Qed.

Lemma stays_serve_forever g e tf lg rqs :
  temp_file e tf -> temp_file e lg ->
  stays g e (login_files g e) (serve_forever tf lg rqs).
Proof.
  intros Htf Hlg. induction rqs as [|rq rest IH]; simpl.
  - apply stays_hang.
  - apply stays_bind; [apply stays_handle_request; assumption | intros stop].
    destruct stop; [apply stays_ret | exact IH].
Qed.

Lemma stays_login_collect g e tf lp :
  temp_file e tf -> stays g e (login_files g e) (login_collect tf lp).
Proof. intros Htf. unfold login_collect. stays_tac. Qed.

Lemma stays_ext g e a {A} (m m' : M A) :
  (forall w, m w = m' w) -> stays g e a m' -> stays g e a m.
Proof. intros Heq Hm w Hg He. rewrite Heq. apply Hm; assumption. Qed.

(** [login_eco] as one sequence. *)
Lemma login_eco_steps w :
  login_eco w =
  (emit ELogin ;;
   token_file <- mktemp "eco_token_" ;;
   server_log_path <-
     run_login_callback_handler_server token_file 3333
       ("https://cn.devecostudio.huawei.com/console/DevEcoIDE/apply"
        ++ "?port=3333&appid=1007&code=20698961dd4f420c8b44f49010c6f0cc")%string ;;
   login_collect token_file server_log_path) w.
Proof.
  unfold login_eco, login_wait. unfold bind, emit, mktemp, ret. cbv zeta. simpl.
  match goal with
  | |- context [run_login_callback_handler_server ?a ?b ?c ?w0] =>
      destruct (run_login_callback_handler_server a b c w0) as [[s| | |] w2]
  end; reflexivity.
Qed.

Lemma stays_login_eco g e : stays g e (login_files g e) login_eco.
Proof.
  apply (stays_ext _ _ _ _ _ login_eco_steps).
  assert (Htf : forall hist, temp_file e (o_mktemp e hist "eco_token_"))
    by (intros hist; exists hist, "eco_token_"; reflexivity).
  assert (Hlg : forall hist,
             temp_file e (o_mktemp e hist "login_callback_handler_log_"))
    by (intros hist; exists hist, "login_callback_handler_log_"; reflexivity).
  unfold run_login_callback_handler_server.
  stays_tac.
  - apply stays_serve_forever; [apply Htf | apply Hlg].
  - apply stays_login_collect, Htf.
Qed.
#[export] Hint Resolve stays_login_eco : stays.

Lemma stays_cert_list_step g e : stays g e (login_files g e) cert_list_step.
Proof. unfold cert_list_step, get_cert_list. stays_tac. Qed.
#[export] Hint Resolve stays_cert_list_step : stays.

Lemma stays_device_list_step g e : stays g e (login_files g e) device_list_step.
Proof. unfold device_list_step, eco_device_list. stays_tac. Qed.
#[export] Hint Resolve stays_device_list_step : stays.

Lemma stays_team_list_step g e : stays g e (login_files g e) team_list_step.
Proof. unfold team_list_step. stays_tac. Qed.
#[export] Hint Resolve stays_team_list_step : stays.

Lemma stays_check_or_login g e :
  stays g e (login_files g e) check_or_login_huawei_eco.
Proof. unfold check_or_login_huawei_eco. stays_tac. Qed.

Lemma written_by_tool_intro e hist output wrote op p :
  o_exec e hist = XOk output wrote ->
  In op (map (fun pt => OpWrite (fst pt) (snd pt)) wrote) ->
  In p (op_paths op) ->
  written_by_tool e p.
Proof.
  intros Ho Hin Hp. apply in_map_iff in Hin. destruct Hin as ([q t] & <- & Hin).
  simpl in Hp. destruct Hp as [<- | []].
  exists hist, output, wrote. split; [exact Ho|].
  apply in_map_iff. exists (q, t). split; [reflexivity | exact Hin].
Qed.

Lemma stays_check_call g e (a : string -> Prop) cmd failed :
  (forall p, written_by_tool e p -> a p) ->
  stays g e a (check_call cmd failed).
Proof.
  intros Ha. unfold check_call. stays_tac.
  apply stays_do_ops. intros op p Hin Hp. apply Ha.
  eapply written_by_tool_intro; eassumption.
Qed.

Lemma stays_check_output g e (a : string -> Prop) cmd failed timed :
  (forall p, written_by_tool e p -> a p) ->
  stays g e a (check_output cmd failed timed).
Proof.
  intros Ha. unfold check_output. stays_tac.
  apply stays_do_ops. intros op p Hin Hp. apply Ha.
  eapply written_by_tool_intro; eassumption.
Qed.

Lemma stays_create_keystore g e (a : string -> Prop) k s al c :
  (forall p, written_by_tool e p -> a p) ->
  stays g e a (create_keystore k s al c).
Proof.
  intros Ha. unfold create_keystore. stays_tac. apply stays_check_call, Ha.
Qed.

Lemma stays_create_csr g e (a : string -> Prop) k c al s :
  (forall p, written_by_tool e p -> a p) ->
  stays g e a (create_csr k c al s).
Proof.
  intros Ha. unfold create_csr. stays_tac. apply stays_check_call, Ha.
Qed.

Lemma stays_read_csr g e a c : stays g e a (read_csr c).
Proof. unfold read_csr. stays_tac. Qed.
#[export] Hint Resolve stays_read_csr : stays.

Lemma stays_prepare_csr g e name : stays g e (cert_files name g e) prepare_csr.
Proof.
  assert (Ha : forall p, written_by_tool e p -> cert_files name g e p)
    by (intros p Hp; right; left; exact Hp).
  unfold prepare_csr. stays_tac.
  - apply stays_create_keystore, Ha.
  - apply stays_create_csr, Ha.
Qed.

Lemma stays_reuse_cert g e name existing same :
  stays g e (cert_files name g e) (reuse_cert name existing same).
Proof.
  unfold reuse_cert. stays_tac.
  apply stays_download_cert. left. reflexivity.
Qed.

Lemma stays_delete_same_named g e a name dc :
  stays g e a (delete_same_named name dc).
Proof. unfold delete_same_named, delete_certs. stays_tac. Qed.

Lemma stays_after_create_cert g e name body code :
  stays g e (cert_files name g e) (after_create_cert name body code).
Proof.
  unfold after_create_cert. stays_tac.
  apply stays_download_cert. left. reflexivity.
Qed.

Lemma stays_create_and_download_debug_cert g e name existing :
  stays g e (cert_files name g e) (create_and_download_debug_cert name existing).
Proof.
  unfold create_and_download_debug_cert, create_new_debug_cert, submit_cert,
    create_cert.
  stays_tac.
  - apply stays_reuse_cert.
  - apply stays_delete_same_named.
  - apply stays_prepare_csr.
  - apply stays_after_create_cert.
Qed.

Lemma stays_connect_device g e (a : string -> Prop) ip :
  (forall p, written_by_tool e p -> a p) ->
  stays g e a (connect_device ip).
Proof.
  intros Ha. unfold connect_device. stays_tac. apply stays_check_output, Ha.
Qed.

Lemma stays_get_udid g e (a : string -> Prop) ip :
  (forall p, written_by_tool e p -> a p) ->
  stays g e a (get_udid ip).
Proof.
  intros Ha. unfold get_udid. stays_tac. apply stays_check_output, Ha.
Qed.

Lemma stays_find_device g e a r u f : stays g e a (find_device r u f).
Proof. unfold find_device. stays_tac. Qed.
#[export] Hint Resolve stays_find_device : stays.

Lemma stays_reconcile_device g e pn pkg :
  stays g e (profile_files pn pkg g e) reconcile_device.
Proof.
  assert (Ha : forall p, written_by_tool e p -> profile_files pn pkg g e p)
    by (intros p Hp; right; left; exact Hp).
  unfold reconcile_device, register_device, relist_device, create_device,
    eco_device_list.
  stays_tac.
  - apply stays_connect_device, Ha.
  - apply stays_get_udid, Ha.
Qed.

Lemma stays_after_create_profile g e pn pkg body code :
  stays g e (profile_files pn pkg g e)
    (after_create_profile (profile_file_name pn pkg) body code).
Proof.
  unfold after_create_profile. stays_tac.
  apply stays_download_file. left. reflexivity.
Qed.

Lemma stays_create_and_download_debug_profile g e pn pkg :
  stays g e (profile_files pn pkg g e)
    (create_and_download_debug_profile pn pkg).
Proof.
  unfold create_and_download_debug_profile, submit_profile, create_profile.
  stays_tac.
  - apply stays_reconcile_device.
  - apply stays_after_create_profile.
Qed.

(** X9.  A login, and the account check with the logins it runs, change
    no file but the config file and temporary files: whatever the
    browser sends and whatever the servers answer, every other file is
    afterwards what it was. *)
Theorem login_changes_only_config_and_temp :
  forall w p,
    p <> ECO_CONFIG_FILE (glob w) ->
    ~ temp_file (env w) p ->
    fs (snd (login_eco w)) p = fs w p /\
    fs (snd (check_or_login_huawei_eco w)) p = fs w p.
Proof.
  intros w p Hc Ht.
  assert (Hp : ~ login_files (glob w) (env w) p) by (intros [H | H]; tauto).
  split.
  - apply (stays_login_eco (glob w) (env w) w eq_refl eq_refl), Hp.
  - apply (stays_check_or_login (glob w) (env w) w eq_refl eq_refl), Hp.
Qed.

Lemma login_changes_only_config_and_temp_witness :
  fs (snd (login_eco busy_world)) bystander = Some (plain "remember the milk") /\
  fs (snd (check_or_login_huawei_eco busy_world)) bystander
  = Some (plain "remember the milk").
Proof.
  apply (login_changes_only_config_and_temp busy_world bystander).
  - vm_compute. discriminate.
  - intros (hist & prefix & H). vm_compute in H. discriminate H.
Defined.

(** X10.  The certificate step changes no file but the certificate file
    [CONFIG_DIR/<name>.cer], what [keytool] writes, the config file and
    temporary files, however it ends. *)
Theorem cert_step_changes_only_its_files :
  forall name existing w p,
    ~ cert_files name (glob w) (env w) p ->
    fs (snd (create_and_download_debug_cert name existing w)) p = fs w p.
Proof.
  intros name existing w p Hp.
  apply (stays_create_and_download_debug_cert (glob w) (env w) name existing
           w eq_refl eq_refl), Hp.
Qed.

Lemma cert_step_changes_only_its_files_witness :
  fs (snd (create_and_download_debug_cert CERT_NAME (JStr "old") busy_world))
     bystander
  = Some (plain "remember the milk").
Proof.
  apply (cert_step_changes_only_its_files CERT_NAME (JStr "old") busy_world
           bystander).
  intros [H | [(hist & output & wrote & H & Hin) | [H | (hist & prefix & H)]]].
  - vm_compute in H. discriminate H.
  - vm_compute in H. inversion H; subst. simpl in Hin.
    destruct Hin as [Hin | []]. discriminate Hin.
  - vm_compute in H. discriminate H.
  - vm_compute in H. discriminate H.
Defined.

(** X11.  The profile step changes no file but the profile file
    [CONFIG_DIR/<profile>_<package with _ for .>.p7b], what [hdc]
    writes, the config file and temporary files, however it ends. *)
Theorem profile_step_changes_only_its_files :
  forall profile_name package_name w p,
    ~ profile_files profile_name package_name (glob w) (env w) p ->
    fs (snd (create_and_download_debug_profile profile_name package_name w)) p
    = fs w p.
Proof.
  intros pn pkg w p Hp.
  apply (stays_create_and_download_debug_profile (glob w) (env w) pn pkg
           w eq_refl eq_refl), Hp.
Qed.

Lemma profile_step_changes_only_its_files_witness :
  fs (snd (create_and_download_debug_profile PROFILE_NAME "com.example.app"
             busy_world))
     bystander
  = Some (plain "remember the milk").
Proof.
  apply (profile_step_changes_only_its_files PROFILE_NAME "com.example.app"
           busy_world bystander).
  intros [H | [(hist & output & wrote & H & Hin) | [H | (hist & prefix & H)]]].
  - vm_compute in H. discriminate H.
  - vm_compute in H. inversion H; subst. simpl in Hin.
    destruct Hin as [Hin | []]. discriminate Hin.
  - vm_compute in H. discriminate H.
  - vm_compute in H. discriminate H.
Defined.

(** ** The login: the handoff file and the session *)

Lemma stays_update_config_only g e kwargs :
  stays g e (eq (ECO_CONFIG_FILE g)) (update_config kwargs).
Proof. unfold update_config, write_eco_config, dump_ops. stays_tac. Qed.

(** [update_config] returns, or raises before it has written. *)
Lemma update_config_outcome kwargs w o w' :
  update_config kwargs w = (o, w') ->
  o = Done tt \/ (o = Raise /\ fs w' = fs w).
Proof.
  unfold update_config. intros H.
  destruct (read_eco_config_spec w) as (w0 & Hr & Hfs & _).
  rewrite (bind_done _ Hr) in H.
  destruct (set_items kwargs (config_of w)) as [c|].
  - left. simpl in H. unfold bind at 1 in H. simpl in H.
    unfold write_eco_config, bind, get_globals, is_locked, error_print, emit,
      dumps, do_ops, set_fs in H.
    simpl in H. destruct (locked w0 (ECO_CONFIG_FILE (glob w0)));
      inversion H; reflexivity.
  - right. simpl in H. unfold bind, raise in H. simpl in H.
    inversion H; subst. split; [reflexivity | exact Hfs].
Qed.

(** X12.  Once [login_eco] has found the handoff file it removes it,
    however the login then ends: with a payload that is no JSON, with a
    payload that lacks the token or the user, with a config that cannot
    be written, or with success, the file is gone afterwards. *)
Theorem login_collect_removes_handoff :
  forall token_file log_path w t,
    fs w token_file = Some t ->
    token_file <> ECO_CONFIG_FILE (glob w) ->
    fs (snd (login_collect token_file log_path w)) token_file = None.
Proof.
  intros tf lp w t Hfs Hne. unfold login_collect.
  unfold bind at 1, read_file at 1. rewrite Hfs.
  destruct (parsed t) as [tokens|].
  - unfold bind at 1, do_ops at 1, set_fs at 1.
    set (w1 := World (apply_ops [OpRemove tf] (fs w)) (locked w) (glob w)
                     (env w) (trace w)).
    match goal with
    | |- fs (snd (?k w1)) tf = None =>
        assert (Hk : stays (glob w) (env w) (eq (ECO_CONFIG_FILE (glob w))) k)
    end.
    { stays_tac. apply stays_update_config_only. }
    destruct (Hk w1 eq_refl eq_refl) as (_ & _ & Hframe).
    rewrite Hframe by (intros Heq; apply Hne; symmetry; exact Heq).
    unfold w1. simpl. unfold upd. rewrite String.eqb_refl. reflexivity.
  - unfold bind, error_print, emit, do_ops, set_fs, sys_exit. simpl.
    unfold upd. rewrite String.eqb_refl. reflexivity.
Qed.

Lemma login_collect_removes_handoff_witness :
  fs (snd (login_collect "/tmp/eco_token_" "/tmp/log"
             (handoff_world incomplete_payload (JObj []))))
     "/tmp/eco_token_" = None /\
  fst (login_collect "/tmp/eco_token_" "/tmp/log"
         (handoff_world incomplete_payload (JObj []))) = Exit.
Proof.
  split.
  - apply (login_collect_removes_handoff "/tmp/eco_token_" "/tmp/log"
             (handoff_world incomplete_payload (JObj []))
             (json_text incomplete_payload)).
    + reflexivity.
    + vm_compute. discriminate.
  - reflexivity.
Defined.

(** X13.  [login_eco] stores a session only from a complete payload: if
    the config file is not what it was after the handoff has been
    collected, the login has returned, and the handoff file held a JSON
    document whose ["accessToken"] and ["userId"] are both non-empty. *)
Theorem login_collect_stores_only_complete_session :
  forall token_file log_path w o w',
    login_collect token_file log_path w = (o, w') ->
    token_file <> ECO_CONFIG_FILE (glob w) ->
    fs w' (ECO_CONFIG_FILE (glob w)) <> fs w (ECO_CONFIG_FILE (glob w)) ->
    o = Done tt /\
    exists t tokens access_token user_id,
      fs w token_file = Some t /\ parsed t = Some tokens /\
      py_get tokens "accessToken" (JStr "") = Some access_token /\
      py_get tokens "userId" (JStr "") = Some user_id /\
      py_truthy access_token = true /\ py_truthy user_id = true.
Proof.
  intros tf lp w o w' H Hne Hch. unfold login_collect in H.
  unfold bind at 1, read_file at 1 in H.
  assert (Hrm : apply_ops [OpRemove tf] (fs w) (ECO_CONFIG_FILE (glob w))
                = fs w (ECO_CONFIG_FILE (glob w))).
  { simpl. unfold upd.
    destruct (String.eqb_spec (ECO_CONFIG_FILE (glob w)) tf) as [Heq|_];
      [exfalso; apply Hne; symmetry; exact Heq | reflexivity]. }
  destruct (fs w tf) as [t|] eqn:Hfs.
  2: { unfold bind, error_print, emit, sys_exit in H. simpl in H.
       inversion H; subst. exfalso. apply Hch. reflexivity. }
  destruct (parsed t) as [tokens|] eqn:Hparsed.
  2: { unfold bind, error_print, emit, do_ops, set_fs, sys_exit in H.
       simpl in H. inversion H; subst. exfalso. apply Hch.
       cbn [fs]. exact Hrm. }
  unfold bind at 1, do_ops at 1, set_fs at 1 in H.
  set (w1 := World (apply_ops [OpRemove tf] (fs w)) (locked w) (glob w)
                   (env w) (trace w)) in H.
  assert (Hstop : forall (oc : outcome unit),
             (oc, w1) = (o, w') -> False).
  { intros oc E. inversion E; subst. apply Hch. exact Hrm. }
  destruct (py_get tokens "accessToken" (JStr "")) as [a|] eqn:Ea;
    [|exfalso; exact (Hstop _ H)].
  unfold bind at 1, must at 1, ret at 1 in H.
  destruct (py_get tokens "userId" (JStr "")) as [u|] eqn:Eu;
    [|exfalso; exact (Hstop _ H)].
  unfold bind at 1, must at 1, ret at 1 in H.
  destruct (py_get tokens "nickName" (JStr "")) as [n|] eqn:En;
    [|exfalso; exact (Hstop _ H)].
  unfold bind at 1, must at 1, ret at 1 in H.
  destruct (py_truthy a) eqn:Ta; destruct (py_truthy u) eqn:Tu; cbn [negb orb] in H;
    try (unfold bind, error_print, emit, sys_exit in H; simpl in H;
         inversion H; subst; exfalso; apply Hch; exact Hrm).
  destruct (update_config_outcome _ _ _ _ H) as [-> | [-> Hsame]].
  - split; [reflexivity|]. exists t, tokens, a, u. repeat split; assumption.
  - exfalso. apply Hch. rewrite Hsame. exact Hrm.
Qed.

Lemma login_collect_stores_only_complete_session_witness :
  fst (login_collect "/tmp/eco_token_" "/tmp/log"
         (handoff_world complete_payload (JObj []))) = Done tt.
Proof.
  apply (login_collect_stores_only_complete_session "/tmp/eco_token_" "/tmp/log"
           (handoff_world complete_payload (JObj []))
           (fst (login_collect "/tmp/eco_token_" "/tmp/log"
                   (handoff_world complete_payload (JObj []))))
           (snd (login_collect "/tmp/eco_token_" "/tmp/log"
                   (handoff_world complete_payload (JObj []))))).
  - vm_compute. reflexivity.
  - vm_compute. discriminate.
  - vm_compute. discriminate.
Defined.

(** ** What a step sends, and how often *)

Lemma at_most_none p q {A} (m : M A) :
  (forall e, p e = true -> q e = false) ->
  only p m -> at_most q 0 m.
Proof.
  intros Hex Hm w. destruct (Hm w) as (_ & _ & _ & evs & Ht & Hp).
  exists evs. split; [exact Ht|].
  rewrite (count_none p q evs Hex Hp). lia.
Qed.

Lemma at_most_le q a b {A} (m : M A) :
  (a <= b)%nat -> at_most q a m -> at_most q b m.
Proof.
  intros Hab Hm w. destruct (Hm w) as (evs & Ht & Hc).
  exists evs. split; [exact Ht | lia].
Qed.

Lemma at_most_bind q a b {A B} (m : M A) (f : A -> M B) :
  at_most q a m -> (forall x, at_most q b (f x)) ->
  at_most q (a + b) (bind m f).
Proof.
  intros Hm Hf w. destruct (Hm w) as (evs & Ht & Hc). unfold bind.
  destruct (m w) as [[x| | |] w1]; simpl in Ht;
    try (exists evs; split; [exact Ht | lia]).
  destruct (Hf x w1) as (evs2 & Ht2 & Hc2).
  exists (evs ++ evs2). split.
  - rewrite Ht2, Ht, app_assoc. reflexivity.
  - rewrite count_app. lia.
Qed.

Lemma at_most_bind_l q n {A B} (m : M A) (f : A -> M B) :
  at_most q 0 m -> (forall x, at_most q n (f x)) -> at_most q n (bind m f).
Proof. intros Hm Hf. apply (at_most_bind q 0 n); assumption. Qed.

Lemma at_most_bind_r q n {A B} (m : M A) (f : A -> M B) :
  at_most q n m -> (forall x, at_most q 0 (f x)) -> at_most q n (bind m f).
Proof.
  intros Hm Hf. apply (at_most_le q (n + 0)); [lia|].
  apply at_most_bind; assumption.
Qed.

Lemma at_most_ask q {A} e (o : oracle -> list event -> A) : at_most q 1 (ask e o).
Proof.
  intros w. exists [e]. split; [reflexivity|].
  unfold count. simpl. destruct (q e); simpl; lia.
Qed.

Lemma at_most_emit q e : at_most q 1 (emit e).
Proof.
  intros w. exists [e]. split; [reflexivity|].
  unfold count. simpl. destruct (q e); simpl; lia.
Qed.

Lemma at_most_since q n {A} (m : M A) w :
  at_most q n m -> (count q (since w (snd (m w))) <= n)%nat.
Proof.
  intros Hm. destruct (Hm w) as (evs & Ht & Hc).
  rewrite (since_app _ _ _ Ht). exact Hc.
Qed.

(** A step that may do anything but [q]. *)
Ltac am_zero Hex :=
  solve [ eapply at_most_le; [ apply Nat.le_0_l | ];
          apply (at_most_none _ _ _ Hex); only_tac ].

Ltac am_step Hex :=
  match goal with
  | |- at_most _ _ _ => am_zero Hex
  | |- at_most _ _ (bind _ _) =>
      first [ apply at_most_bind_l; [ am_zero Hex | intros ]
            | apply at_most_bind_r; [ | intros; am_zero Hex ] ]
  | |- at_most _ _ (match ?x with _ => _ end) => destruct x
  end.

Ltac am_tac Hex := cbv zeta; repeat (am_step Hex; cbv zeta).

Lemma no_login_in e : fp all_urls true false e = true -> is_login e = false.
Proof. destruct e; simpl; congruence. Qed.

Lemma at_most_login_eco : at_most is_login 1 login_eco.
Proof.
  intros w. destruct (login_eco w) as [o w'] eqn:E.
  destruct (login_eco_trace _ _ _ E) as (evs & Ht & Hp).
  exists (ELogin :: evs). split; [exact Ht|].
  change (ELogin :: evs) with ([ELogin] ++ evs). rewrite count_app.
  rewrite (count_none (fp [] false false) is_login evs); [simpl; lia | | exact Hp].
  intros e. destruct e; simpl; congruence.
Qed.

Lemma at_most_http_request q m url data :
  (forall e, fp [] false false e = true -> q e = false) ->
  at_most q 1 (http_request m url data).
Proof.
  intros Hex. unfold http_request. am_tac Hex. apply at_most_ask.
Qed.

Lemma at_most_cert_list_step : at_most is_login 1 cert_list_step.
Proof.
  unfold cert_list_step. am_tac no_login_in. apply at_most_login_eco.
Qed.

Lemma at_most_device_list_step : at_most is_login 1 device_list_step.
Proof.
  unfold device_list_step. am_tac no_login_in. apply at_most_login_eco.
Qed.

Lemma at_most_team_list_step : at_most is_login 1 team_list_step.
Proof.
  unfold team_list_step. am_tac no_login_in. apply at_most_login_eco.
Qed.

Lemma no_call_in urls urls' f l e :
  forallb (fun u => negb (mem u urls')) urls = true ->
  fp urls f l e = true -> is_call_in urls' e = false.
Proof. apply fp_excludes. Qed.

(** X14.  Each step talks only to its own endpoints: the certificate
    step to the certificate listing, deletion, creation and the download
    link; the profile step to the device listing, the device
    registration and the profile creation; the account check to the team
    listing, and it downloads nothing.  A login calls none of them and
    downloads nothing. *)
Theorem steps_call_only_their_endpoints :
  (forall name existing w,
      forallb (fp cert_endpoints true true)
        (since w (snd (create_and_download_debug_cert name existing w))) = true) /\
  (forall profile_name package_name w,
      forallb (fp profile_endpoints true true)
        (since w (snd (create_and_download_debug_profile
                         profile_name package_name w))) = true) /\
  (forall w,
      forallb (fp account_endpoints false true)
        (since w (snd (check_or_login_huawei_eco w))) = true) /\
  (forall w,
      forallb (fp [] false true) (since w (snd (login_eco w))) = true).
Proof.
  assert (Hsince : forall {A} p (m : M A) w,
             only p m -> forallb p (since w (snd (m w))) = true).
  { intros A p m w Hm. destruct (Hm w) as (_ & _ & _ & evs & Ht & Hp).
    rewrite (since_app _ _ _ Ht). exact Hp. }
  repeat split; intros; apply Hsince.
  - unfold create_and_download_debug_cert, create_new_debug_cert, submit_cert,
      create_cert, cert_endpoints.
    only_tac.
  - unfold create_and_download_debug_profile, submit_profile, create_profile,
      profile_endpoints.
    only_tac.
  - unfold check_or_login_huawei_eco, account_endpoints. only_tac.
  - apply only_login_eco.
Qed.

Lemma no_call_quiet urls e : fp [] false false e = true -> is_call_in urls e = false.
Proof. destruct e; simpl; congruence. Qed.

(** X15.  One run of a step logs in at most once and creates at most
    one resource of a kind: the certificate step sends at most one
    deletion and one certificate request, the profile step at most one
    device registration and one profile request.  The account check logs
    in at most twice and asks for the team list at most three times. *)
Theorem steps_are_bounded :
  (forall name existing w,
      let evs := since w (snd (create_and_download_debug_cert name existing w)) in
      (count is_login evs <= 1)%nat /\
      (count (is_call_in [cert_delete_url]) evs <= 1)%nat /\
      (count (is_call_in [cert_add_url]) evs <= 1)%nat) /\
  (forall profile_name package_name w,
      let evs := since w (snd (create_and_download_debug_profile
                                 profile_name package_name w)) in
      (count is_login evs <= 1)%nat /\
      (count (is_call_in [device_add_url]) evs <= 1)%nat /\
      (count (is_call_in [provision_add_url]) evs <= 1)%nat) /\
  (forall w,
      let evs := since w (snd (check_or_login_huawei_eco w)) in
      (count is_login evs <= 2)%nat /\
      (count (is_call_in [user_team_list_url]) evs <= 3)%nat /\
      count is_creation_call evs = 0%nat).
Proof.
  split; [|split]; intros; cbv zeta.
  - split; [|split]; apply at_most_since.
    + unfold create_and_download_debug_cert.
      apply at_most_bind_r; [apply at_most_cert_list_step|].
      intros [b c]. unfold create_new_debug_cert, submit_cert, create_cert.
      am_zero no_login_in.
    + pose proof (fun e => no_call_in [cert_list_url; cert_add_url; reapply_url]
                             [cert_delete_url] true true e eq_refl) as Hex.
      unfold create_and_download_debug_cert, create_new_debug_cert, submit_cert,
        create_cert.
      am_tac Hex.
      unfold delete_same_named, delete_certs. am_tac Hex.
      apply at_most_http_request, no_call_quiet.
    + pose proof (fun e => no_call_in [cert_list_url; cert_delete_url; reapply_url]
                             [cert_add_url] true true e eq_refl) as Hex.
      unfold create_and_download_debug_cert, create_new_debug_cert, submit_cert,
        create_cert.
      am_tac Hex.
      apply at_most_http_request, no_call_quiet.
  - split; [|split]; apply at_most_since.
    + unfold create_and_download_debug_profile, reconcile_device,
        register_device, relist_device, create_device, eco_device_list,
        submit_profile, create_profile.
      am_tac no_login_in.
      apply at_most_device_list_step.
    + pose proof (fun e => no_call_in [device_list_url; provision_add_url]
                             [device_add_url] true true e eq_refl) as Hex.
      unfold create_and_download_debug_profile, reconcile_device,
        register_device, relist_device, create_device, eco_device_list,
        submit_profile, create_profile.
      am_tac Hex.
      apply at_most_http_request, no_call_quiet.
    + pose proof (fun e => no_call_in [device_list_url; device_add_url]
                             [provision_add_url] true true e eq_refl) as Hex.
      unfold create_and_download_debug_profile, submit_profile, create_profile.
      am_tac Hex.
      apply at_most_http_request, no_call_quiet.
  - split; [|split].
    + apply at_most_since. unfold check_or_login_huawei_eco.
      apply (at_most_bind is_login 1 1); [apply at_most_team_list_step|].
      intros [b c]. am_tac no_login_in. apply at_most_login_eco.
    + apply at_most_since. unfold check_or_login_huawei_eco.
      pose proof (no_call_quiet [user_team_list_url]) as Hq.
      pose proof (fun e => no_call_in [] [user_team_list_url] true true e eq_refl)
        as Hex.
      apply (at_most_bind _ 2 1).
      * unfold team_list_step.
        apply (at_most_bind _ 1 1); [apply at_most_http_request, Hq|].
        intros [b c]. am_tac Hex. apply at_most_http_request, Hq.
      * intros [b c]. am_tac Hex. apply at_most_http_request, Hq.
    + assert (H0 : at_most is_creation_call 0 check_or_login_huawei_eco).
      { apply (at_most_none (fp [user_team_list_url] false true)).
        - intros e. apply fp_excludes. reflexivity.
        - unfold check_or_login_huawei_eco. only_tac. }
      pose proof (at_most_since _ _ _ w H0). unfold evs. lia.
Qed.

(** ** Listing steps that are not asked to log in *)

Section ListWithoutRelogin.
Variable url : string.
Variable call : M (option text * Z).
Variable still_failing : list frag.
Variable failed : option text -> M (option text * Z).

Hypothesis call_trace :
  forall w o w',
    call w = (o, w') ->
    exists evs,
      trace w' = trace w ++ evs /\
      count is_login evs = 0%nat /\
      count (is_call_in [url]) evs
      = match o with Done _ => 1%nat | _ => 0%nat end.

Hypothesis failed_exits :
  forall b w,
    exists first rest,
      failed b w
      = (Exit, World (fs w) (locked w) (glob w) (env w)
                     (trace w ++ EError first :: map EError rest)).

Lemma list_with_relogin_fails_fast :
  fails_fast url call (list_with_relogin call still_failing failed).
Proof.
  intros w b c w1 Hcall H401.
  unfold list_with_relogin. rewrite (bind_done _ Hcall).
  destruct (Z.eqb_spec c 401) as [|_]; [contradiction|].
  destruct (Z.eqb_spec c 200) as [E200|N200]; simpl.
  - split; [intros _; reflexivity | intros Hc; contradiction].
  - split; [intros Hc; contradiction | intros _].
    destruct (failed_exits b w1) as (first & rest & Hf).
    destruct (call_trace _ _ _ Hcall) as (evs & Ht & Hl & Hc).
    eexists. split; [exact Hf|]. cbn [fs trace].
    assert (Herr : forall q,
               (forall m, q (EError m) = false) ->
               count q (EError first :: map EError rest) = 0%nat).
    { intros q Hq. unfold count. simpl. rewrite Hq. clear Hf.
      induction rest as [|r l IH]; simpl; [reflexivity|].
      rewrite Hq. exact IH. }
    split; [reflexivity|]. split; [|split].
    + rewrite (since_app w _ (evs ++ EError first :: map EError rest))
        by (cbn [trace]; rewrite Ht, app_assoc; reflexivity).
      rewrite count_app, Hl, Herr; reflexivity.
    + rewrite (since_app w _ (evs ++ EError first :: map EError rest))
        by (cbn [trace]; rewrite Ht, app_assoc; reflexivity).
      rewrite count_app, Hc, Herr; reflexivity.
    + rewrite (since_app w1 _ (EError first :: map EError rest)) by reflexivity.
      unfold count. simpl. lia.
Qed.
End ListWithoutRelogin.

(** X16.  A listing step logs in only on a 401.  Any other answer but a
    200 (a 403, a 500, or status 0 for a request that failed) ends the
    process at once: one call, no login, an error message, nothing
    written.  A 200 is returned as it came.  This holds for the listing
    of certificates, of devices and of teams alike. *)
Theorem listing_steps_fail_fast :
  fails_fast cert_list_url get_cert_list cert_list_step /\
  fails_fast device_list_url eco_device_list device_list_step /\
  fails_fast user_team_list_url (http_request GET user_team_list_url None)
             team_list_step.
Proof.
  split; [|split]; intros w b c w1 Hcall H401.
  - rewrite cert_list_step_shape.
    apply (list_with_relogin_fails_fast cert_list_url); try assumption.
    + intros v o v'. apply http_request_trace.
    + intros body v. unfold bind, error_print, emit, sys_exit. simpl.
      rewrite <- app_assoc. eexists; exists [[B body]]. reflexivity.
  - rewrite device_list_step_shape.
    apply (list_with_relogin_fails_fast device_list_url); try assumption.
    + intros v o v'. apply http_request_trace.
    + intros body v. unfold bind, error_print, emit, sys_exit. simpl.
      eexists; exists []. reflexivity.
  - rewrite team_list_step_shape.
    apply (list_with_relogin_fails_fast user_team_list_url); try assumption.
    + intros v o v'. apply http_request_trace.
    + intros body v. unfold bind, error_print, emit, sys_exit. simpl.
      eexists; exists []. reflexivity.
Qed.

Lemma listing_steps_fail_fast_witness :
  exists w',
    cert_list_step (with_config silent (JObj [])) = (Exit, w') /\
    count is_login (since (with_config silent (JObj [])) w') = 0%nat /\
    count (is_call_in [cert_list_url]) (since (with_config silent (JObj [])) w')
    = 1%nat.
Proof.
  destruct (proj1 listing_steps_fail_fast (with_config silent (JObj []))
              None 0 (snd (get_cert_list (with_config silent (JObj [])))))
    as [_ H].
  - vm_compute. reflexivity.
  - discriminate.
  - destruct H as (w' & Hs & _ & Hl & Hc & _); [discriminate|].
    exists w'. repeat split; assumption.
Defined.

(** ** What a step that returns has left behind *)

Section Ensures.
Variable g : globals.
Variable lk : string -> bool.

Lemma ensures_bind {A B} p (Q : B -> world -> Prop) (m : M A) (f : A -> M B) :
  only p m -> (forall a, ensures g lk Q (f a)) -> ensures g lk Q (bind m f).
Proof.
  intros Hm Hf w b w' Hg Hl H. apply bind_inv in H.
  destruct H as (a & w1 & H1 & H).
  destruct (Hm w) as (_ & Hl1 & Hg1 & _). rewrite H1 in Hl1, Hg1. simpl in *.
  apply (Hf a w1 b w'); congruence.
Qed.

Lemma ensures_with_globals {B} (Q : B -> world -> Prop) (f : globals -> M B) :
  ensures g lk Q (f g) -> ensures g lk Q (bind get_globals f).
Proof.
  intros Hf w b w' Hg Hl H. unfold bind, get_globals in H. rewrite Hg in H.
  exact (Hf w b w' Hg Hl H).
Qed.

Lemma ensures_sys_exit {A} (Q : A -> world -> Prop) : ensures g lk Q sys_exit.
Proof. intros w a w' _ _ H. discriminate H. Qed.

Lemma ensures_raise {A} (Q : A -> world -> Prop) : ensures g lk Q raise.
Proof. intros w a w' _ _ H. discriminate H. Qed.
End Ensures.

Ltac ensures_step :=
  match goal with
  | |- ensures _ _ _ (bind (download_cert _ _) _) => fail 1
  | |- ensures _ _ _ (bind (download_file _ _) _) => fail 1
  | |- ensures _ _ _ sys_exit => apply ensures_sys_exit
  | |- ensures _ _ _ raise => apply ensures_raise
  | |- ensures _ _ _ (bind get_globals _) => apply ensures_with_globals
  | |- ensures _ _ _ (bind _ _) =>
      apply (ensures_bind _ _ anything); [ solve [only_tac] | intros ]
  | |- ensures _ _ _ (match ?x with _ => _ end) => destruct x
  end.

Ltac ensures_tac := cbv zeta; repeat (ensures_step; cbv zeta).

Lemma download_file_done url name w p w' :
  download_file url name w = (Done p, w') ->
  p = os_path_join (CONFIG_DIR (glob w)) [name] /\
  fs w' p <> None /\ glob w' = glob w /\ locked w' = locked w.
Proof.
  unfold download_file. unfold bind at 1, get_globals at 1. cbv zeta.
  unfold bind at 1, ask at 1.
  destruct (o_fetch (env w) (trace w ++ [EFetch url])) as [content| |partial].
  - unfold bind at 1, is_locked at 1. cbn [locked].
    destruct (locked w (os_path_join (CONFIG_DIR (glob w)) [name])).
    + intros H. discriminate H.
    + unfold bind, do_ops, set_fs, ret. simpl. intros H. inversion H; subst.
      simpl. unfold upd. rewrite String.eqb_refl.
      repeat split. discriminate.
  - unfold bind, error_print, emit, sys_exit. simpl. intros H. discriminate H.
  - unfold bind at 1, is_locked at 1. cbn [locked].
    destruct (locked w (os_path_join (CONFIG_DIR (glob w)) [name])).
    + intros H. discriminate H.
    + unfold bind, do_ops, set_fs, error_print, emit, sys_exit. simpl.
      intros H. discriminate H.
Qed.

Lemma download_cert_done obj name w p w' :
  download_cert obj name w = (Done p, w') ->
  p = os_path_join (CONFIG_DIR (glob w)) [name] /\
  fs w' p <> None /\ glob w' = glob w /\ locked w' = locked w.
Proof.
  intros H.
  assert (He : ensures (glob w) (locked w)
                 (fun p w' =>
                    p = os_path_join (CONFIG_DIR (glob w)) [name] /\
                    fs w' p <> None /\ glob w' = glob w /\ locked w' = locked w)
                 (download_cert obj name)).
  { unfold download_cert.
    apply (ensures_bind _ _ anything); [ solve [only_tac] | intros ].
    ensures_tac.
    intros v q v' Hg Hl Hd. apply download_file_done in Hd.
    destruct Hd as (-> & Hf & Hg' & Hl'). rewrite Hg in *.
    repeat split; congruence. }
  exact (He w p w' eq_refl eq_refl H).
Qed.

Lemma update_config_keeps p kwargs w o w' :
  update_config kwargs w = (o, w') -> fs w p <> None -> fs w' p <> None.
Proof.
  unfold update_config. intros H Hp.
  destruct (read_eco_config_spec w) as (w0 & Hr & Hfs & _).
  rewrite (bind_done _ Hr) in H.
  destruct (set_items kwargs (config_of w)) as [c|].
  - simpl in H. unfold bind at 1 in H. simpl in H.
    unfold write_eco_config, bind, get_globals, is_locked, error_print, emit,
      dumps, do_ops, set_fs in H.
    simpl in H. destruct (locked w0 (ECO_CONFIG_FILE (glob w0)));
      inversion H; subst; simpl.
    + rewrite Hfs. exact Hp.
    + unfold upd. destruct (String.eqb p (ECO_CONFIG_FILE (glob w0)));
        [discriminate | rewrite Hfs; exact Hp].
  - simpl in H. unfold bind, raise in H. simpl in H.
    inversion H; subst. rewrite Hfs. exact Hp.
Qed.

Lemma update_config_records kwargs w w' :
  update_config kwargs w = (Done tt, w') ->
  kwargs <> [] -> NoDup (map fst kwargs) ->
  glob w' = glob w /\ records (glob w) (locked w) kwargs w'.
Proof.
  intros H Hne Hnd.
  split; [exact (only_glob _ _ _ _ _ (only_update_config kwargs) H)|].
  intros Hl.
  destruct kwargs as [|[k0 v0] r]; [contradiction|].
  destruct (update_config_done _ _ _ _ _ H) as (d & Hd).
  destruct (update_config_spec w d ((k0, v0) :: r) Hd Hl)
    as (w1 & Hu & Hc & _).
  rewrite Hu in H. inversion H; subst w1.
  exists (merge ((k0, v0) :: r) d). split; [exact Hc|].
  intros k v Hin. apply assoc_merge_in; assumption.
Qed.

(** The end of both branches that download a certificate. *)
Lemma fresh_cert_recorded g lk name (is_new : bool) cid oid :
  ensures g lk (fresh_cert g lk name)
    (cert_file_path <- download_cert oid (name ++ ".cer")%string ;;
     update_config
       [("debug_cert_new_cert", JStr (if is_new then "true" else "false"));
        ("debug_cert_id", cid);
        ("debug_cert_name", JStr (os_path_basename cert_file_path));
        ("debug_cert_path", JStr cert_file_path)] ;;
     ret (CertInfo is_new cid (os_path_basename cert_file_path) cert_file_path)).
Proof.
  intros w info w' Hg Hl H.
  apply bind_inv in H. destruct H as (p & w1 & Hd & H).
  apply bind_inv in H. destruct H as ([] & w2 & Hu & H).
  apply ret_inv in H. destruct H as [-> ->].
  apply download_cert_done in Hd. destruct Hd as (Hp & Hf & Hg1 & Hl1).
  split; [|split].
  - simpl. rewrite Hp, Hg. reflexivity.
  - simpl. exact (update_config_keeps _ _ _ _ _ Hu Hf).
  - apply update_config_records in Hu.
    + destruct Hu as [_ Hrec]. rewrite Hg1, Hl1, Hg, Hl in Hrec. exact Hrec.
    + discriminate.
    + simpl. repeat constructor; simpl; intuition discriminate.
Qed.

Lemma after_create_cert_fresh g lk name body code :
  ensures g lk (fun info w' => fresh_cert g lk name info w' /\ new_cert info = true)
    (after_create_cert name body code).
Proof.
  unfold after_create_cert. ensures_tac.
  intros w info w' Hg Hl H. split.
  - exact (fresh_cert_recorded g lk name true _ _ w info w' Hg Hl H).
  - apply bind_inv in H. destruct H as (p & w1 & _ & H).
    apply bind_inv in H. destruct H as ([] & w2 & _ & H).
    apply ret_inv in H. destruct H as [-> _]. reflexivity.
Qed.

Lemma create_new_debug_cert_fresh g lk name dc :
  ensures g lk (fun info w' => fresh_cert g lk name info w' /\ new_cert info = true)
    (create_new_debug_cert name dc).
Proof.
  unfold create_new_debug_cert, submit_cert, create_cert. ensures_tac.
  apply after_create_cert_fresh.
Qed.

(** The two ways [reuse_cert] returns a certificate. *)
Lemma reuse_cert_some name existing same w info w' :
  reuse_cert name existing same w = (Done (Some info), w') ->
  new_cert info = false /\
  ((w' = w /\ cert_path info = local_cert_path (glob w) name /\
    fs w (cert_path info) <> None /\ py_eq (cert_id info) existing = true) \/
   ((exists evs, trace w' = trace w ++ evs /\ (1 <= count is_fetch evs)%nat) /\
    fresh_cert (glob w) (locked w) name info w')).
Proof.
  unfold reuse_cert. intros H.
  destruct same as [|c0 rest].
  { apply ret_inv in H. destruct H as [H _]. discriminate H. }
  apply bind_inv in H. destruct H as (cid & wa & Ha & H).
  apply must_inv in Ha. destruct Ha as [Hcid ->].
  apply bind_inv in H. destruct H as (oid & wb & Hb & H).
  apply must_inv in Hb. destruct Hb as [Hoid ->].
  destruct (py_truthy cid && py_truthy oid).
  2: { apply ret_inv in H. destruct H as [H _]. discriminate H. }
  unfold bind at 1, get_globals at 1 in H. cbv zeta in H.
  unfold bind at 1, os_path_isfile at 1 in H.
  fold (local_cert_path (glob w) name) in H.
  assert (Htail : forall (k : M (option cert_info)),
             k = (cert_file_path <- download_cert oid (name ++ ".cer")%string ;;
                  update_config
                    [("debug_cert_new_cert", JStr "false");
                     ("debug_cert_id", cid);
                     ("debug_cert_name", JStr (os_path_basename cert_file_path));
                     ("debug_cert_path", JStr cert_file_path)] ;;
                  ret (Some (CertInfo false cid
                               (os_path_basename cert_file_path) cert_file_path))) ->
             k w = (Done (Some info), w') ->
             new_cert info = false /\
             (exists evs, trace w' = trace w ++ evs /\ (1 <= count is_fetch evs)%nat) /\
             fresh_cert (glob w) (locked w) name info w').
  { intros k -> Hk.
    assert (Hf : fetches
              (cert_file_path <- download_cert oid (name ++ ".cer")%string ;;
               update_config
                 [("debug_cert_new_cert", JStr "false");
                  ("debug_cert_id", cid);
                  ("debug_cert_name", JStr (os_path_basename cert_file_path));
                  ("debug_cert_path", JStr cert_file_path)] ;;
               ret (Some (CertInfo false cid
                            (os_path_basename cert_file_path) cert_file_path))))
      by fetch_tac.
    pose proof (Hf _ _ _ Hk) as Hfetch.
    assert (Hk' :
              (cert_file_path <- download_cert oid (name ++ ".cer")%string ;;
               update_config
                 [("debug_cert_new_cert", JStr (if false then "true" else "false"));
                  ("debug_cert_id", cid);
                  ("debug_cert_name", JStr (os_path_basename cert_file_path));
                  ("debug_cert_path", JStr cert_file_path)] ;;
               ret (CertInfo false cid
                      (os_path_basename cert_file_path) cert_file_path)) w
              = (Done info, w')).
    { apply bind_inv in Hk. destruct Hk as (p & w1 & Hd & Hk).
      apply bind_inv in Hk. destruct Hk as ([] & w2 & Hu & Hk).
      apply ret_inv in Hk. destruct Hk as [Hi ->]. inversion Hi; subst info.
      rewrite (bind_done _ Hd). rewrite (bind_done _ Hu). reflexivity. }
    pose proof (fresh_cert_recorded (glob w) (locked w) name false cid oid
                  w info w' eq_refl eq_refl Hk') as Hfresh.
    split; [|split; assumption].
    apply bind_inv in Hk. destruct Hk as (p & w1 & Hd & Hk).
    apply bind_inv in Hk. destruct Hk as ([] & w2 & Hu & Hk).
    apply ret_inv in Hk. destruct Hk as [Hi _]. inversion Hi. reflexivity. }
  destruct (fs w (local_cert_path (glob w) name)) as [t|] eqn:Ef.
  - destruct (py_eq cid existing) eqn:Eeq; cbn [andb] in H.
    + apply ret_inv in H. destruct H as [Hi ->]. inversion Hi; subst info.
      split; [reflexivity|]. left. simpl. repeat split; try assumption.
      rewrite Ef. discriminate.
    + destruct (Htail _ eq_refl H) as (Hn & Hx). split; [exact Hn | right; exact Hx].
  - cbn [andb] in H.
    destruct (Htail _ eq_refl H) as (Hn & Hx). split; [exact Hn | right; exact Hx].
Qed.

Lemma records_get g lk kw w' k v :
  records g lk kw w' -> lk (ECO_CONFIG_FILE g) = false -> In (k, v) kw ->
  fst (get_config_value k w') = Done v.
Proof.
  intros Hrec Hl Hin. destruct (Hrec Hl) as (d & Hc & Hd).
  rewrite (get_config_value_spec w' d k Hc), (Hd k v Hin). reflexivity.
Qed.

(** X17.  A certificate the certificate step returns is on disk, at
    [CONFIG_DIR/<name>.cer], when the step returns, whether it was
    cached, downloaded again or newly created.  If it was downloaded and
    the config file can be written, the config then names that very
    certificate: its identifier, its file name, its path, and whether
    it is new. *)
Theorem returned_cert_is_on_disk :
  forall name existing w info w',
    create_and_download_debug_cert name existing w = (Done info, w') ->
    cert_path info = local_cert_path (glob w) name /\
    fs w' (cert_path info) <> None /\
    ((1 <= count is_fetch (since w w'))%nat ->
     locked w (ECO_CONFIG_FILE (glob w)) = false ->
     forall k v,
       In (k, v) (cert_record info) ->
       fst (get_config_value k w') = Done v).
Proof.
  intros name existing w info w' H.
  destruct (create_and_download_debug_cert_done _ _ _ _ _ H)
    as (t & code & w1 & resp_json & dc & same & Hstep & _ & _ & _ & Hcase).
  destruct (only_cert_list_step w) as (_ & Hl1 & Hg1 & evs1 & Ht1 & Hp1).
  rewrite Hstep in Hl1, Hg1, Ht1. simpl in Hl1, Hg1, Ht1.
  assert (Hfresh : fresh_cert (glob w) (locked w) name info w' ->
            cert_path info = local_cert_path (glob w) name /\
            fs w' (cert_path info) <> None /\
            ((1 <= count is_fetch (since w w'))%nat ->
             locked w (ECO_CONFIG_FILE (glob w)) = false ->
             forall k v,
               In (k, v) (cert_record info) ->
               fst (get_config_value k w') = Done v)).
  { intros (Hpath & Hfile & Hrec). repeat split; try assumption.
    intros _ Hl k v Hin. exact (records_get _ _ _ _ _ _ Hrec Hl Hin). }
  destruct Hcase as [Hr | (w2 & Hr & Hnew)].
  - apply reuse_cert_some in Hr. destruct Hr as (_ & [Hc | [_ Hf]]).
    + destruct Hc as (-> & Hpath & Hfile & _).
      rewrite Hg1 in Hpath. repeat split; try assumption.
      intros Hfetch. exfalso.
      rewrite (since_app _ _ _ Ht1) in Hfetch.
      rewrite (count_none (fp [cert_list_url] false true) is_fetch evs1) in Hfetch;
        [lia | | exact Hp1].
      intros e. destruct e; simpl; congruence.
    + rewrite Hg1, Hl1 in Hf. exact (Hfresh Hf).
  - apply reuse_cert_done in Hr. destruct Hr as [[_ ->] | [Hr | Hr]].
    + apply Hfresh.
      destruct (create_new_debug_cert_fresh (glob w) (locked w) name dc
                  w1 info w' Hg1 Hl1 Hnew) as [Hf _].
      exact Hf.
    + destruct Hr as (c0 & rest & cid & _ & _ & Hi & _). discriminate Hi.
    + destruct Hr as (c0 & rest & cid & i & evs & _ & _ & Hi & _). discriminate Hi.
Qed.

Lemma returned_cert_is_on_disk_witness :
  fs (snd (create_and_download_debug_cert CERT_NAME (JStr "old") busy_world))
     dev_cert_file <> None /\
  fst (get_config_value "debug_cert_id"
         (snd (create_and_download_debug_cert CERT_NAME (JStr "old") busy_world)))
  = Done (JStr "A").
Proof.
  destruct (returned_cert_is_on_disk CERT_NAME (JStr "old") busy_world
              (CertInfo false (JStr "A") "xiaobai-debug.cer" dev_cert_file)
              (snd (create_and_download_debug_cert CERT_NAME (JStr "old")
                      busy_world)))
    as (Hp & Hf & Hc).
  - vm_compute. reflexivity.
  - split; [exact Hf|]. apply Hc.
    + vm_compute. apply le_n.
    + reflexivity.
    + simpl. right. left. reflexivity.
Defined.

(** The end of the branch that downloads a profile. *)
Lemma ready_profile_recorded g lk pn pkg url :
  ensures g lk (ready_profile g lk pn pkg)
    (downloaded_profile_path <- download_file url (profile_file_name pn pkg) ;;
     update_config
       [("debug_profile_name", JStr (profile_file_name pn pkg));
        ("debug_profile_path", JStr downloaded_profile_path)] ;;
     ret (ProfileInfo (profile_file_name pn pkg) downloaded_profile_path)).
Proof.
  intros w info w' Hg Hl H.
  apply bind_inv in H. destruct H as (p & w1 & Hd & H).
  apply bind_inv in H. destruct H as ([] & w2 & Hu & H).
  apply ret_inv in H. destruct H as [-> ->].
  apply download_file_done in Hd. destruct Hd as (Hp & Hf & Hg1 & Hl1).
  split; [|split; [|split]].
  - reflexivity.
  - simpl. rewrite Hp, Hg. reflexivity.
  - simpl. exact (update_config_keeps _ _ _ _ _ Hu Hf).
  - apply update_config_records in Hu.
    + destruct Hu as [_ Hrec]. rewrite Hg1, Hl1, Hg, Hl in Hrec. exact Hrec.
    + discriminate.
    + simpl. repeat constructor; simpl; intuition discriminate.
Qed.

(** X18.  A profile the profile step returns is on disk, at
    [CONFIG_DIR/<profile>_<package>.p7b], when the step returns, whether
    it was cached or created.  If the config file can be written, the
    config then names that file, in both cases. *)
Theorem returned_profile_is_on_disk :
  forall profile_name package_name w info w',
    create_and_download_debug_profile profile_name package_name w
    = (Done info, w') ->
    profile_name_of info = profile_file_name profile_name package_name /\
    profile_path_of info = local_profile_path (glob w) profile_name package_name /\
    fs w' (profile_path_of info) <> None /\
    (locked w (ECO_CONFIG_FILE (glob w)) = false ->
     fst (get_config_value "debug_profile_name" w')
     = Done (JStr (profile_name_of info)) /\
     fst (get_config_value "debug_profile_path" w')
     = Done (JStr (profile_path_of info))).
Proof.
  intros pn pkg w info w' H.
  assert (Hready : ready_profile (glob w) (locked w) pn pkg info w').
  { unfold create_and_download_debug_profile in H.
    unfold bind at 1, get_globals at 1 in H. cbv zeta in H.
    unfold bind at 1, os_path_isfile at 1 in H.
    fold (local_profile_path (glob w) pn pkg) in H.
    destruct (fs w (local_profile_path (glob w) pn pkg)) as [c|] eqn:Ef.
    - apply bind_inv in H. destruct H as ([] & w1 & Hu & H).
      apply ret_inv in H. destruct H as [-> ->].
      split; [reflexivity | split; [reflexivity | split]].
      + simpl. apply (update_config_keeps _ _ _ _ _ Hu). rewrite Ef. discriminate.
      + apply update_config_records in Hu.
        * destruct Hu as [_ Hrec]. exact Hrec.
        * discriminate.
        * simpl. repeat constructor; simpl; intuition discriminate.
    - assert (He : ensures (glob w) (locked w)
                     (ready_profile (glob w) (locked w) pn pkg)
                     (dev_id <- reconcile_device ;;
                      submit_profile pn pkg (profile_file_name pn pkg) dev_id)).
      { unfold submit_profile, create_profile, after_create_profile.
        ensures_tac. apply ready_profile_recorded. }
      exact (He w info w' eq_refl eq_refl H). }
  destruct Hready as (Hn & Hp & Hf & Hrec).
  split; [exact Hn | split; [exact Hp | split; [exact Hf | intros Hlk; split]]].
  - apply (records_get _ _ _ _ _ _ Hrec Hlk). simpl. left. reflexivity.
  - apply (records_get _ _ _ _ _ _ Hrec Hlk). simpl. right. left. reflexivity.
Qed.

Lemma returned_profile_is_on_disk_witness :
  fst (get_config_value "debug_profile_path"
         (snd (create_and_download_debug_profile PROFILE_NAME "com.example.app"
                 cached_world)))
  = Done (JStr (local_profile_path dev_globals PROFILE_NAME "com.example.app")).
Proof.
  destruct (returned_profile_is_on_disk PROFILE_NAME "com.example.app"
              cached_world
              (ProfileInfo (profile_file_name PROFILE_NAME "com.example.app")
                 (local_profile_path dev_globals PROFILE_NAME "com.example.app"))
              (snd (create_and_download_debug_profile PROFILE_NAME
                      "com.example.app" cached_world)))
    as (_ & _ & _ & Hc).
  - vm_compute. reflexivity.
  - destruct Hc as [_ Hc]; [reflexivity | exact Hc].
Defined.

(** ** The first listed certificate of the name, and files that are gone *)

(** With a first listed certificate of the name that has both
    identifiers, the certificate step is the reuse of that certificate:
    the cached file when it is there and the cached identifier is that of
    the first match, and its download otherwise. *)
Lemma cert_flow_first_match name existing w t code w1 resp_json dc c0 rest cid oid :
  cert_list_step w = (Done (Some t, code), w1) ->
  parsed t = Some resp_json ->
  debug_certs_of resp_json = Some dc ->
  same_name_certs_of name dc = Some (c0 :: rest) ->
  py_get c0 "id" JNull = Some cid -> py_truthy cid = true ->
  py_get c0 "certObjectId" JNull = Some oid -> py_truthy oid = true ->
  create_and_download_debug_cert name existing w
  = (if match fs w1 (local_cert_path (glob w) name) with
        | Some _ => true
        | None => false
        end && py_eq cid existing
     then ret (CertInfo false cid (name ++ ".cer")%string
                 (local_cert_path (glob w) name))
     else
       cert_file_path <- download_cert oid (name ++ ".cer")%string ;;
       update_config
         [("debug_cert_new_cert", JStr "false");
          ("debug_cert_id", cid);
          ("debug_cert_name", JStr (os_path_basename cert_file_path));
          ("debug_cert_path", JStr cert_file_path)] ;;
       ret (CertInfo false cid (os_path_basename cert_file_path) cert_file_path))
      w1.
Proof.
  intros Hstep Hp Hdc Hsame Hcid Htc Hoid Hto.
  pose proof (only_glob _ _ _ _ _ only_cert_list_step Hstep) as Hg.
  unfold create_and_download_debug_cert.
  rewrite (bind_done _ Hstep). cbv beta iota.
  unfold loads_or_exit. rewrite Hp. unfold bind at 1, ret at 1.
  rewrite Hdc. unfold bind at 1, must at 1, ret at 1.
  rewrite Hsame. unfold bind at 1, must at 1, ret at 1.
  unfold reuse_cert. rewrite Hcid, Hoid.
  unfold bind at 2, must at 1, ret at 1.
  unfold bind at 2, must at 1, ret at 1.
  rewrite Htc, Hto. cbn [andb].
  unfold bind at 2, get_globals at 1. cbv zeta.
  unfold bind at 2, os_path_isfile at 1.
  unfold bind at 1. cbv beta. rewrite Hg.
  fold (local_cert_path (glob w) name).
  destruct (match fs w1 (local_cert_path (glob w) name) with
            | Some _ => true
            | None => false
            end && py_eq cid existing).
  - reflexivity.
  - unfold bind.
    destruct (download_cert oid (name ++ ".cer")%string w1) as [[p| | |] w2];
      try reflexivity.
    match goal with
    | |- context [update_config ?kw w2] =>
        destruct (update_config kw w2) as [[[]| | |] w3]; reflexivity
    end.
Qed.


(** A profile request that returns has been sent. *)
Lemma submit_profile_calls pn pkg fn dev w info w' :
  submit_profile pn pkg fn dev w = (Done info, w') ->
  exists evs,
    trace w' = trace w ++ evs /\
    (1 <= count (is_call_in [provision_add_url]) evs)%nat.
Proof.
  unfold submit_profile. intros H.
  apply bind_inv in H. destruct H as (cert_id & wa & Ha & H).
  destruct (only_trace _ _ _ _ _ (only_get_config_value _) Ha) as (evs_a & Hta & _).
  destruct (negb (py_truthy cert_id)).
  { unfold bind, error_print, emit, sys_exit in H. discriminate H. }
  apply bind_inv in H. destruct H as ([body code] & wb & Hb & H).
  unfold create_profile in Hb.
  destruct (http_request_trace _ _ _ _ _ _ Hb) as (evs_b & Htb & _ & Hcb).
  destruct (only_trace _ _ _ _ _ (only_after_create_profile _ _ _) H)
    as (evs_c & Htc & _).
  exists (evs_a ++ evs_b ++ evs_c). split.
  - rewrite Htc, Htb, Hta, <- !app_assoc. reflexivity.
  - rewrite !count_app, Hcb. lia.
Qed.



(** ** What the requests carry *)

Lemma sends_of_only p (P : event -> Prop) {A} (m : M A) :
  (forall e, p e = true -> P e) -> only p m -> sends P m.
Proof.
  intros HpP Hm w. destruct (Hm w) as (_ & _ & _ & evs & Ht & Hp).
  exists evs. split; [exact Ht|].
  apply Forall_forall. intros e He. apply HpP.
  rewrite forallb_forall in Hp. exact (Hp e He).
Qed.

Lemma sends_bind (P : event -> Prop) {A B} (m : M A) (f : A -> M B) :
  sends P m -> (forall a, sends P (f a)) -> sends P (bind m f).
Proof.
  intros Hm Hf w. destruct (Hm w) as (evs & Ht & Hp). unfold bind.
  destruct (m w) as [[a| | |] w1]; simpl in Ht;
    try (exists evs; split; assumption).
  destruct (Hf a w1) as (evs2 & Ht2 & Hp2).
  exists (evs ++ evs2). split.
  - rewrite Ht2, Ht, app_assoc. reflexivity.
  - apply Forall_app. split; assumption.
Qed.

Lemma sends_ask (P : event -> Prop) {A} e (o : oracle -> list event -> A) :
  P e -> sends P (ask e o).
Proof.
  intros He w. exists [e]. split; [reflexivity | repeat constructor; exact He].
Qed.

Lemma sends_since (P : event -> Prop) {A} (m : M A) w e :
  sends P m -> In e (since w (snd (m w))) -> P e.
Proof.
  intros Hm Hin. destruct (Hm w) as (evs & Ht & Hp).
  rewrite (since_app _ _ _ Ht) in Hin.
  rewrite Forall_forall in Hp. exact (Hp e Hin).
Qed.

(** A step without request. *)
Ltac quiet Hq := solve [ apply (sends_of_only (fp [] true true) _ _ Hq); only_tac ].

Ltac sends_step Hq :=
  match goal with
  | |- sends _ _ => quiet Hq
  | |- sends _ (bind _ _) => apply sends_bind; [ | intros ]
  | |- sends _ (match ?x with _ => _ end) => destruct x
  end.

Ltac sends_tac Hq := cbv zeta; repeat (sends_step Hq; cbv zeta).

Lemma quiet_request_is m url data e :
  fp [] true true e = true -> request_is m url data e.
Proof. unfold request_is. destruct e; simpl; intros H Hh; congruence. Qed.

Lemma sends_http_request m url data :
  sends (request_is m url (match m with GET => None | POST => data end))
    (http_request m url data).
Proof.
  unfold http_request.
  sends_tac (quiet_request_is m url (match m with GET => None | POST => data end)).
  apply sends_ask. intros _. eexists. reflexivity.
Qed.

(** X19.  The profile is requested for the cached certificate and for
    the given device, and for nothing else: every request
    [submit_profile] sends is the profile creation whose certificate
    list is the non-empty ["debug_cert_id"] of the config and whose
    device list is the device it was given.  With no certificate
    identifier in the config it sends nothing. *)
Theorem profile_request_names_cached_cert :
  forall profile_name package_name profile_filename dev_id w e,
    In e (since w (snd (submit_profile profile_name package_name
                          profile_filename dev_id w))) ->
    is_http e = true ->
    exists cert_id headers,
      fst (get_config_value "debug_cert_id" w) = Done cert_id /\
      py_truthy cert_id = true /\
      e = EHttp POST provision_add_url headers
            (Some (profile_request profile_name package_name cert_id dev_id)).
Proof.
  intros pn pkg fn dev w e Hin Hhttp.
  unfold submit_profile in Hin. unfold bind at 1 in Hin.
  destruct (get_config_value "debug_cert_id" w) as [o0 w0] eqn:E0.
  destruct (only_trace _ _ _ _ _ (only_get_config_value "debug_cert_id") E0)
    as (evs0 & Ht0 & Hp0).
  assert (Hquiet : forall x, In x evs0 -> is_http x = false).
  { intros x Hx. rewrite forallb_forall in Hp0. specialize (Hp0 x Hx).
    destruct x; simpl in *; congruence. }
  destruct o0 as [cid| | |];
    try (simpl in Hin; rewrite (since_app _ _ _ Ht0) in Hin;
         rewrite (Hquiet e Hin) in Hhttp; discriminate Hhttp).
  destruct (py_truthy cid) eqn:Tc; cbn [negb] in Hin.
  - match type of Hin with
    | In e (since w (snd (?k w0))) =>
        assert (Hk : sends (request_is POST provision_add_url
                              (Some (profile_request pn pkg cid dev))) k)
    end.
    { unfold create_profile.
      apply sends_bind; [apply (sends_http_request POST)|].
      intros [body code].
      quiet (quiet_request_is POST provision_add_url
               (Some (profile_request pn pkg cid dev))). }
    destruct (Hk w0) as (evs & Ht & Hp).
    rewrite (since_app w _ (evs0 ++ evs)) in Hin
      by (rewrite Ht, Ht0, app_assoc; reflexivity).
    apply in_app_or in Hin. destruct Hin as [Hin | Hin].
    + rewrite (Hquiet e Hin) in Hhttp. discriminate Hhttp.
    + rewrite Forall_forall in Hp. destruct (Hp e Hin Hhttp) as (headers & ->).
      exists cid, headers. repeat split. exact Tc.
  - unfold bind, error_print, emit, sys_exit in Hin. simpl in Hin.
    rewrite (since_app w _ (evs0 ++ [EError [L "未找到 debug_cert_id，请先创建 Debug 证书"]]))
      in Hin by (simpl; rewrite Ht0, app_assoc; reflexivity).
    apply in_app_or in Hin. destruct Hin as [Hin | [<- | []]].
    + rewrite (Hquiet e Hin) in Hhttp. discriminate Hhttp.
    + discriminate Hhttp.
Qed.

Lemma profile_request_names_cached_cert_witness :
  exists cert_id,
    fst (get_config_value "debug_cert_id"
           (with_config silent (JObj [("debug_cert_id", JStr "A")])))
    = Done cert_id /\
    py_truthy cert_id = true.
Proof.
  destruct (profile_request_names_cached_cert PROFILE_NAME "com.example.app"
              "p.p7b" (JStr "D")
              (with_config silent (JObj [("debug_cert_id", JStr "A")]))
              (EHttp POST provision_add_url
                 [("Content-Type", JStr "application/json");
                  ("oauth2Token", JStr ""); ("teamId", JStr ""); ("uid", JStr "")]
                 (Some (profile_request PROFILE_NAME "com.example.app"
                          (JStr "A") (JStr "D")))))
    as (cid & headers & Hc & Ht & _).
  - vm_compute. left. reflexivity.
  - reflexivity.
  - exists cid. split; assumption.
Defined.

Lemma select_eq_in k v l r c :
  select_eq k v l = Some r -> In c r ->
  In c l /\ exists x, py_get c k JNull = Some x /\ py_eq x v = true.
Proof.
  revert r. induction l as [|a l IH]; simpl; intros r H Hin.
  - inversion H; subst. destruct Hin.
  - destruct (py_get a k JNull) as [x|] eqn:Ex; [|discriminate H].
    destruct (select_eq k v l) as [r'|]; [|discriminate H].
    destruct (py_eq x v) eqn:Eq; inversion H; subst.
    + destruct Hin as [<- | Hin].
      * split; [left; reflexivity | exists x; split; assumption].
      * destruct (IH r' eq_refl Hin) as [Hl Hx]. split; [right; exact Hl | exact Hx].
    + destruct (IH r eq_refl Hin) as [Hl Hx]. split; [right; exact Hl | exact Hx].
Qed.

Lemma same_ids_in name dc ids i :
  same_ids name dc = Some ids -> In i ids ->
  exists c n,
    In c dc /\
    py_get c "certName" JNull = Some n /\ py_eq n (JStr name) = true /\
    py_get c "id" JNull = Some i /\ py_truthy i = true.
Proof.
  revert ids. induction dc as [|a dc IH]; simpl; intros ids H Hin.
  - inversion H; subst. destruct Hin.
  - destruct (py_get a "certName" JNull) as [n|] eqn:En; [|discriminate H].
    destruct (py_get a "id" JNull) as [j|] eqn:Ej; [|discriminate H].
    destruct (same_ids name dc) as [r'|]; [|discriminate H].
    destruct (py_eq n (JStr name)) eqn:Eq; destruct (py_truthy j) eqn:Tj;
      simpl in H; inversion H; subst;
      try (destruct (IH _ eq_refl Hin) as (c & n' & Hc & Hrest);
           exists c, n'; split; [right; exact Hc | exact Hrest]).
    destruct Hin as [<- | Hin].
    + exists a, n. repeat split; try assumption. left. reflexivity.
    + destruct (IH _ eq_refl Hin) as (c & n' & Hc & Hrest).
      exists c, n'. split; [right; exact Hc | exact Hrest].
Qed.

(** X20.  Only debug certificates of the given name are ever deleted.
    Every request [delete_same_named] sends is one deletion; each
    identifier in it is the non-empty ["id"] of a listed certificate
    whose ["certType"] is 1 and whose ["certName"] is the name: a
    production certificate, or a certificate of another name, is never
    in it. *)
Theorem only_same_named_debug_certs_are_deleted :
  forall resp_json dc name w e,
    debug_certs_of resp_json = Some dc ->
    In e (since w (snd (delete_same_named name dc w))) ->
    is_http e = true ->
    exists ids,
      deletes ids e /\
      same_ids name dc = Some ids /\
      forall i, In i ids -> listed_debug_cert resp_json name i.
Proof.
  intros resp_json dc name w e Hdc Hin Hhttp.
  unfold delete_same_named in Hin.
  destruct (same_ids name dc) as [ids|] eqn:Eids.
  2: { simpl in Hin. unfold bind, raise in Hin. simpl in Hin.
       rewrite since_refl in Hin. destruct Hin. }
  simpl in Hin. unfold bind at 1, ret at 1 in Hin.
  assert (Hlisted : forall i, In i ids -> listed_debug_cert resp_json name i).
  { intros i Hi. destruct (same_ids_in _ _ _ _ Eids Hi)
      as (c & n & Hc & Hn & Hne & Hid & Ht).
    unfold debug_certs_of in Hdc.
    destruct (py_get resp_json "certList" (JArr [])) as [cert_list|] eqn:El;
      [|discriminate Hdc].
    destruct (py_iter cert_list) as [listed|] eqn:Ei; [|discriminate Hdc].
    destruct (select_eq_in _ _ _ _ _ Hdc Hc) as (Hcl & ty & Hty & Hteq).
    exists cert_list, listed, c, ty, n. repeat split; assumption. }
  destruct ids as [|i0 rest].
  { unfold ret in Hin. simpl in Hin. rewrite since_refl in Hin. destruct Hin. }
  assert (Hs : sends (request_is POST cert_delete_url
                        (Some (JObj [("certIds", JArr (i0 :: rest))])))
                 (delete_certs (i0 :: rest) ;; ret tt)).
  { unfold delete_certs.
    apply sends_bind; [apply (sends_http_request POST)|].
    intros r.
    quiet (quiet_request_is POST cert_delete_url
             (Some (JObj [("certIds", JArr (i0 :: rest))]))). }
  destruct (sends_since _ _ _ _ Hs Hin Hhttp) as (headers & ->).
  exists (i0 :: rest). split; [exists headers; reflexivity|].
  split; [reflexivity | exact Hlisted].
Qed.

Lemma only_same_named_debug_certs_are_deleted_witness :
  exists ids,
    same_ids CERT_NAME
      [listed_cert "Q" "OQ" "somebody-else"; listed_cert "A" "OA" CERT_NAME]
    = Some ids /\
    forall i, In i ids -> listed_debug_cert mixed_listing CERT_NAME i.
Proof.
  destruct (only_same_named_debug_certs_are_deleted mixed_listing
              [listed_cert "Q" "OQ" "somebody-else"; listed_cert "A" "OA" CERT_NAME]
              CERT_NAME (with_config silent (JObj []))
              (EHttp POST cert_delete_url
                 [("Content-Type", JStr "application/json");
                  ("oauth2Token", JStr ""); ("teamId", JStr ""); ("uid", JStr "")]
                 (Some (JObj [("certIds", JArr [JStr "A"])]))))
    as (ids & _ & Hs & Hl).
  - reflexivity.
  - vm_compute. left. reflexivity.
  - reflexivity.
  - exists ids. split; assumption.
Defined.

(** The config store says nothing but errors. *)
Lemma errors_get_config_value key : only is_error (get_config_value key).
Proof. unfold get_config_value, read_eco_config. only_tac. Qed.

Lemma errors_update_config kwargs : only is_error (update_config kwargs).
Proof. unfold update_config, read_eco_config, write_eco_config. only_tac. Qed.

(** X21.  Key material that is there is left alone: when the keystore
    and the signing request both exist (at the paths the config names,
    or at their defaults in the store directory), [prepare_csr] runs no
    external command, changes no file, and returns the content of the
    signing request. *)
Theorem prepare_csr_runs_no_tool_when_files_exist :
  forall w d keystore_path csr_path t,
    config_of w = JObj d ->
    as_str (py_or (lookup "keystore_file" d) (JStr (default_keystore (glob w))))
    = Some keystore_path ->
    as_str (py_or (lookup "csr_file" d) (JStr (default_csr (glob w))))
    = Some csr_path ->
    fs w keystore_path <> None ->
    fs w csr_path = Some t ->
    exists w',
      prepare_csr w = (Done (raw t), w') /\
      count is_exec (since w w') = 0%nat /\
      fs w' = fs w.
Proof.
  intros w d kp cp t Hc Hkp Hcp Hk Hcsr.
  unfold prepare_csr. unfold bind at 1, get_globals at 1.
  assert (Hget : forall k v,
             config_of v = JObj d ->
             exists v0 evs,
               get_config_value k v = (Done (lookup k d), v0) /\
               fs v0 = fs v /\ glob v0 = glob v /\
               trace v0 = trace v ++ evs /\ count is_exec evs = 0%nat).
  { intros k v Hv. destruct (get_config_value_run v d k Hv)
      as (v0 & Hr & Hf & Hg & _).
    destruct (only_trace _ _ _ _ _ (errors_get_config_value k) Hr) as (evs & Ht & Hp).
    exists v0, evs. repeat split; try assumption.
    apply (count_none is_error); [|exact Hp].
    intros e. destruct e; simpl; congruence. }
  assert (Hcfg : forall v v0, fs v0 = fs v -> glob v0 = glob v ->
                              config_of v = JObj d -> config_of v0 = JObj d).
  { intros v v0 Hf Hg Hv. rewrite (config_of_ext _ _ Hf Hg). exact Hv. }
  destruct (Hget "keystore_file" w Hc) as (w1 & e1 & H1 & Hf1 & Hg1 & Ht1 & Hx1).
  rewrite (bind_done _ H1). cbv zeta.
  destruct (Hget "storepass" w1 (Hcfg _ _ Hf1 Hg1 Hc))
    as (w2 & e2 & H2 & Hf2 & Hg2 & Ht2 & Hx2).
  rewrite (bind_done _ H2).
  assert (Hc2 : config_of w2 = JObj d).
  { apply (Hcfg w1); try assumption. apply (Hcfg w); assumption. }
  destruct (Hget "keyalias" w2 Hc2) as (w3 & e3 & H3 & Hf3 & Hg3 & Ht3 & Hx3).
  rewrite (bind_done _ H3).
  assert (Hks : create_keystore
                  (py_or (lookup "keystore_file" d)
                     (JStr (os_path_join (STORE_DIR (glob w)) ["xiaobai.p12"])))
                  (py_or (lookup "storepass" d) (JStr DEFAULT_STOREPASS))
                  (py_or (lookup "keyalias" d) (JStr DEFAULT_KEYALIAS))
                  "xiaobai" w3 = (Done tt, w3)).
  { unfold create_keystore. fold (default_keystore (glob w)). rewrite Hkp.
    cbn [must]. unfold bind at 1, ret at 1.
    unfold bind at 1, os_path_isfile at 1.
    rewrite Hf3, Hf2, Hf1.
    destruct (fs w kp); [reflexivity | contradiction]. }
  rewrite (bind_done _ Hks).
  assert (Hc3 : config_of w3 = JObj d) by (apply (Hcfg w2); assumption).
  destruct (Hget "csr_file" w3 Hc3) as (w4 & e4 & H4 & Hf4 & Hg4 & Ht4 & Hx4).
  rewrite (bind_done _ H4).
  assert (Hcs : create_csr
                  (py_or (lookup "keystore_file" d)
                     (JStr (os_path_join (STORE_DIR (glob w)) ["xiaobai.p12"])))
                  (py_or (lookup "csr_file" d)
                     (JStr (os_path_join (STORE_DIR (glob w)) ["xiaobai.csr"])))
                  (py_or (lookup "keyalias" d) (JStr DEFAULT_KEYALIAS))
                  (py_or (lookup "storepass" d) (JStr DEFAULT_STOREPASS))
                  w4 = (Done tt, w4)).
  { unfold create_csr. fold (default_csr (glob w)). rewrite Hcp.
    cbn [must]. unfold bind at 1, ret at 1.
    unfold bind at 1, os_path_isfile at 1.
    rewrite Hf4, Hf3, Hf2, Hf1, Hcsr. reflexivity. }
  rewrite (bind_done _ Hcs).
  unfold read_csr. fold (default_csr (glob w)). rewrite Hcp. cbn [must].
  unfold bind, ret, read_file. rewrite Hf4, Hf3, Hf2, Hf1, Hcsr.
  exists w4. split; [reflexivity|]. split.
  - rewrite (since_app w w4 (e1 ++ e2 ++ e3 ++ e4))
      by (rewrite Ht4, Ht3, Ht2, Ht1, <- !app_assoc; reflexivity).
    rewrite !count_app. lia.
  - congruence.
Qed.

Lemma prepare_csr_runs_no_tool_when_files_exist_witness :
  exists w',
    prepare_csr duplicates_world = (Done "csr", w') /\
    count is_exec (since duplicates_world w') = 0%nat.
Proof.
  destruct (prepare_csr_runs_no_tool_when_files_exist duplicates_world []
              (default_keystore dev_globals) (default_csr dev_globals)
              (plain "csr"))
    as (w' & H & Hx & _).
  - reflexivity.
  - reflexivity.
  - reflexivity.
  - vm_compute. discriminate.
  - reflexivity.
  - exists w'. split; assumption.
Defined.

Lemma replace_dots_same_file pn p1 p2 :
  replace_dots p1 = replace_dots p2 ->
  profile_file_name pn p1 = profile_file_name pn p2.
Proof. intros H. unfold profile_file_name. rewrite H. reflexivity. Qed.

(** X22.  The profile cache does not tell package names apart that
    differ only in [.] against [_]: a profile that is on disk for one
    package is returned, without any request, for every package whose
    name becomes the same once its dots are replaced; nor does the cache
    look at the certificate or the device. *)
Theorem profile_cache_ignores_dots :
  forall profile_name package1 package2 w d,
    replace_dots package1 = replace_dots package2 ->
    fs w (local_profile_path (glob w) profile_name package1) <> None ->
    config_of w = JObj d ->
    exists w',
      create_and_download_debug_profile profile_name package2 w
      = (Done (ProfileInfo (profile_file_name profile_name package1)
                 (local_profile_path (glob w) profile_name package1)), w') /\
      count is_http (since w w') = 0%nat /\
      count is_exec (since w w') = 0%nat.
Proof.
  intros pn p1 p2 w d Hsame Hfile Hc.
  unfold create_and_download_debug_profile.
  unfold bind at 1, get_globals at 1. cbv zeta.
  unfold bind at 1, os_path_isfile at 1.
  rewrite <- (replace_dots_same_file pn p1 p2 Hsame).
  fold (local_profile_path (glob w) pn p1).
  destruct (fs w (local_profile_path (glob w) pn p1)) as [c|]; [|contradiction].
  match goal with
  | |- context [update_config ?kw] =>
      destruct (update_config kw w) as [o w'] eqn:Eu;
      destruct (only_trace _ _ _ _ _ (errors_update_config kw) Eu) as (evs & Ht & Hp);
      destruct (update_config_outcome _ _ _ _ Eu) as [-> | [-> _]]
  end.
  - rewrite (bind_done _ Eu). exists w'. split; [reflexivity|].
    rewrite (since_app _ _ _ Ht).
    split; apply (count_none is_error); try assumption;
      intros e; destruct e; simpl; congruence.
  - exfalso. unfold update_config in Eu.
    destruct (read_eco_config_spec w) as (w0 & Hr & _).
    rewrite (bind_done _ Hr) in Eu. rewrite Hc, set_items_obj in Eu.
    simpl in Eu. unfold bind at 1 in Eu. simpl in Eu.
    unfold write_eco_config, bind, get_globals, is_locked, error_print, emit,
      dumps, do_ops, set_fs in Eu.
    simpl in Eu. destruct (locked w0 (ECO_CONFIG_FILE (glob w0)));
      discriminate Eu.
Qed.

Lemma profile_cache_ignores_dots_witness :
  exists w',
    create_and_download_debug_profile PROFILE_NAME "com.example_app" cached_world
    = (Done (ProfileInfo (profile_file_name PROFILE_NAME "com.example.app")
               (local_profile_path dev_globals PROFILE_NAME "com.example.app")),
       w') /\
    count is_http (since cached_world w') = 0%nat.
Proof.
  destruct (profile_cache_ignores_dots PROFILE_NAME "com.example.app"
              "com.example_app" cached_world [("debug_cert_id", JStr "A")])
    as (w' & H & Hh & _).
  - reflexivity.
  - vm_compute. discriminate.
  - reflexivity.
  - exists w'. split; assumption.
Defined.

(** ** Installing: the order of the commands *)

Lemma exec_cmds_app l1 l2 : exec_cmds (l1 ++ l2) = exec_cmds l1 ++ exec_cmds l2.
Proof. unfold exec_cmds. apply flat_map_app. Qed.

Lemma exec_cmds_none l : forallb no_exec l = true -> exec_cmds l = [].
Proof.
  induction l as [|e l IH]; simpl; intros H; [reflexivity|].
  apply andb_true_iff in H. destruct H as [He Hl].
  destruct e; simpl in *; try discriminate He; apply IH, Hl.
Qed.

Section Follows.
Variable g : globals.

Lemma follows_quiet {A} (m : M A) : only no_exec m -> follows g [] m.
Proof.
  intros Hm w Hg. destruct (Hm w) as (_ & _ & Hg1 & evs & Ht & Hp).
  split; [congruence|]. exists evs, []. split; [exact Ht|].
  rewrite (exec_cmds_none _ Hp). split; reflexivity.
Qed.

Lemma follows_abort script {A} (m : M A) :
  only no_exec m -> (forall w a, fst (m w) <> Done a) -> follows g script m.
Proof.
  intros Hm Hnever w Hg. destruct (Hm w) as (_ & _ & Hg1 & evs & Ht & Hp).
  split; [congruence|]. exists evs, script. split; [exact Ht|].
  rewrite (exec_cmds_none _ Hp). split; [reflexivity|].
  intros a Ha. destruct (Hnever w a Ha).
Qed.

Lemma follows_bind s1 s2 {A B} (m : M A) (f : A -> M B) :
  follows g s1 m -> (forall a, follows g s2 (f a)) ->
  follows g (s1 ++ s2) (bind m f).
Proof.
  intros Hm Hf w Hg. destruct (Hm w Hg) as (Hg1 & evs & rest & Ht & Hs & Hd).
  unfold bind. destruct (m w) as [[a| | |] w1]; simpl in *;
    try (split; [exact Hg1|]; exists evs, (rest ++ s2);
         split; [exact Ht|]; split; [rewrite Hs, app_assoc; reflexivity|];
         intros a Ha; discriminate Ha).
  destruct (Hf a w1 Hg1) as (Hg2 & evs2 & rest2 & Ht2 & Hs2 & Hd2).
  split; [exact Hg2|]. exists (evs ++ evs2), rest2.
  split; [rewrite Ht2, Ht, app_assoc; reflexivity|].
  split; [|exact Hd2].
  rewrite exec_cmds_app, Hs, Hs2, (Hd a eq_refl), app_nil_r, app_assoc.
  reflexivity.
Qed.

Lemma follows_bind_quiet s {A B} (m : M A) (f : A -> M B) :
  only no_exec m -> (forall a, follows g s (f a)) -> follows g s (bind m f).
Proof.
  intros Hm Hf. apply (follows_bind [] s); [apply follows_quiet, Hm | exact Hf].
Qed.

Lemma follows_with_globals s {B} (f : globals -> M B) :
  follows g s (f g) -> follows g s (bind get_globals f).
Proof.
  intros Hf w Hg. unfold bind, get_globals. rewrite Hg. exact (Hf w Hg).
Qed.

Lemma follows_with_value s {A B} (a : A) (f : A -> M B) :
  follows g s (f a) -> follows g s (bind (ret a) f).
Proof. intros Hf w Hg. exact (Hf w Hg). Qed.

Lemma follows_check_output cmd failed timed_out :
  follows g [cmd] (check_output cmd failed timed_out).
Proof.
  intros w Hg. unfold check_output, bind, ask.
  destruct (o_exec (env w) (trace w ++ [EExec cmd])) as [out wrote|out| |];
    unfold do_ops, set_fs, ret, error_print, emit, sys_exit, raise; simpl;
    (split; [exact Hg|]).
  - exists [EExec cmd], []. repeat split.
  - exists [EExec cmd; EError (failed ++ [L out])], [].
    rewrite <- app_assoc. repeat split.
  - exists [EExec cmd; EError timed_out], [].
    rewrite <- app_assoc. repeat split.
  - exists [EExec cmd], []. repeat split.
Qed.

Lemma follows_check_call cmd failed : follows g [cmd] (check_call cmd failed).
Proof.
  intros w Hg. unfold check_call, bind, ask.
  destruct (o_exec (env w) (trace w ++ [EExec cmd])) as [out wrote|out| |];
    unfold do_ops, set_fs, ret, error_print, emit, sys_exit, raise; simpl;
    (split; [exact Hg|]).
  - exists [EExec cmd], []. repeat split.
  - exists [EExec cmd; EError failed], [].
    rewrite <- app_assoc. repeat split.
  - exists [EExec cmd], []. repeat split.
  - exists [EExec cmd], []. repeat split.
Qed.
End Follows.

Ltac follows_quiet_tac := solve [only_tac].

Ltac never_done :=
  intros ? ?; unfold bind, error_print, emit, sys_exit; simpl; discriminate.

Lemma follows_connect_device g hdc ip :
  HDC_COMMAND g = Some hdc ->
  follows g [[hdc; "tconn"; ip]] (connect_device ip).
Proof.
  intros Hh. unfold connect_device.
  apply follows_with_globals. rewrite Hh. cbn [must].
  apply follows_with_value.
  apply (follows_bind g [[hdc; "tconn"; ip]] []);
    [apply follows_check_output | intros output].
  destruct (contains "Connect failed" output).
  - apply follows_abort; [only_tac | never_done].
  - apply follows_quiet. only_tac.
Qed.

Lemma follows_get_udid g hdc ip :
  HDC_COMMAND g = Some hdc ->
  follows g [[hdc; "-t"; ip; "shell"; "bm"; "get"; "--udid"]] (get_udid ip).
Proof.
  intros Hh. unfold get_udid.
  apply follows_with_globals. rewrite Hh. cbn [must].
  apply follows_with_value.
  apply (follows_bind g [[hdc; "-t"; ip; "shell"; "bm"; "get"; "--udid"]] []);
    [apply follows_check_output | intros output].
  destruct (split_lines (strip output)) as [|l0 [|l1 rest]].
  - apply follows_abort; [only_tac | never_done].
  - apply follows_abort; [only_tac | never_done].
  - apply follows_quiet. only_tac.
Qed.

(** X23.  [send_and_install] runs its five commands in their order and
    stops at the first one that fails: however it ends, the commands it
    started are a beginning of the list [hdc tconn], [bm get --udid],
    [mkdir -p], [file send], [bm install]; it returns only after all
    five; and when the package file is missing it starts none. *)
Theorem send_and_install_follows_script :
  forall hap_file hdc device_ip w o w',
    HDC_COMMAND (glob w) = Some hdc ->
    DEVICE_IP (glob w) = Some device_ip ->
    send_and_install hap_file w = (o, w') ->
    exists rest,
      install_script hdc device_ip hap_file = exec_cmds (since w w') ++ rest /\
      (o = Done tt -> rest = []) /\
      (fs w hap_file = None -> o = Exit /\ exec_cmds (since w w') = []).
Proof.
  intros hap hdc ip w o w' Hh Hd H.
  assert (Hf : follows (glob w) (install_script hdc ip hap) (send_and_install hap)).
  { unfold send_and_install.
    apply follows_bind_quiet; [only_tac | intros present].
    destruct present; cbn [negb].
    2: { apply follows_abort; [only_tac | never_done]. }
    apply follows_with_globals. rewrite Hd, Hh. cbn [must].
    apply follows_with_value.
    apply (follows_bind _ [[hdc; "tconn"; ip]]);
      [apply follows_connect_device, Hh | intros _].
    apply (follows_bind _ [[hdc; "-t"; ip; "shell"; "bm"; "get"; "--udid"]]);
      [apply follows_get_udid, Hh | intros udid].
    apply follows_with_value.
    apply (follows_bind _
             [[hdc; "-t"; ip; "shell"; "mkdir"; "-p"; "data/local/tmp/hap"]]);
      [apply follows_check_call | intros _].
    apply (follows_bind _
             [[hdc; "-t"; ip; "file"; "send"; hap; "data/local/tmp/hap/"]]);
      [apply follows_check_output | intros output].
    destruct (contains "finish" (lower output)); cbn [negb].
    2: { apply follows_abort; [only_tac | never_done]. }
    apply (follows_bind _
             [[hdc; "-t"; ip; "shell"; "bm"; "install"; "-p";
               ("data/local/tmp/hap/" ++ os_path_basename hap)%string]] []);
      [apply follows_check_output | intros output2].
    destruct (contains "successfully" (lower output2)).
    - apply follows_quiet. only_tac.
    - apply follows_abort; [only_tac | never_done]. }
  destruct (Hf w eq_refl) as (_ & evs & rest & Ht & Hs & Hdone).
  rewrite H in Ht, Hdone. simpl in Ht, Hdone.
  rewrite (since_app _ _ _ Ht).
  exists rest. split; [exact Hs|]. split.
  - intros ->. exact (Hdone tt eq_refl).
  - intros Hnone. unfold send_and_install in H.
    unfold bind at 1, os_path_isfile at 1 in H. rewrite Hnone in H.
    cbn [negb] in H. unfold bind, error_print, emit, sys_exit in H. simpl in H.
    inversion H; subst. simpl in Ht.
    apply app_inv_head in Ht. subst evs. split; reflexivity.
Qed.

Lemma send_and_install_follows_script_witness :
  exec_cmds
    (since (install_world willing_device)
       (snd (send_and_install "/home/dev/app_signed.hap"
               (install_world willing_device))))
  = install_script "/opt/hdc/hdc" "192.168.1.5:5555" "/home/dev/app_signed.hap".
Proof.
  destruct (send_and_install_follows_script "/home/dev/app_signed.hap"
              "/opt/hdc/hdc" "192.168.1.5:5555" (install_world willing_device)
              (Done tt)
              (snd (send_and_install "/home/dev/app_signed.hap"
                      (install_world willing_device))))
    as (rest & Hs & Hd & _).
  - reflexivity.
  - reflexivity.
  - vm_compute. reflexivity.
  - rewrite (Hd eq_refl), app_nil_r in Hs. symmetry. exact Hs.
Defined.

(** X24.  The connection test of the prerequisite check decides as
    [connect_device] does: on the same machine and with the same answer
    of [hdc tconn] both start that one command, both end the same way
    (returning, leaving the process, or raising) and leave the same
    files; they differ in what they print. *)
Theorem test_connect_agrees_with_connect :
  forall w device_ip,
    DEVICE_IP (glob w) = Some device_ip ->
    fst (test_connect_device w) = fst (connect_device device_ip w) /\
    fs (snd (test_connect_device w)) = fs (snd (connect_device device_ip w)) /\
    exec_cmds (since w (snd (test_connect_device w)))
    = exec_cmds (since w (snd (connect_device device_ip w))).
Proof.
  intros w ip Hd.
  assert (Hsince : forall f l g0 e0 evs,
             since w (World f l g0 e0 (trace w ++ evs)) = evs).
  { intros. apply since_app. reflexivity. }
  unfold test_connect_device, connect_device, check_output, bind, get_globals.
  simpl. rewrite Hd.
  destruct (HDC_COMMAND (glob w)) as [hdc|]; simpl; [|repeat split].
  unfold ask.
  destruct (o_exec (env w) (trace w ++ [EExec [hdc; "tconn"; ip]]))
    as [out wrote|out| |];
    unfold do_ops, set_fs, ret, error_print, emit, sys_exit, raise; simpl;
    try destruct (contains "Connect failed" out); simpl;
    rewrite <- ?app_assoc, !Hsince; repeat split.
Qed.

Lemma test_connect_agrees_with_connect_witness :
  fst (test_connect_device (install_world willing_device)) = Done tt /\
  fst (connect_device "192.168.1.5:5555" (install_world willing_device)) = Done tt.
Proof.
  destruct (test_connect_agrees_with_connect (install_world willing_device)
              "192.168.1.5:5555")
    as (Ho & _).
  - reflexivity.
  - split; [vm_compute; reflexivity | rewrite <- Ho; vm_compute; reflexivity].
Defined.

(** ** The module description: debug is switched on, nothing else *)

Lemma dict_set_same k v d : assoc k d = Some v -> dict_set k v d = d.
Proof.
  induction d as [|[k' v'] r IH]; simpl; intros H; [discriminate H|].
  destruct (String.eqb_spec k k') as [->|Hne].
  - inversion H; subst. reflexivity.
  - rewrite (IH H). reflexivity.
Qed.

(** What [set_app_debug] makes of a module description. *)
Lemma set_app_debug_spec d a :
  app_of d = JObj a ->
  set_app_debug (JObj d)
  = Some (JObj (dict_set "app" (JObj (dict_set "debug" (JBool true) a)) d)).
Proof.
  unfold app_of, set_app_debug. intros H.
  destruct (assoc "app" d) as [app|].
  - subst app. reflexivity.
  - inversion H; subst. reflexivity.
Qed.

Lemma rewrite_module_json_done unpack_dir w bn w' :
  rewrite_module_json unpack_dir w = (Done (Some bn), w') ->
  exists t d a,
    fs w (os_path_join unpack_dir ["module.json"]) = Some t /\
    parsed t = Some (JObj d) /\
    app_of d = JObj a /\
    bn = lookup "bundleName" a /\
    locked w (os_path_join unpack_dir ["module.json"]) = false /\
    w' = World
           (apply_ops
              (dump_ops (os_path_join unpack_dir ["module.json"])
                 (o_dumps (env w)
                    (JObj (dict_set "app"
                             (JObj (dict_set "debug" (JBool true) a)) d)))
                 (JObj (dict_set "app"
                          (JObj (dict_set "debug" (JBool true) a)) d)))
              (fs w))
           (locked w) (glob w) (env w) (trace w).
Proof.
  unfold rewrite_module_json. cbv zeta.
  set (p := os_path_join unpack_dir ["module.json"]).
  unfold bind at 1, os_path_isfile at 1.
  destruct (fs w p) as [t|] eqn:Ef; cbn [negb].
  2: { unfold bind, error_print, emit, ret. simpl. intros H. discriminate H. }
  unfold bind at 1, read_file at 1. rewrite Ef. cbn [must].
  unfold bind at 1, ret at 1.
  destruct (parsed t) as [module_data|] eqn:Ep.
  2: { unfold bind, error_print, emit, ret. simpl. intros H. discriminate H. }
  destruct module_data as [| | | | |d];
    try (simpl; unfold bind, raise; simpl; intros H; discriminate H).
  cbn [py_get must]. unfold bind at 1, ret at 1.
  fold (app_of d).
  destruct (app_of d) as [| | | | |a] eqn:Ea;
    try (simpl; unfold bind, raise; simpl; intros H; discriminate H).
  cbn [py_get must]. unfold bind at 1, ret at 1.
  rewrite (set_app_debug_spec d a Ea). cbn [must]. unfold bind at 1, ret at 1.
  unfold bind at 1, is_locked at 1.
  destruct (locked w p) eqn:El.
  { unfold raise. intros H. discriminate H. }
  unfold bind, dumps, do_ops, set_fs, ret. simpl. intros H.
  inversion H; subst.
  exists t, d, a. repeat split; try assumption.
Qed.

(** X25.  Between unpacking and packing, [update_get_hap_info] changes
    one thing in [module.json]: when it goes on with a bundle name, the
    file holds the old document with ["debug"] set to [True] in its
    ["app"] object (made if there was none); every other key of the
    document and of ["app"] has the value it had, the returned bundle
    name is the ["bundleName"] both documents hold, and no other file
    is changed. *)
Theorem module_json_only_gets_debug :
  forall unpack_dir w bundle_name w',
    rewrite_module_json unpack_dir w = (Done (Some bundle_name), w') ->
    exists d a d' a',
      document_at w (os_path_join unpack_dir ["module.json"]) = Some (JObj d) /\
      document_at w' (os_path_join unpack_dir ["module.json"]) = Some (JObj d') /\
      app_of d = JObj a /\ app_of d' = JObj a' /\
      assoc "debug" a' = Some (JBool true) /\
      lookup "bundleName" a = bundle_name /\
      lookup "bundleName" a' = bundle_name /\
      (forall k, k <> "debug" -> assoc k a' = assoc k a) /\
      (forall k, k <> "app" -> assoc k d' = assoc k d) /\
      (forall p, p <> os_path_join unpack_dir ["module.json"] ->
                 fs w' p = fs w p).
Proof.
  intros dir w bn w' H.
  destruct (rewrite_module_json_done _ _ _ _ H)
    as (t & d & a & Hf & Hp & Ha & -> & Hl & ->).
  set (p := os_path_join dir ["module.json"]) in *.
  exists d, a, (dict_set "app" (JObj (dict_set "debug" (JBool true) a)) d),
    (dict_set "debug" (JBool true) a).
  split; [unfold document_at; rewrite Hf; exact Hp|].
  split.
  { unfold document_at. cbn [fs]. unfold apply_ops, dump_ops.
    cbn [fold_left apply_op]. unfold upd. rewrite String.eqb_refl. reflexivity. }
  split; [exact Ha|].
  split; [unfold app_of; rewrite assoc_dict_set_same; reflexivity|].
  split; [apply assoc_dict_set_same|].
  split; [reflexivity|].
  split; [unfold lookup; rewrite assoc_dict_set_other by discriminate; reflexivity|].
  split; [intros k Hk; apply assoc_dict_set_other; congruence|].
  split; [intros k Hk; apply assoc_dict_set_other; congruence|].
  intros q Hq. cbn [fs]. unfold apply_ops, dump_ops.
  cbn [fold_left apply_op]. unfold upd.
  apply String.eqb_neq in Hq. rewrite Hq. reflexivity.
Qed.

Lemma module_json_only_gets_debug_witness :
  exists d',
    document_at (snd (rewrite_module_json "/tmp/hap_unpack_1" unpacked_world))
      "/tmp/hap_unpack_1/module.json" = Some (JObj d') /\
    assoc "module" d' = Some (JObj [("name", JStr "entry")]).
Proof.
  destruct (module_json_only_gets_debug "/tmp/hap_unpack_1" unpacked_world
              (JStr "com.example.app")
              (snd (rewrite_module_json "/tmp/hap_unpack_1" unpacked_world)))
    as (d & a & d' & a' & Hd & Hd' & _ & _ & _ & _ & _ & _ & Hkeep & _).
  - vm_compute. reflexivity.
  - exists d'. split; [exact Hd'|].
    rewrite Hkeep by discriminate.
    vm_compute in Hd. inversion Hd; subst. reflexivity.
Defined.

(** X26.  Processing the same unpacked package twice is harmless: after
    a first pass that went on with a bundle name, a second pass over
    the same directory returns the same bundle name, reports no error
    (it adds no event; what [info_print] writes to stdout on every pass
    is not an event) and leaves every file as the first pass left it. *)
Theorem module_json_rewrite_is_idempotent :
  forall unpack_dir w bundle_name w1,
    rewrite_module_json unpack_dir w = (Done (Some bundle_name), w1) ->
    exists w2,
      rewrite_module_json unpack_dir w1 = (Done (Some bundle_name), w2) /\
      (forall p, fs w2 p = fs w1 p) /\
      trace w2 = trace w1.
Proof.
  intros dir w bn w1 H.
  destruct (rewrite_module_json_done _ _ _ _ H)
    as (t & d & a & Hf & Hp & Ha & -> & Hl & ->).
  set (p := os_path_join dir ["module.json"]) in *.
  set (a' := dict_set "debug" (JBool true) a).
  set (d' := dict_set "app" (JObj a') d).
  assert (Ha' : app_of d' = JObj a').
  { unfold app_of, d'. rewrite assoc_dict_set_same. reflexivity. }
  assert (Hsame : dict_set "app" (JObj (dict_set "debug" (JBool true) a')) d' = d').
  { rewrite (dict_set_same "debug" (JBool true) a')
      by (unfold a'; apply assoc_dict_set_same).
    apply dict_set_same. unfold d'. apply assoc_dict_set_same. }
  fold a' d'.
  set (w1 := World (apply_ops (dump_ops p (o_dumps (env w) (JObj d')) (JObj d'))
                      (fs w))
                   (locked w) (glob w) (env w) (trace w)).
  assert (Hf1 : fs w1 p = Some (Text (o_dumps (env w) (JObj d')) (Some (JObj d')))).
  { unfold w1. cbn [fs]. unfold apply_ops, dump_ops. cbn [fold_left apply_op].
    unfold upd. rewrite String.eqb_refl. reflexivity. }
  unfold rewrite_module_json. cbv zeta. fold p.
  unfold bind at 1, os_path_isfile at 1. rewrite Hf1. cbn [negb].
  unfold bind at 1, read_file at 1. rewrite Hf1. cbn [must].
  unfold bind at 1, ret at 1. cbn [parsed py_get must].
  fold (app_of d'). rewrite Ha'. unfold bind at 1, ret at 1.
  cbn [py_get must]. unfold bind at 1, ret at 1.
  rewrite (set_app_debug_spec d' a' Ha'), Hsame. cbn [must].
  unfold bind at 1, ret at 1. unfold bind at 1, is_locked at 1.
  change (locked w1 p) with (locked w p). rewrite Hl.
  unfold bind, dumps, do_ops, set_fs, ret.
  eexists. split.
  - f_equal. f_equal. f_equal. unfold lookup, a'.
    rewrite assoc_dict_set_other by discriminate. reflexivity.
  - split; [|reflexivity]. intros q. cbn [fs].
    unfold apply_ops at 1, dump_ops at 1. cbn [fold_left apply_op]. unfold upd.
    destruct (String.eqb_spec q p) as [->|_]; [|reflexivity].
    rewrite Hf1. reflexivity.
Qed.

Lemma module_json_rewrite_is_idempotent_witness :
  fst (rewrite_module_json "/tmp/hap_unpack_1"
         (snd (rewrite_module_json "/tmp/hap_unpack_1" unpacked_world)))
  = Done (Some (JStr "com.example.app")).
Proof.
  destruct (module_json_rewrite_is_idempotent "/tmp/hap_unpack_1" unpacked_world
              (JStr "com.example.app")
              (snd (rewrite_module_json "/tmp/hap_unpack_1" unpacked_world)))
    as (w2 & H2 & _).
  - vm_compute. reflexivity.
  - rewrite H2. reflexivity.
Defined.

(** ** Runs that follow one another *)

Lemma errors_read_eco_config : only is_error read_eco_config.
Proof. unfold read_eco_config. only_tac. Qed.

Lemma errors_no (q : event -> bool) l :
  (forall m, q (EError m) = false) ->
  forallb is_error l = true -> count q l = 0%nat.
Proof.
  intros Hq. apply count_none. intros e. destruct e; simpl; try discriminate.
  intros _. apply Hq.
Qed.

(** The branch of [create_and_download_debug_profile] for a profile
    file that is there. *)
Lemma cached_profile_returned pn pkg w d :
  fs w (local_profile_path (glob w) pn pkg) <> None ->
  config_of w = JObj d ->
  exists w' evs,
    create_and_download_debug_profile pn pkg w
    = (Done (ProfileInfo (profile_file_name pn pkg)
               (local_profile_path (glob w) pn pkg)), w') /\
    trace w' = trace w ++ evs /\ forallb is_error evs = true /\
    (forall p, p <> ECO_CONFIG_FILE (glob w) -> fs w' p = fs w p).
Proof.
  intros Hfile Hc.
  unfold create_and_download_debug_profile.
  unfold bind at 1, get_globals at 1. cbv zeta.
  unfold bind at 1, os_path_isfile at 1.
  fold (local_profile_path (glob w) pn pkg).
  destruct (fs w (local_profile_path (glob w) pn pkg)) as [c|]; [|contradiction].
  match goal with
  | |- context [update_config ?kw] =>
      destruct (update_config kw w) as [o w'] eqn:Eu;
      destruct (only_trace _ _ _ _ _ (errors_update_config kw) Eu) as (evs & Ht & Hp);
      destruct (stays_update_config_only (glob w) (env w) kw w eq_refl eq_refl)
        as (_ & _ & Hframe);
      rewrite Eu in Hframe; simpl in Hframe;
      destruct (update_config_outcome _ _ _ _ Eu) as [-> | [-> _]]
  end.
  - rewrite (bind_done _ Eu). exists w', evs.
    split; [reflexivity|]. split; [exact Ht|]. split; [exact Hp|].
    intros p Hp'. apply Hframe. intros Heq. apply Hp'. symmetry. exact Heq.
  - exfalso. unfold update_config in Eu.
    destruct (read_eco_config_spec w) as (w0 & Hr & _).
    rewrite (bind_done _ Hr) in Eu. rewrite Hc, set_items_obj in Eu.
    simpl in Eu. unfold bind at 1 in Eu. simpl in Eu.
    unfold write_eco_config, bind, get_globals, is_locked, error_print, emit,
      dumps, do_ops, set_fs in Eu.
    simpl in Eu. destruct (locked w0 (ECO_CONFIG_FILE (glob w0)));
      discriminate Eu.
Qed.

(** X27.  A download that breaks off poisons the cache.  When the
    transfer of the profile fails after the local file has been opened,
    [download_file] ends the process and leaves what had arrived at the
    cache path; the next run finds a file there and returns it as the
    cached profile, torn as it is, without any request or download. *)
Theorem torn_download_is_taken_for_cached :
  forall profile_name package_name url w partial d,
    o_fetch (env w) (trace w ++ [EFetch url]) = FetchBroken partial ->
    locked w (local_profile_path (glob w) profile_name package_name) = false ->
    local_profile_path (glob w) profile_name package_name
    <> ECO_CONFIG_FILE (glob w) ->
    config_of w = JObj d ->
    exists w1 w2,
      download_file url (profile_file_name profile_name package_name) w
      = (Exit, w1) /\
      fs w1 (local_profile_path (glob w) profile_name package_name)
      = Some partial /\
      create_and_download_debug_profile profile_name package_name w1
      = (Done (ProfileInfo (profile_file_name profile_name package_name)
                 (local_profile_path (glob w) profile_name package_name)), w2) /\
      count is_http (since w1 w2) = 0%nat /\
      count is_fetch (since w1 w2) = 0%nat /\
      fs w2 (local_profile_path (glob w) profile_name package_name)
      = Some partial.
Proof.
  intros pn pkg url w partial d Hfetch Hl Hne Hc.
  set (p := local_profile_path (glob w) pn pkg) in *.
  set (w1 := World (apply_ops [OpOpenW p; OpWrite p partial] (fs w))
                   (locked w) (glob w) (env w)
                   ((trace w ++ [EFetch url]) ++ [EError [L "下载失败: "; X]])).
  assert (Hd : download_file url (profile_file_name pn pkg) w = (Exit, w1)).
  { unfold download_file. unfold bind at 1, get_globals at 1. cbv zeta.
    fold (local_profile_path (glob w) pn pkg). fold p.
    unfold bind at 1, ask at 1. rewrite Hfetch.
    unfold bind at 1, is_locked at 1. cbn [locked]. rewrite Hl.
    reflexivity. }
  assert (Hf1 : fs w1 p = Some partial).
  { unfold w1. cbn [fs]. unfold apply_ops. cbn [fold_left apply_op].
    unfold upd. rewrite String.eqb_refl. reflexivity. }
  assert (Hc1 : config_of w1 = JObj d).
  { rewrite <- Hc. unfold config_of, w1. cbn [fs glob].
    unfold apply_ops. cbn [fold_left apply_op]. unfold upd.
    destruct (String.eqb_spec (ECO_CONFIG_FILE (glob w)) p) as [Heq|_];
      [exfalso; apply Hne; symmetry; exact Heq | reflexivity]. }
  destruct (cached_profile_returned pn pkg w1 d) as (w2 & evs & H2 & Ht & Hp & Hframe).
  { change (glob w1) with (glob w). fold p. rewrite Hf1. discriminate. }
  { exact Hc1. }
  change (glob w1) with (glob w) in H2, Hframe. fold p in H2.
  exists w1, w2. split; [exact Hd|]. split; [exact Hf1|]. split; [exact H2|].
  rewrite (since_app _ _ _ Ht).
  split; [apply errors_no; [reflexivity | exact Hp]|].
  split; [apply errors_no; [reflexivity | exact Hp]|].
  rewrite (Hframe p Hne). exact Hf1.
Qed.

Lemma torn_download_is_taken_for_cached_witness :
  exists w1 w2,
    download_file (JStr "https://dl.example/p7b")
      (profile_file_name PROFILE_NAME "com.example.app") torn_world
    = (Exit, w1) /\
    create_and_download_debug_profile PROFILE_NAME "com.example.app" w1
    = (Done (ProfileInfo (profile_file_name PROFILE_NAME "com.example.app")
               (local_profile_path dev_globals PROFILE_NAME "com.example.app")),
       w2) /\
    fs w2 (local_profile_path dev_globals PROFILE_NAME "com.example.app")
    = Some (plain "MIIB").
Proof.
  destruct (torn_download_is_taken_for_cached PROFILE_NAME "com.example.app"
              (JStr "https://dl.example/p7b") torn_world (plain "MIIB")
              [("debug_cert_id", JStr "A")])
    as (w1 & w2 & H1 & _ & H2 & _ & _ & H3).
  - reflexivity.
  - reflexivity.
  - vm_compute. discriminate.
  - reflexivity.
  - exists w1, w2. split; [exact H1 | split; [exact H2 | exact H3]].
Defined.

(** The requests [http_request] sends carry the session of the config. *)
Lemma http_request_headers m url data w d o w' e :
  config_of w = JObj d ->
  http_request m url data w = (o, w') ->
  In e (since w w') -> is_http e = true ->
  e = EHttp m url
        [("Content-Type", JStr "application/json");
         ("oauth2Token", lookup "oauth2_token" d);
         ("teamId", lookup "team_id" d);
         ("uid", lookup "uid" d)]
        (match m with GET => None | POST => data end).
Proof.
  intros Hc H Hin Hhttp. unfold http_request in H.
  destruct (read_eco_config_spec w) as (w0 & Hr & _).
  destruct (only_trace _ _ _ _ _ errors_read_eco_config Hr) as (evs0 & Ht0 & Hp0).
  rewrite (bind_done _ Hr) in H. rewrite Hc in H. cbn [py_get must] in H.
  unfold bind at 1 2 3, ret at 1 2 3 in H. cbv zeta in H.
  fold (lookup "oauth2_token" d) (lookup "team_id" d) (lookup "uid" d) in H.
  unfold bind at 1, ask at 1 in H.
  assert (Hquiet : forall x, In x evs0 -> is_http x = false).
  { intros x Hx. rewrite forallb_forall in Hp0. specialize (Hp0 x Hx).
    destruct x; simpl in *; congruence. }
  match type of H with
  | context [trace w0 ++ [?ev]] => set (rq := ev) in *
  end.
  assert (Hcases : since w w' = evs0 ++ [rq] \/
                   exists msg, since w w' = evs0 ++ [rq; EError msg]).
  { destruct (o_http (env w0) (trace w0 ++ [rq])) as [[body code]|].
    - left. unfold ret in H. inversion H; subst. apply since_app.
      simpl. rewrite Ht0, <- app_assoc. reflexivity.
    - right. unfold bind, error_print, emit, ret in H. simpl in H.
      inversion H; subst. eexists. apply since_app.
      simpl. rewrite Ht0, <- !app_assoc. reflexivity. }
  destruct Hcases as [Hs | (msg & Hs)]; rewrite Hs in Hin;
    apply in_app_or in Hin; destruct Hin as [Hin | Hin];
    try (rewrite (Hquiet e Hin) in Hhttp; discriminate Hhttp).
  - destruct Hin as [<- | []]. reflexivity.
  - destruct Hin as [<- | [<- | []]]; [reflexivity | discriminate Hhttp].
Qed.

(** X28.  A login takes effect at the very next call.  After
    [login_eco] has collected a handoff and returned, with a config
    file that can be written, every request [http_request] sends
    carries the access token of that handoff as [oauth2Token] and its
    user identifier as both [teamId] and [uid]. *)
Theorem relogin_takes_effect :
  forall token_file log_path w w1 m url data o w2 e,
    login_collect token_file log_path w = (Done tt, w1) ->
    locked w (ECO_CONFIG_FILE (glob w)) = false ->
    http_request m url data w1 = (o, w2) ->
    In e (since w1 w2) -> is_http e = true ->
    exists t tokens access_token user_id,
      fs w token_file = Some t /\ parsed t = Some tokens /\
      py_get tokens "accessToken" (JStr "") = Some access_token /\
      py_get tokens "userId" (JStr "") = Some user_id /\
      e = EHttp m url (session_headers access_token user_id)
            (match m with GET => None | POST => data end).
Proof.
  intros tf lp w w1 m url data o w2 e Hlogin Hl Hreq Hin Hhttp.
  unfold login_collect in Hlogin.
  unfold bind at 1 in Hlogin. unfold read_file at 1 in Hlogin.
  destruct (fs w tf) as [t|] eqn:Et; [|discriminate Hlogin].
  destruct (parsed t) as [tokens|] eqn:Ep; [|discriminate Hlogin].
  unfold bind at 1 in Hlogin. unfold do_ops at 1, set_fs at 1 in Hlogin.
  fold (without_file w tf) in Hlogin.
  apply bind_inv in Hlogin. destruct Hlogin as (tok & wa & Ha & Hlogin).
  apply must_inv in Ha. destruct Ha as [Ha ->].
  apply bind_inv in Hlogin. destruct Hlogin as (uid & wb & Hb & Hlogin).
  apply must_inv in Hb. destruct Hb as [Hb ->].
  apply bind_inv in Hlogin. destruct Hlogin as (nick & wc & Hc & Hlogin).
  apply must_inv in Hc. destruct Hc as [Hc ->].
  destruct (negb (py_truthy tok) || negb (py_truthy uid)); [discriminate Hlogin|].
  destruct (update_config_done _ _ _ _ _ Hlogin) as (old & Hold).
  destruct (update_config_spec (without_file w tf) old (session_of tok uid nick) Hold)
    as (w1' & Hu & Hc1 & _).
  { exact Hl. }
  unfold session_of in Hu. rewrite Hlogin in Hu. inversion Hu; subst w1'.
  exists t, tokens, tok, uid. repeat split; try assumption.
  rewrite (http_request_headers _ _ _ _ _ _ _ _ Hc1 Hreq Hin Hhttp).
  unfold session_headers, lookup, session_of. simpl merge.
  rewrite (assoc_dict_set_other "oauth2_token" "nick_name") by discriminate.
  rewrite (assoc_dict_set_other "oauth2_token" "uid") by discriminate.
  rewrite (assoc_dict_set_other "oauth2_token" "team_id") by discriminate.
  rewrite assoc_dict_set_same.
  rewrite (assoc_dict_set_other "team_id" "nick_name") by discriminate.
  rewrite (assoc_dict_set_other "team_id" "uid") by discriminate.
  rewrite assoc_dict_set_same.
  rewrite (assoc_dict_set_other "uid" "nick_name") by discriminate.
  rewrite assoc_dict_set_same.
  reflexivity.
Qed.

Lemma relogin_takes_effect_witness :
  exists t tokens,
    fs (handoff_world complete_payload (JObj [])) "/tmp/eco_token_" = Some t /\
    parsed t = Some tokens /\
    py_get tokens "accessToken" (JStr "") = Some (JStr "tok").
Proof.
  destruct (relogin_takes_effect "/tmp/eco_token_" "/tmp/log"
              (handoff_world complete_payload (JObj []))
              (snd (login_collect "/tmp/eco_token_" "/tmp/log"
                      (handoff_world complete_payload (JObj []))))
              GET cert_list_url None
              (fst (get_cert_list
                      (snd (login_collect "/tmp/eco_token_" "/tmp/log"
                              (handoff_world complete_payload (JObj []))))))
              (snd (get_cert_list
                      (snd (login_collect "/tmp/eco_token_" "/tmp/log"
                              (handoff_world complete_payload (JObj []))))))
              (EHttp GET cert_list_url
                 (session_headers (JStr "tok") (JStr "u1")) None))
    as (t & tokens & tok & uid & Hf & Hp & Ha & _ & He).
  - vm_compute. reflexivity.
  - reflexivity.
  - vm_compute. reflexivity.
  - vm_compute. left. reflexivity.
  - reflexivity.
  - exists t, tokens. split; [exact Hf | split; [exact Hp|]].
    rewrite Ha. inversion He. reflexivity.
Defined.

Lemma lookup_dict_set_other k k' v d :
  k <> k' -> lookup k (dict_set k' v d) = lookup k d.
Proof. intros H. unfold lookup. rewrite assoc_dict_set_other by exact H. reflexivity. Qed.

Lemma lookup_dict_set_same k v d : lookup k (dict_set k v d) = v.
Proof. unfold lookup. rewrite assoc_dict_set_same. reflexivity. Qed.

Lemma initialized_idem d : initialized (initialized d) = initialized d.
Proof.
  unfold initialized.
  set (d1 := if py_truthy (lookup "storepass" d) then d
             else dict_set "storepass" (JStr DEFAULT_STOREPASS) d).
  assert (Hs1 : py_truthy (lookup "storepass" d1) = true).
  { unfold d1. destruct (py_truthy (lookup "storepass" d)) eqn:E; [exact E|].
    rewrite lookup_dict_set_same. reflexivity. }
  cbv zeta.
  destruct (py_truthy (lookup "keyAlias" d1)) eqn:Ek.
  - rewrite Hs1, Ek. reflexivity.
  - rewrite lookup_dict_set_other by discriminate. rewrite Hs1.
    rewrite lookup_dict_set_other by discriminate. rewrite Ek.
    apply dict_set_same. apply assoc_dict_set_same.
Qed.

Lemma dict_set_not_empty k v d : dict_set k v d <> [].
Proof.
  destruct d as [|[k' v'] r]; simpl; [discriminate|].
  destruct (String.eqb k k'); discriminate.
Qed.

Lemma initialized_not_empty d : initialized d <> [].
Proof.
  unfold initialized. cbv zeta.
  destruct (py_truthy (lookup "storepass" d)) eqn:E.
  - destruct (py_truthy (lookup "keyAlias" d));
      [|apply dict_set_not_empty].
    intros Hd0. rewrite Hd0 in E. discriminate E.
  - destruct (py_truthy
                (lookup "keyAlias"
                   (dict_set "storepass" (JStr DEFAULT_STOREPASS) d)));
      apply dict_set_not_empty.
Qed.

(** X29.  [initialize_eco_config] is idempotent: outside debug mode, on
    a stored mapping that can be written, a second initialization right
    after the first returns as well and leaves the document the first
    one left. *)
Theorem initialize_is_idempotent :
  forall w t d,
    DEBUG (glob w) = false ->
    fs w (ECO_CONFIG_FILE (glob w)) = Some t ->
    parsed t = Some (JObj d) ->
    locked w (ECO_CONFIG_FILE (glob w)) = false ->
    exists w1 w2,
      initialize_eco_config w = (Done tt, w1) /\
      initialize_eco_config w1 = (Done tt, w2) /\
      fst (read_eco_config w2) = fst (read_eco_config w1) /\
      fst (read_eco_config w1) = Done (JObj (initialized d)).
Proof.
  intros w t d Hd Hfs Hp Hl.
  assert (Hc : config_of w = JObj d)
    by (unfold config_of; rewrite Hfs, Hp; reflexivity).
  assert (Hrun : forall v dv,
             DEBUG (glob v) = false -> config_of v = JObj dv ->
             fs v (ECO_CONFIG_FILE (glob v)) <> None ->
             locked v (ECO_CONFIG_FILE (glob v)) = false ->
             exists v',
               initialize_eco_config v = (Done tt, v') /\
               config_of v' = JObj (initialized dv)).
  { intros v dv Hdv Hcv Hfv Hlv.
    unfold initialize_eco_config. unfold bind at 1. unfold get_globals.
    rewrite Hdv. unfold bind at 1. unfold ret at 1.
    exact (initialize_existing_doc v dv Hcv Hfv Hlv). }
  destruct (Hrun w d Hd Hc) as (w1 & H1 & Hc1).
  { rewrite Hfs. discriminate. }
  { exact Hl. }
  destruct (only_initialize_eco_config w) as (_ & Hl1 & Hg1 & _).
  rewrite H1 in Hl1, Hg1. simpl in Hl1, Hg1.
  destruct (Hrun w1 (initialized d)) as (w2 & H2 & Hc2).
  { rewrite Hg1. exact Hd. }
  { exact Hc1. }
  { intros Hnone. unfold config_of in Hc1. rewrite Hnone in Hc1.
    inversion Hc1 as [He]. symmetry in He. exact (initialized_not_empty d He). }
  { rewrite Hg1, Hl1. exact Hl. }
  exists w1, w2. split; [exact H1|]. split; [exact H2|].
  rewrite (read_of_config_of w2 _ Hc2), (read_of_config_of w1 _ Hc1).
  rewrite initialized_idem. split; reflexivity.
Qed.

Lemma initialize_is_idempotent_witness :
  exists w1 w2,
    initialize_eco_config (with_config silent (JObj [("oauth2_token", JStr "tok")]))
    = (Done tt, w1) /\
    initialize_eco_config w1 = (Done tt, w2) /\
    fst (read_eco_config w2) = fst (read_eco_config w1).
Proof.
  destruct (initialize_is_idempotent
              (with_config silent (JObj [("oauth2_token", JStr "tok")]))
              (Text "{...}" (Some (JObj [("oauth2_token", JStr "tok")])))
              [("oauth2_token", JStr "tok")])
    as (w1 & w2 & H1 & H2 & H3 & _).
  - reflexivity.
  - reflexivity.
  - reflexivity.
  - reflexivity.
  - exists w1, w2. split; [exact H1 | split; [exact H2 | exact H3]].
Defined.
